(** * kpi_insight_bot: database helpers, tools and suspend/resume workflows

  A shallow embedding of the TypeScript sources

  - [src/tools/db_shared.ts] and the tool wrappers around it,
  - [src/workflows/kpi_workflow.ts], [simple_kpi_workflow.ts] and
    [insight_workflow.ts],
  - [src/init-db.ts] and [src/mastra.ts],

  followed by the properties the specification states about them.

  Conventions.  A JavaScript string is a [string]; its characters are the
  code units U+0000..U+00FF (one [ascii] each), which is the range the
  embedding covers.  An array index or a row limit is an integer [Z]
  (the sources type them [number]; fractional values are outside the
  embedding), which stands for the Number nearest to it: itself, up to
  2^53 in magnitude.  A numeric alert threshold is a binary64 [float], as
  a JavaScript number is.  [undefined] and [null] are [None].  An object
  used as a record from names to values is the [gmap] of its own
  properties, over which a read [o[key]] also finds the members of
  [Object.prototype]; where the order of [Object.entries] matters, it is
  the list of its entries.  The statements sent to PostgreSQL are
  modelled by what they do to the rows of the two tables and by what they
  read from the catalog, and the writing ones also by what the server
  refuses of their parameters; a server that cannot be reached is
  modelled only for [ensureTables]. *)

From Stdlib Require Import ZArith Floats Ascii String.
From stdpp Require Import base option strings list gmap sorting pretty.

Open Scope string_scope.
Open Scope Z_scope.
Open Scope list_scope.

(** ** JavaScript primitives used by the sources *)

Module Js.

(** The Number nearest to an integer [m] above 2^53, ties to even, as a
    numeric literal or [JSON.parse] gives it: [f * 2^g] for the pair
    [(f, g)], with [2^52 <= f < 2^53]. *)
Definition binary64 (m : Z) : Z * Z :=
  let sh := Z.log2 m - 52 in
  let q := Z.shiftr m sh in
  let rem := m - Z.shiftl q sh in
  let half := Z.shiftl 1 (sh - 1) in
  let q' := if (half <? rem) || ((rem =? half) && Z.odd q) then q + 1 else q in
  if q' =? 2 ^ 53 then (2 ^ 52, sh + 1) else (q', sh).

(** The integers that are read as the Number [f * 2^g]: those up to half
    way to its two neighbours, the ends included when [f] is even; the
    neighbour below a power of two is half as far away. *)
Definition reads_as (f g v : Z) : bool :=
  let x := f * 2 ^ g in
  let up := 2 ^ (g - 1) in
  let down := if f =? 2 ^ 52 then 2 ^ (g - 2) else 2 ^ (g - 1) in
  if Z.even f then (x - down <=? v) && (v <=? x + up)
  else (x - down <? v) && (v <? x + up).

(** The multiple of [10^p] nearest to [f * 2^g] among those read as it. *)
Definition nearest_multiple (f g p : Z) : option Z :=
  let x := f * 2 ^ g in
  let below := x / 10 ^ p * 10 ^ p in
  let above := below + 10 ^ p in
  List.find (reads_as f g)
    (if x - below <=? above - x then [below; above] else [above; below]).

(** The integer with the most trailing zeros that is read as [f * 2^g],
    and the number of these zeros: its other digits are the fewest that
    name the Number. *)
Fixpoint fewest_digits (fuel : nat) (f g p : Z) (best : Z * Z) : Z * Z :=
  match fuel with
  | O => best
  | S fuel' =>
      match nearest_multiple f g p with
      | Some v => fewest_digits fuel' f g (p + 1) (v, p)
      | None => best
      end
  end.

(** [d.ddd] followed by [e+] and the exponent. *)
Definition exponent_form (digits : string) (exponent : Z) : string :=
  match digits with
  | EmptyString => EmptyString
  | String d EmptyString => String d EmptyString +:+ "e+" +:+ pretty exponent
  | String d rest => String d ("." +:+ rest) +:+ "e+" +:+ pretty exponent
  end.

(** [${n}] and [String(n)], which are [Number.prototype.toString]: an
    integer up to 2^53 in magnitude in its decimal digits; a larger one
    as the Number nearest to it, with the fewest digits that name that
    Number, followed by zeros when this makes at most 21 digits and in
    exponent form from 1e21 on; [Infinity] from 2^1024 - 2^970 on. *)
Definition number_toString (n : Z) : string :=
  if Z.abs n <=? 2 ^ 53 then pretty n
  else
    let '(f, g) := binary64 (Z.abs n) in
    let sign := if n <? 0 then "-" else "" in
    if 972 <=? g then sign +:+ "Infinity"
    else
      let '(v, p) := fewest_digits 400 f g 0 (f * 2 ^ g, 0) in
      let digits := pretty (v / 10 ^ p) in
      let places := Z.of_nat (String.length digits) + p in
      sign +:+ (if places <=? 21 then pretty v else exponent_form digits (places - 1)).

(** [Number.isSafeInteger(n)]. *)
Definition isSafeInteger (n : Z) : bool := Z.abs n <=? 2 ^ 53 - 1.

(** Truthiness of a string: every string but the empty one. *)
Definition truthy (s : string) : bool := negb (String.eqb s "").

(** Truthiness of a number: everything but [0], [-0] and [NaN]. *)
Definition truthy_number (x : float) : bool :=
  negb (PrimFloat.eqb x 0%float || negb (PrimFloat.eqb x x)).

(** [x || null] for an optional string [x]. *)
Definition or_null (x : option string) : option string :=
  match x with
  | Some s => if truthy s then Some s else None
  | None => None
  end.

(** [x || null] for an optional number [x]. *)
Definition or_null_number (x : option float) : option float :=
  match x with
  | Some n => if truthy_number n then Some n else None
  | None => None
  end.

(** [x || y] for an optional string [x] and a string [y]. *)
Definition or_else (x : option string) (y : string) : string :=
  match x with
  | Some s => if truthy s then s else y
  | None => y
  end.

(** [s.startsWith(p)]. *)
Fixpoint startsWith (s p : string) : bool :=
  match p, s with
  | EmptyString, _ => true
  | String _ _, EmptyString => false
  | String a p', String b s' => Ascii.eqb a b && startsWith s' p'
  end.

(** [s.includes(sub)]: [sub] occurs at some position of [s]. *)
Fixpoint includes (s sub : string) : bool :=
  startsWith s sub ||
  match s with
  | EmptyString => false
  | String _ s' => includes s' sub
  end.

(** [s.split(sep)] for a one-character separator; never empty:
    [''.split('.')] is [['']]. *)
Fixpoint split (sep : ascii) (s : string) : list string :=
  match s with
  | EmptyString => [EmptyString]
  | String c s' =>
      if Ascii.eqb c sep then EmptyString :: split sep s'
      else match split sep s' with
           | h :: t => String c h :: t
           | [] => [String c EmptyString]
           end
  end.

(** [a[i]]: [undefined] outside the array. *)
Definition index {A} (a : list A) (i : Z) : option A :=
  if i <? 0 then None else a !! Z.to_nat i.

(** [a.join(sep)]. *)
Fixpoint join (sep : string) (a : list string) : string :=
  match a with
  | [] => ""
  | [x] => x
  | x :: rest => x +:+ sep +:+ join sep rest
  end.

(** [a.map((x, index) => f(index, x))], counting from [from]. *)
Fixpoint mapi_from {A B} (from : Z) (f : Z -> A -> B) (a : list A) : list B :=
  match a with
  | [] => []
  | x :: rest => f from x :: mapi_from (from + 1) f rest
  end.

Definition mapi {A B} (f : Z -> A -> B) (a : list A) : list B :=
  mapi_from 0 f a.

(** White space as [String.prototype.trim] sees it, among U+0000..U+00FF:
    TAB, LF, VT, FF, CR, SPACE and NO-BREAK SPACE. *)
Definition is_white_space (c : ascii) : bool :=
  let n := nat_of_ascii c in
  (Nat.leb 9 n && Nat.leb n 13) || Nat.eqb n 32 || Nat.eqb n 160.

Fixpoint trimStart (s : string) : string :=
  match s with
  | EmptyString => EmptyString
  | String c s' => if is_white_space c then trimStart s' else s
  end.

Fixpoint trimEnd (s : string) : string :=
  match s with
  | EmptyString => EmptyString
  | String c s' =>
      let r := trimEnd s' in
      if is_white_space c && String.eqb r "" then EmptyString else String c r
  end.

(** [s.trim()]. *)
Definition trim (s : string) : string := trimEnd (trimStart s).

(** [s.replace(/;$/, '')]: the pattern is tried at each position from the
    left; it matches a [;] that is followed by the end of the input (no
    [m] flag), and the first match is replaced by the empty string. *)
Fixpoint replace_semicolon_at_end (s : string) : string :=
  match s with
  | EmptyString => EmptyString
  | String c s' =>
      if Ascii.eqb c ";" && String.eqb s' "" then EmptyString
      else String c (replace_semicolon_at_end s')
  end.

(** What a read [o[key]] finds on [Object.prototype] when the object has
    no own property [key]: a method, with the number of parameters that
    its [length] gives, or, under [__proto__], the prototype itself. *)
Inductive Inherited : Type :=
| method (arity : Z)
| prototype.

Definition Object_prototype (key : string) : option Inherited :=
  if existsb (String.eqb key) ["toString"; "toLocaleString"; "valueOf"]
  then Some (method 0)
  else if existsb (String.eqb key)
            ["constructor"; "hasOwnProperty"; "isPrototypeOf"; "propertyIsEnumerable";
             "__lookupGetter__"; "__lookupSetter__"]
  then Some (method 1)
  else if existsb (String.eqb key) ["__defineGetter__"; "__defineSetter__"]
  then Some (method 2)
  else if String.eqb key "__proto__" then Some prototype
  else None.

(** What [throw] carries: [new Error(message)], the [TypeError] of a
    property read on [undefined] or of a call of what is no function, or
    an error of the database driver with its SQLSTATE code. *)
Inductive Exception : Type :=
| Error (message : string)
| TypeError (message : string)
| DatabaseError (code : string).

(** An awaited promise: fulfilled with a value or rejected. *)
Inductive Outcome (A : Type) : Type :=
| Fulfilled (value : A)
| Rejected (reason : Exception).
Arguments Fulfilled {A} value.
Arguments Rejected {A} reason.

End Js.

(** ** The database: [src/tools/db_shared.ts] and the tools over it *)

Module Kpi.
(** A row of table [kpi]; [name] is the primary key, [columns] the JSONB
    value that [JSON.stringify] of the string array is stored as. *)
Record Row : Type := {
  name : string;
  description : option string;
  formula : string;
  table_name : option string;
  columns : option (list string);
  created_at : Z
}.
End Kpi.

Module Insight.
(** A row of table [insight]; [id] comes from the table's sequence. *)
Record Row : Type := {
  id : Z;
  name : string;
  description : option string;
  kpi_name : option string;
  formula : string;
  schedule : option string;
  exec_time : option string;
  alert_high : option float;
  alert_low : option float;
  created_at : Z
}.
End Insight.

Module Db.
Import Js.

(** A row of [information_schema.columns], with the fields the queries
    read. *)
Record CatalogColumn : Type := {
  table_schema : string;
  table_name : string;
  column_name : string;
  data_type : string;
  ordinal_position : Z
}.

(** What [listColumns] returns for one column. *)
Record Column : Type := {
  col_name : string;
  col_type : string
}.

(** The state behind the connection pool, once the tables exist. *)
Record Database : Type := {
  kpi : list Kpi.Row;
  insight : list Insight.Row;
  insight_id_seq : Z;
  information_schema_columns : list CatalogColumn
}.

(** A statement run through [pool.query]: its outcome and the state it
    leaves. *)
Definition Query (A : Type) : Type := Database -> Outcome A * Database.

(** *** What the server refuses of a parameter

    A text of PostgreSQL holds no U+0000.  A text parameter with that
    character in it is refused when the statement is bound, with SQLSTATE
    22021 and before anything is executed.  In the text that
    [JSON.stringify] makes of an array the character is written as the
    escape [\u0000], which the input of a JSONB value refuses with
    SQLSTATE 22P05.  The parameters are read in their order. *)
Definition has_nul (s : string) : bool :=
  existsb (Ascii.eqb Ascii.zero) (list_ascii_of_string s).

Definition has_nul_or_null (x : option string) : bool :=
  match x with
  | Some s => has_nul s
  | None => false
  end.

(** *** [listColumns] / [listColumnsTool] *)

(** The two query parameters [[schema, tableName]]. *)
Definition schema_and_table (table : string) : option string * option string :=
  if includes table "." then
    let parts := split "." table in
    (index parts 0, index parts 1)
  else (Some "public", Some table).

Definition by_ordinal_position (a b : CatalogColumn) : Prop :=
  ordinal_position a <= ordinal_position b.

#[export] Instance by_ordinal_position_dec a b : Decision (by_ordinal_position a b).
Proof. unfold by_ordinal_position. apply _. Defined.

Definition matches (schema tableName : option string) (c : CatalogColumn) : Prop :=
  Some (table_schema c) = schema /\ Some (table_name c) = tableName.

#[export] Instance matches_dec schema tableName c : Decision (matches schema tableName c).
Proof. unfold matches. apply _. Defined.

(** The select list [column_name, data_type]. *)
Definition selected (c : CatalogColumn) : Column :=
  {| col_name := column_name c; col_type := data_type c |}.

(** [SELECT column_name, data_type FROM information_schema.columns
     WHERE table_schema=$1 AND table_name=$2 ORDER BY ordinal_position],
    for parameters that the server takes as texts: the names of the
    catalog, which the workflows pass on, have no U+0000 in them. *)
Definition select_columns (schema tableName : option string)
    (catalog : list CatalogColumn) : list Column :=
  selected <$>
    merge_sort by_ordinal_position (filter (matches schema tableName) catalog).

Definition listColumns (table : string) : Query (list Column) :=
  fun db =>
    let '(schema, tableName) := schema_and_table table in
    (Fulfilled (select_columns schema tableName (information_schema_columns db)), db).

(** [listColumnsTool.execute({context: {table}})] returns [{columns}]. *)
Definition listColumnsTool (table : string) : Query (list Column) :=
  fun db =>
    let '(schema, tableName) := schema_and_table table in
    (Fulfilled (select_columns schema tableName (information_schema_columns db)), db).

(** *** [insertKPI] / [saveKPITool] *)

(** [INSERT INTO kpi (name, description, formula, table_name, columns)
     VALUES ($1..$5) ON CONFLICT (name) DO UPDATE SET description =
     EXCLUDED.description, formula = EXCLUDED.formula, table_name =
     EXCLUDED.table_name, columns = EXCLUDED.columns], run at time [now]:
    a row whose [name] is [$1] gets the four listed fields assigned; when
    there is none, a row is added, [created_at] taking its default
    [NOW()]. *)
Definition on_conflict_update (p2 : option string) (p3 : string)
    (p4 : option string) (p5 : option (list string)) (r : Kpi.Row) : Kpi.Row :=
  {| Kpi.name := Kpi.name r;
     Kpi.description := p2;
     Kpi.formula := p3;
     Kpi.table_name := p4;
     Kpi.columns := p5;
     Kpi.created_at := Kpi.created_at r |}.

Definition insert_kpi_on_conflict (now : Z) (p1 : string) (p2 : option string)
    (p3 : string) (p4 : option string) (p5 : option (list string))
    (rows : list Kpi.Row) : list Kpi.Row :=
  if existsb (fun r => String.eqb (Kpi.name r) p1) rows then
    (fun r => if String.eqb (Kpi.name r) p1
              then on_conflict_update p2 p3 p4 p5 r else r) <$> rows
  else
    rows ++ [ {| Kpi.name := p1; Kpi.description := p2; Kpi.formula := p3;
                 Kpi.table_name := p4; Kpi.columns := p5;
                 Kpi.created_at := now |} ].

Definition with_kpi (db : Database) (rows : list Kpi.Row) : Database :=
  {| kpi := rows; insight := insight db; insight_id_seq := insight_id_seq db;
     information_schema_columns := information_schema_columns db |}.

(** What the server refuses of the five parameters: [$1] to [$4] are
    texts, [$5] is the JSON text of the string array, for a JSONB column. *)
Definition refuses_kpi (p1 : string) (p2 : option string) (p3 : string)
    (p4 : option string) (p5 : option (list string)) : option Exception :=
  if has_nul p1 || has_nul_or_null p2 || has_nul p3 || has_nul_or_null p4
  then Some (DatabaseError "22021")
  else if existsb has_nul (default [] p5) then Some (DatabaseError "22P05")
  else None.

(** The statement through [pool.query]: refused with the table as it
    was, or executed. *)
Definition upsert_kpi (now : Z) (p1 : string) (p2 : option string) (p3 : string)
    (p4 : option string) (p5 : option (list string)) : Query unit :=
  fun db =>
    match refuses_kpi p1 p2 p3 p4 p5 with
    | Some e => (Rejected e, db)
    | None =>
        (Fulfilled (), with_kpi db (insert_kpi_on_conflict now p1 p2 p3 p4 p5 (kpi db)))
    end.

(** The argument of [insertKPI]. *)
Record KpiData : Type := {
  data_name : string;
  data_description : option string;
  data_formula : string;
  data_table_name : option string;
  data_columns : option (list string)
}.

Definition insertKPI (now : Z) (data : KpiData) : Query unit :=
  upsert_kpi now
    (data_name data)
    (or_null (data_description data))
    (data_formula data)
    (or_null (data_table_name data))
    (data_columns data).

(** The [context] of [saveKPITool]. *)
Record SaveKpiContext : Type := {
  ctx_name : string;
  ctx_description : option string;
  ctx_formula : string;
  ctx_table : option string;
  ctx_columns : option (list string)
}.

(** What the save tools return. *)
Record SaveResult : Type := {
  success : bool;
  message : string
}.

(** [`${kind} '${name}' saved successfully`]. *)
Definition saved_message (kind name : string) : string :=
  kind +:+ " '" +:+ name +:+ "' saved successfully".

(** [await pool.query(...)] and then the [return]: a refused statement
    rejects [execute], and nothing is returned. *)
Definition saveKPITool (now : Z) (context : SaveKpiContext) : Query SaveResult :=
  fun db =>
    match upsert_kpi now
            (ctx_name context)
            (or_null (ctx_description context))
            (ctx_formula context)
            (or_null (ctx_table context))
            (ctx_columns context) db with
    | (Fulfilled _, db') =>
        (Fulfilled {| success := true;
                      message := saved_message "KPI" (ctx_name context) |}, db')
    | (Rejected e, db') => (Rejected e, db')
    end.

(** *** [insertInsight] / [saveInsightTool] *)

(** [INSERT INTO insight (name, description, kpi_name, formula, schedule,
     exec_time, alert_high, alert_low) VALUES ($1..$8)], run at time [now].
    The six texts [$1] to [$6] are refused with a U+0000 in them, before
    the statement is executed; the two thresholds, sent as the Number is
    written, are taken by the NUMERIC columns (the infinities from
    PostgreSQL 14 on).  When the statement is executed, [id] takes the
    next value of the sequence, which is used up whether or not the row is
    kept; [kpi_name REFERENCES kpi(name)] rejects a non-null [$3] that
    names no row of [kpi] (SQLSTATE 23503). *)
Definition refuses_insight (p1 : string) (p2 p3 : option string) (p4 : string)
    (p5 p6 : option string) : bool :=
  has_nul p1 || has_nul_or_null p2 || has_nul_or_null p3 || has_nul p4
  || has_nul_or_null p5 || has_nul_or_null p6.

Definition references_kpi (p3 : option string) (rows : list Kpi.Row) : bool :=
  match p3 with
  | None => true
  | Some k => existsb (fun r => String.eqb (Kpi.name r) k) rows
  end.

Definition insert_insight (now : Z) (p1 : string) (p2 p3 : option string)
    (p4 : string) (p5 p6 : option string) (p7 p8 : option float) : Query unit :=
  fun db =>
    let row := {| Insight.id := insight_id_seq db;
                  Insight.name := p1;
                  Insight.description := p2;
                  Insight.kpi_name := p3;
                  Insight.formula := p4;
                  Insight.schedule := p5;
                  Insight.exec_time := p6;
                  Insight.alert_high := p7;
                  Insight.alert_low := p8;
                  Insight.created_at := now |} in
    if refuses_insight p1 p2 p3 p4 p5 p6 then (Rejected (DatabaseError "22021"), db)
    else if references_kpi p3 (kpi db) then
      (Fulfilled (),
       {| kpi := kpi db; insight := insight db ++ [row];
          insight_id_seq := insight_id_seq db + 1;
          information_schema_columns := information_schema_columns db |})
    else
      (Rejected (DatabaseError "23503"),
       {| kpi := kpi db; insight := insight db;
          insight_id_seq := insight_id_seq db + 1;
          information_schema_columns := information_schema_columns db |}).

(** The argument of [insertInsight] and the [context] of
    [saveInsightTool]. *)
Record InsightData : Type := {
  in_name : string;
  in_description : option string;
  in_kpi_name : option string;
  in_formula : string;
  in_schedule : option string;
  in_exec_time : option string;
  in_alert_high : option float;
  in_alert_low : option float
}.

(** Whether the server takes the texts that are sent for [data]. *)
Definition takes_insight (data : InsightData) : bool :=
  negb (refuses_insight
          (in_name data)
          (or_null (in_description data))
          (or_null (in_kpi_name data))
          (in_formula data)
          (or_null (in_schedule data))
          (or_null (in_exec_time data))).

Definition insertInsight (now : Z) (data : InsightData) : Query unit :=
  insert_insight now
    (in_name data)
    (or_null (in_description data))
    (or_null (in_kpi_name data))
    (in_formula data)
    (or_null (in_schedule data))
    (or_null (in_exec_time data))
    (or_null_number (in_alert_high data))
    (or_null_number (in_alert_low data)).

(** [saveInsightTool] of [db_tools.ts], with the statement inline. *)
Definition saveInsightTool (now : Z) (context : InsightData) : Query SaveResult :=
  fun db =>
    match insert_insight now
            (in_name context)
            (or_null (in_description context))
            (or_null (in_kpi_name context))
            (in_formula context)
            (or_null (in_schedule context))
            (or_null (in_exec_time context))
            (or_null_number (in_alert_high context))
            (or_null_number (in_alert_low context)) db with
    | (Fulfilled _, db') =>
        (Fulfilled {| success := true;
                      message := saved_message "Insight" (in_name context) |}, db')
    | (Rejected e, db') => (Rejected e, db')
    end.

(** [x ?? undefined]. *)
Definition or_undefined {A} (x : option A) : option A := x.

(** [saveInsightTool] of [db_insight_tools.ts], through [insertInsight]. *)
Definition saveInsightTool_shared (now : Z) (context : InsightData) : Query SaveResult :=
  fun db =>
    match insertInsight now
            {| in_name := in_name context;
               in_description := or_undefined (in_description context);
               in_kpi_name := or_undefined (in_kpi_name context);
               in_formula := in_formula context;
               in_schedule := or_undefined (in_schedule context);
               in_exec_time := or_undefined (in_exec_time context);
               in_alert_high := or_undefined (in_alert_high context);
               in_alert_low := or_undefined (in_alert_low context) |} db with
    | (Fulfilled _, db') =>
        (Fulfilled {| success := true;
                      message := saved_message "Insight" (in_name context) |}, db')
    | (Rejected e, db') => (Rejected e, db')
    end.

(** *** [runQuery] / [runQueryTool] *)

(** The text handed to [pool.query]:
    [`${sql.trim().replace(/;$/, '')} LIMIT ${sample};`]. *)
Definition limitedSql (sql : string) (sample : Z) : string :=
  replace_semicolon_at_end (trim sql) +:+ " LIMIT " +:+ number_toString sample +:+ ";".

Section Engine.
  (** The rows of a result set and the server's execution of a statement
      text are the database engine's; the helpers only pass text to it. *)
Variable ResultRow : Type.
Variable pool_query : string -> Query (list ResultRow).

  (** [runQuery(sql, sample = 5)]. *)
Definition runQuery (sql : string) (sample : option Z) : Query (list ResultRow) :=
    pool_query (limitedSql sql (default 5 sample)).

  (** [runQueryTool]: [limit] is optional in the input schema, with
      default 5; [execute] reads the parsed [context.limit]. *)
Definition runQueryTool_input (limit : option Z) : Z := default 5 limit.

Definition runQueryTool (sql : string) (limit : Z) : Query (list ResultRow) :=
    pool_query (limitedSql sql limit).
End Engine.

End Db.

(** ** Workflow steps *)

(** What a step's [execute] settles to: [suspend(payload)], the returned
    output, or a thrown exception, which aborts the run. *)
Inductive StepResult (S O : Type) : Type :=
| Suspended (payload : S)
| Completed (output : O)
| Failed (error : Js.Exception).
Arguments Suspended {S O} payload.
Arguments Completed {S O} output.
Arguments Failed {S O} error.

Definition is_suspended {S O} (r : StepResult S O) : bool :=
  match r with Suspended _ => true | _ => false end.

(** The [context] of [generateSQLTool], whose module [sql_generator] calls
    the language model; the step reads [result.sql]. *)
Record GenerateContext : Type := {
  gen_intent : string;
  gen_tables : list string;
  gen_columns : list string;
  gen_limit : Z
}.

(** A double quote, for the messages that show JSON. *)
Definition dq : string := String (ascii_of_nat 34) EmptyString.

(** Truthiness of an optional string. *)
Definition truthy_opt (x : option string) : bool :=
  match x with
  | Some s => Js.truthy s
  | None => false
  end.

(** *** [kpi_workflow.ts]: the index-based KPI workflow *)

Module KpiWorkflow.
Import Js Db.

(** **** select-tables *)

Record IndexedTable : Type := {
  it_index : Z;
  it_name : string
}.

Record SelectTablesSuspend : Type := {
  availableTables : list IndexedTable;
  st_message : string
}.

Record SelectTablesResume : Type := {
  selectedTableIndexes : list Z
}.

Definition selectTables_suspend (tables : list string) : SelectTablesSuspend :=
  {| availableTables := mapi (fun index name => {| it_index := index; it_name := name |}) tables;
     st_message := "Select tables by providing their index numbers. Example: {"
                   +:+ dq +:+ "selectedTableIndexes" +:+ dq +:+ ": [0]}" |}.

(** [i < 0 || i >= length]. *)
Definition out_of_range (length : nat) (i : Z) : bool :=
  (i <? 0) || (i >=? Z.of_nat length).

Definition invalid_table_indexes_message (invalidIndexes : list Z) (tables : list string) : string :=
  "Invalid table indexes: " +:+ join ", " (number_toString <$> invalidIndexes)
  +:+ ". Must be between 0 and " +:+ number_toString (Z.of_nat (length tables) - 1).

(** [tables[i]] for an index that passed the validation; the default is
    for the indexes outside the array, of which none reaches the map. *)
Definition table_at (tables : list string) (i : Z) : string :=
  default "" (index tables i).

Definition selectTablesStep (tables : list string) (resumeData : option SelectTablesResume)
    : StepResult SelectTablesSuspend (list string) :=
  match resumeData with
  | None => Suspended (selectTables_suspend tables)
  | Some r =>
      let selected := selectedTableIndexes r in
      if Nat.eqb (length selected) 0 then Suspended (selectTables_suspend tables)
      else
        let invalidIndexes := List.filter (out_of_range (length tables)) selected in
        if Nat.ltb 0 (length invalidIndexes) then
          Failed (Error (invalid_table_indexes_message invalidIndexes tables))
        else Completed (table_at tables <$> selected)
  end.

(** **** list-columns *)

Record ListColumnsOutput : Type := {
  lc_columns : gmap string (list Column);
  lc_selectedTables : list string
}.

(** The [for] loop filling [columns[table]], one [listColumnsTool] call per
    selected table. *)
Fixpoint list_columns_loop (selectedTables : list string)
    (columns : gmap string (list Column)) (db : Database)
    : Outcome (gmap string (list Column)) * Database :=
  match selectedTables with
  | [] => (Fulfilled columns, db)
  | table :: rest =>
      match listColumnsTool table db with
      | (Fulfilled result, db') => list_columns_loop rest (<[table := result]> columns) db'
      | (Rejected e, db') => (Rejected e, db')
      end
  end.

Definition listColumnsStep (selectedTables : list string) (db : Database)
    : StepResult Empty_set ListColumnsOutput * Database :=
  match list_columns_loop selectedTables ∅ db with
  | (Fulfilled columns, db') =>
      (Completed {| lc_columns := columns; lc_selectedTables := selectedTables |}, db')
  | (Rejected e, db') => (Failed e, db')
  end.

(** **** select-columns-details *)

Record IndexedColumn : Type := {
  ic_index : Z;
  ic_column_name : string;
  ic_data_type : string
}.

Record SelectColumnsSuspend : Type := {
  availableColumns : gmap string (list IndexedColumn);
  sc_message : string
}.

(** The resume data; [selectedColumnsByTable] is kept as the list that
    [Object.entries] enumerates. *)
Record SelectColumnsResume : Type := {
  selectedColumnsByTable : list (string * list Z);
  sc_kpiName : string;
  sc_kpiDescription : string;
  sc_useAIGeneration : bool;
  sc_sqlIntent : option string;
  sc_manualSQL : option string
}.

Record KpiDetails : Type := {
  selectedColumns : list string;
  selectedTables : list string;
  kpiName : string;
  kpiDescription : string;
  useAIGeneration : bool;
  sqlIntent : option string;
  manualSQL : option string
}.

Definition with_index (cols : list Column) : list IndexedColumn :=
  mapi (fun index col => {| ic_index := index;
                            ic_column_name := col_name col;
                            ic_data_type := col_type col |}) cols.

(** The [for] loop filling [columnsWithIndexes]; [columns[table].map] on a
    table without an entry is a [TypeError]: of a read on [undefined], or,
    when the name is that of a member of [Object.prototype], of the call
    of the [map] that the member does not have. *)
Fixpoint columns_with_indexes (columns : gmap string (list Column))
    (selectedTables : list string) (acc : gmap string (list IndexedColumn))
    : Outcome (gmap string (list IndexedColumn)) :=
  match selectedTables with
  | [] => Fulfilled acc
  | table :: rest =>
      match columns !! table with
      | None =>
          match Object_prototype table with
          | None => Rejected (TypeError "Cannot read properties of undefined (reading 'map')")
          | Some _ => Rejected (TypeError "columns[table].map is not a function")
          end
      | Some cols => columns_with_indexes columns rest (<[table := with_index cols]> acc)
      end
  end.

Definition selectColumns_message : string :=
  "Provide: 1) selectedColumnsByTable (e.g., {" +:+ dq +:+ "public.bitwise_num" +:+ dq
  +:+ ": [0, 1]}), 2) kpiName, 3) kpiDescription, 4) useAIGeneration (true/false), 5) sqlIntent OR manualSQL".

Definition invalid_column_index_message (index : Z) (table : string) (cols : list Column) : string :=
  "Invalid column index " +:+ number_toString index +:+ " for table '" +:+ table
  +:+ "'. Must be between 0 and " +:+ number_toString (Z.of_nat (length cols) - 1).

(** The inner loop over the indexes of one table, pushing
    [`${table}.${columnName}`]. *)
Fixpoint push_columns (table : string) (cols : list Column) (indexes : list Z)
    (selected : list string) : Outcome (list string) :=
  match indexes with
  | [] => Fulfilled selected
  | i :: rest =>
      if out_of_range (length cols) i then
        Rejected (Error (invalid_column_index_message i table cols))
      else
        match index cols i with
        | Some col => push_columns table cols rest (selected ++ [table +:+ "." +:+ col_name col])
        | None => Rejected (TypeError "Cannot read properties of undefined (reading 'column_name')")
        end
  end.

(** [`Invalid column index ${index} for table '${table}'. Must be between
    0 and ${columns[table].length - 1}`], with the text of the bound. *)
Definition invalid_index_message (index : Z) (table bound : string) : string :=
  "Invalid column index " +:+ number_toString index +:+ " for table '" +:+ table
  +:+ "'. Must be between 0 and " +:+ bound.

(** The inner loop for a name that is no own property of [columns] but a
    member of [Object.prototype], which is truthy.  A method has as
    [length] the number of its parameters and no element at any index;
    under [__proto__] the prototype is found, whose [length] is
    [undefined], so that [index >= undefined] is false and [undefined - 1]
    is [NaN].  The first index throws, either way; without an index
    nothing is pushed. *)
Definition push_inherited (table : string) (member : Inherited) (indexes : list Z)
    : Outcome unit :=
  match indexes with
  | [] => Fulfilled ()
  | i :: _ =>
      let no_element :=
        Rejected (TypeError "Cannot read properties of undefined (reading 'column_name')") in
      match member with
      | method arity =>
          if (i <? 0) || (i >=? arity) then
            Rejected (Error (invalid_index_message i table (number_toString (arity - 1))))
          else no_element
      | prototype =>
          if i <? 0 then Rejected (Error (invalid_index_message i table "NaN"))
          else no_element
      end
  end.

(** The outer loop over [Object.entries(resumeData.selectedColumnsByTable)]. *)
Fixpoint convert_indexes (columns : gmap string (list Column))
    (entries : list (string * list Z)) (selected : list string) : Outcome (list string) :=
  match entries with
  | [] => Fulfilled selected
  | (table, indexes) :: rest =>
      match columns !! table with
      | None =>
          match Object_prototype table with
          | None => Rejected (Error ("Table '" +:+ table +:+ "' not found in selected tables"))
          | Some member =>
              match push_inherited table member indexes with
              | Fulfilled _ => convert_indexes columns rest selected
              | Rejected e => Rejected e
              end
          end
      | Some cols =>
          match push_columns table cols indexes selected with
          | Fulfilled selected' => convert_indexes columns rest selected'
          | Rejected e => Rejected e
          end
      end
  end.

(** The guard is [!resumeData?.selectedColumnsByTable ||
    !resumeData?.kpiName]; [selectedColumnsByTable] is an object, which is
    truthy whenever the resume data are there, so the guard is on the
    resume data and on [kpiName]. *)
Definition selectColumnsAndDetailsStep (inputData : ListColumnsOutput)
    (resumeData : option SelectColumnsResume) : StepResult SelectColumnsSuspend KpiDetails :=
  let suspend :=
    match columns_with_indexes (lc_columns inputData) (lc_selectedTables inputData) ∅ with
    | Fulfilled columnsWithIndexes =>
        Suspended {| availableColumns := columnsWithIndexes; sc_message := selectColumns_message |}
    | Rejected e => Failed e
    end in
  match resumeData with
  | None => suspend
  | Some r =>
      if negb (truthy (sc_kpiName r)) then suspend
      else
        match convert_indexes (lc_columns inputData) (selectedColumnsByTable r) [] with
        | Rejected e => Failed e
        | Fulfilled selected =>
            Completed {| selectedColumns := selected;
                         selectedTables := lc_selectedTables inputData;
                         kpiName := sc_kpiName r;
                         kpiDescription := sc_kpiDescription r;
                         useAIGeneration := sc_useAIGeneration r;
                         sqlIntent := sc_sqlIntent r;
                         manualSQL := sc_manualSQL r |}
        end
  end.

Section Tools.
(** The SQL generator of [sql_generator] (its result's [sql], or the
    rejection of the call) and the rows of a preview are not this file's. *)
Variable generateSQLTool : GenerateContext -> Outcome string.
Variable ResultRow : Type.

(** **** generate-sql *)

Record SqlOutput : Type := {
  so_sqlQuery : string;
  so_kpiName : string;
  so_kpiDescription : string;
  so_selectedColumns : list string;
  so_selectedTables : list string
}.

Definition generateSQL_error : string :=
  "Either AI generation with intent or manual SQL must be provided".

Definition sql_output (inputData : KpiDetails) (sqlQuery : string) : SqlOutput :=
  {| so_sqlQuery := sqlQuery;
     so_kpiName := kpiName inputData;
     so_kpiDescription := kpiDescription inputData;
     so_selectedColumns := selectedColumns inputData;
     so_selectedTables := selectedTables inputData |}.

Definition generateSQLStep (inputData : KpiDetails) : StepResult Empty_set SqlOutput :=
  if useAIGeneration inputData && truthy_opt (sqlIntent inputData) then
    match generateSQLTool {| gen_intent := default "" (sqlIntent inputData);
                             gen_tables := selectedTables inputData;
                             gen_columns := selectedColumns inputData;
                             gen_limit := 10 |} with
    | Fulfilled sql => Completed (sql_output inputData sql)
    | Rejected e => Failed e
    end
  else if truthy_opt (manualSQL inputData) then
    Completed (sql_output inputData (default "" (manualSQL inputData)))
  else Failed (Error generateSQL_error).

(** **** confirm-save *)

Record ConfirmInput : Type := {
  ci_sqlQuery : string;
  ci_kpiName : string;
  ci_kpiDescription : string;
  ci_previewResults : list ResultRow;
  ci_selectedColumns : list string;
  ci_selectedTables : list string
}.

Record ConfirmResume : Type := {
  confirmed : bool;
  editedSQL : option string
}.

Record ConfirmSuspend : Type := {
  cs_sqlQuery : string;
  cs_previewResults : list ResultRow;
  cs_message : string
}.

Record ConfirmOutput : Type := {
  co_kpiName : string;
  co_success : bool
}.

Definition confirm_suspend (inputData : ConfirmInput) : ConfirmSuspend :=
  {| cs_sqlQuery := ci_sqlQuery inputData;
     cs_previewResults := ci_previewResults inputData;
     cs_message := "Review the SQL query and results. Confirm to save or provide edited SQL." |}.

Definition confirmAndSaveStep (now : Z) (inputData : ConfirmInput)
    (resumeData : option ConfirmResume) (db : Database)
    : StepResult ConfirmSuspend ConfirmOutput * Database :=
  match resumeData with
  | None => (Suspended (confirm_suspend inputData), db)
  | Some r =>
      if negb (confirmed r) then (Suspended (confirm_suspend inputData), db)
      else
        let finalSQL := or_else (editedSQL r) (ci_sqlQuery inputData) in
        match saveKPITool now
                {| ctx_name := ci_kpiName inputData;
                   ctx_description := Some (ci_kpiDescription inputData);
                   ctx_formula := finalSQL;
                   ctx_table := Some (join ", " (ci_selectedTables inputData));
                   ctx_columns := Some (ci_selectedColumns inputData) |} db with
        | (Fulfilled result, db') =>
            (Completed {| co_kpiName := ci_kpiName inputData; co_success := success result |}, db')
        | (Rejected e, db') => (Failed e, db')
        end
  end.

End Tools.
End KpiWorkflow.

(** *** [simple_kpi_workflow.ts]: the name-based KPI workflow *)

Module SimpleKpiWorkflow.
Import Js Db.

(** **** select-table *)

Record SelectTableSuspend : Type := {
  st_tables : list string;
  st_message : string
}.

Definition selectTable_suspend (tables : list string) : SelectTableSuspend :=
  {| st_tables := tables;
     st_message := "Select a table by providing the full table name (e.g., public.bitwise_num)" |}.

(** The resume data is [{tableName}]; the output is [{tableName}]. *)
Definition selectTableStep (tables : list string) (resumeData : option string)
    : StepResult SelectTableSuspend string :=
  match resumeData with
  | None => Suspended (selectTable_suspend tables)
  | Some tableName =>
      if negb (truthy tableName) then Suspended (selectTable_suspend tables)
      else Completed tableName
  end.

Section Tools.
Variable generateSQLTool : GenerateContext -> Outcome string.
Variable ResultRow : Type.

(** **** define-kpi *)

Record DefineInput : Type := {
  di_tableName : string;
  di_columns : list Column
}.

Record DefineResume : Type := {
  dr_kpiName : string;
  dr_kpiDescription : string;
  useAI : bool;
  dr_sqlIntent : option string;
  dr_manualSQL : option string
}.

Record DefineSuspend : Type := {
  ds_tableName : string;
  ds_columns : list Column;
  ds_message : string
}.

Record DefineOutput : Type := {
  do_kpiName : string;
  do_kpiDescription : string;
  do_sqlQuery : string
}.

Definition define_suspend (inputData : DefineInput) : DefineSuspend :=
  {| ds_tableName := di_tableName inputData;
     ds_columns := di_columns inputData;
     ds_message := "Provide: kpiName, kpiDescription, useAI (true/false), and either sqlIntent OR manualSQL" |}.

Definition defineKPI_error : string :=
  "Provide either sqlIntent (with useAI=true) or manualSQL (with useAI=false)".

Definition define_output (r : DefineResume) (sqlQuery : string) : DefineOutput :=
  {| do_kpiName := dr_kpiName r;
     do_kpiDescription := dr_kpiDescription r;
     do_sqlQuery := sqlQuery |}.

Definition defineKPIStep (inputData : DefineInput) (resumeData : option DefineResume)
    : StepResult DefineSuspend DefineOutput :=
  match resumeData with
  | None => Suspended (define_suspend inputData)
  | Some r =>
      if negb (truthy (dr_kpiName r)) then Suspended (define_suspend inputData)
      else if useAI r && truthy_opt (dr_sqlIntent r) then
        let columnNames :=
          (fun c => di_tableName inputData +:+ "." +:+ col_name c) <$> di_columns inputData in
        match generateSQLTool {| gen_intent := default "" (dr_sqlIntent r);
                                 gen_tables := [di_tableName inputData];
                                 gen_columns := columnNames;
                                 gen_limit := 100 |} with
        | Fulfilled sql => Completed (define_output r sql)
        | Rejected e => Failed e
        end
      else if negb (useAI r) && truthy_opt (dr_manualSQL r) then
        Completed (define_output r (default "" (dr_manualSQL r)))
      else Failed (Error defineKPI_error)
  end.

(** **** save-kpi *)

Record SaveInput : Type := {
  si_kpiName : string;
  si_kpiDescription : string;
  si_sqlQuery : string;
  si_preview : list ResultRow
}.

Record SaveResume : Type := {
  sr_confirmed : bool;
  sr_editedSQL : option string
}.

Record SaveSuspend : Type := {
  ss_sqlQuery : string;
  ss_preview : list ResultRow;
  ss_message : string
}.

Record SaveOutput : Type := {
  sv_kpiName : string;
  sv_success : bool;
  sv_message : string
}.

Definition save_suspend (inputData : SaveInput) : SaveSuspend :=
  {| ss_sqlQuery := si_sqlQuery inputData;
     ss_preview := si_preview inputData;
     ss_message := "Review the SQL and preview. Set confirmed=true to save, or provide editedSQL to modify" |}.

Definition saveKPIStep (now : Z) (inputData : SaveInput) (resumeData : option SaveResume)
    (db : Database) : StepResult SaveSuspend SaveOutput * Database :=
  match resumeData with
  | None => (Suspended (save_suspend inputData), db)
  | Some r =>
      if negb (sr_confirmed r) then (Suspended (save_suspend inputData), db)
      else
        let finalSQL := or_else (sr_editedSQL r) (si_sqlQuery inputData) in
        match saveKPITool now
                {| ctx_name := si_kpiName inputData;
                   ctx_description := Some (si_kpiDescription inputData);
                   ctx_formula := finalSQL;
                   ctx_table := None;
                   ctx_columns := None |} db with
        | (Fulfilled result, db') =>
            (Completed {| sv_kpiName := si_kpiName inputData;
                          sv_success := success result;
                          sv_message := message result |}, db')
        | (Rejected e, db') => (Failed e, db')
        end
  end.

End Tools.
End SimpleKpiWorkflow.

(** *** [insight_workflow.ts]: an insight from an existing KPI *)

Module InsightWorkflow.
Import Js Db.

(** **** select-kpi *)

Record KpiEntry : Type := {
  ke_name : string;
  ke_formula : string
}.

Record SelectKpiResume : Type := {
  sk_kpiName : string;
  insightName : string;
  insightDescription : string
}.

(** [availableKPIs] holds [{name}] objects. *)
Record SelectKpiSuspend : Type := {
  availableKPIs : list string;
  sk_message : string
}.

Record SelectKpiOutput : Type := {
  out_kpiName : string;
  out_kpiFormula : string;
  out_insightName : string;
  out_insightDescription : string
}.

Definition selectKPI_suspend (kpis : list KpiEntry) : SelectKpiSuspend :=
  {| availableKPIs := ke_name <$> kpis;
     sk_message := "Select a KPI and provide insight name and description" |}.

Definition selectKPIStep (kpis : list KpiEntry) (resumeData : option SelectKpiResume)
    : StepResult SelectKpiSuspend SelectKpiOutput :=
  match resumeData with
  | None => Suspended (selectKPI_suspend kpis)
  | Some r =>
      if negb (truthy (sk_kpiName r)) || negb (truthy (insightName r)) then
        Suspended (selectKPI_suspend kpis)
      else
        match List.find (fun k => String.eqb (ke_name k) (sk_kpiName r)) kpis with
        | None => Failed (Error ("KPI '" +:+ sk_kpiName r +:+ "' not found"))
        | Some selectedKPI =>
            Completed {| out_kpiName := sk_kpiName r;
                         out_kpiFormula := ke_formula selectedKPI;
                         out_insightName := insightName r;
                         out_insightDescription := insightDescription r |}
        end
  end.

(** **** confirm-save-insight *)

Record ConfirmInsightInput : Type := {
  cii_kpiName : string;
  cii_insightText : string;
  cii_insightName : string
}.

Record ConfirmInsightResume : Type := {
  cir_confirmed : bool;
  editedInsight : option string
}.

Record ConfirmInsightSuspend : Type := {
  cis_insightText : string;
  cis_message : string
}.

Record ConfirmInsightOutput : Type := {
  cio_insightName : string;
  cio_success : bool
}.

Definition confirmInsight_suspend (inputData : ConfirmInsightInput) : ConfirmInsightSuspend :=
  {| cis_insightText := cii_insightText inputData;
     cis_message := "Review the generated insight. Confirm to save or provide edited version." |}.

Definition confirmAndSaveInsightStep (now : Z) (inputData : ConfirmInsightInput)
    (resumeData : option ConfirmInsightResume) (db : Database)
    : StepResult ConfirmInsightSuspend ConfirmInsightOutput * Database :=
  match resumeData with
  | None => (Suspended (confirmInsight_suspend inputData), db)
  | Some r =>
      if negb (cir_confirmed r) then (Suspended (confirmInsight_suspend inputData), db)
      else
        let finalInsight := or_else (editedInsight r) (cii_insightText inputData) in
        match saveInsightTool now
                {| in_name := cii_insightName inputData;
                   in_description := None;
                   in_kpi_name := Some (cii_kpiName inputData);
                   in_formula := finalInsight;
                   in_schedule := None;
                   in_exec_time := None;
                   in_alert_high := None;
                   in_alert_low := None |} db with
        | (Fulfilled result, db') =>
            (Completed {| cio_insightName := cii_insightName inputData;
                          cio_success := success result |}, db')
        | (Rejected e, db') => (Failed e, db')
        end
  end.

End InsightWorkflow.

(** ** Start-up: [ensureTables], [src/init-db.ts] and [src/mastra.ts] *)

Module Startup.
Import Js.

(** The four statements of [ensureTables], in the order they are sent. *)
Inductive Statement : Type :=
| CreateTableKpi
| CreateTableInsight
| AddColumnTableName
| AddColumnColumns.

(** What a process does that can be seen from outside. *)
Inductive Event : Type :=
| console_log (line : string)
| console_error (line : string) (error : Exception)
| process_exit (code : Z).

(** The instance that [mastra.ts] exports: the registered agents and
    workflows and the URL of the memory store. *)
Record Mastra : Type := {
  agents : list string;
  workflows : list string;
  storage_url : string
}.

Section Server.
(** The server behind the pool: whether a client can be had, and what a
    DDL statement does to the server or fails with. *)
Variable Server : Type.
Variable connect : Server -> Outcome unit.
Variable query : Statement -> Server -> Outcome unit * Server.

(** The pool: the server and the number of clients checked out. *)
Record Pool : Type := {
  server : Server;
  clients_out : nat
}.

(** The statements of the [try] block, one after the other; the first
    rejection ends the block. *)
Fixpoint run_statements (statements : list Statement) (s : Server) : Outcome unit * Server :=
  match statements with
  | [] => (Fulfilled (), s)
  | statement :: rest =>
      match query statement s with
      | (Fulfilled _, s') => run_statements rest s'
      | (Rejected e, s') => (Rejected e, s')
      end
  end.

(** [ensureTables]: [pool.connect()], the statements, and
    [client.release()] in the [finally]. *)
Definition ensureTables (pool : Pool) : Outcome unit * Pool :=
  match connect (server pool) with
  | Rejected e => (Rejected e, pool)
  | Fulfilled _ =>
      let checked_out := S (clients_out pool) in
      let '(result, s') :=
        run_statements
          [CreateTableKpi; CreateTableInsight; AddColumnTableName; AddColumnColumns]
          (server pool) in
      (result, {| server := s'; clients_out := Nat.pred checked_out |})
  end.

(** [initDatabase()] of [init-db.ts]: what the process prints, ending with
    its exit, and the pool it leaves.  The lines are the bytes of the
    literals in the source file. *)
Definition initDatabase (pool : Pool) : list Event * Pool :=
  match ensureTables pool with
  | (Fulfilled _, pool') =>
      ([console_log "Initializing database tables...";
        console_log "✓ Database tables created successfully!";
        console_log "  - kpi table";
        console_log "  - insight table";
        process_exit 0], pool')
  | (Rejected error, pool') =>
      ([console_log "Initializing database tables...";
        console_error "✗ Failed to initialize database:" error;
        process_exit 1], pool')
  end.

(** Loading [mastra.ts]: [ensureTables().catch(...)] and the exported
    instance. *)
Definition mastra (pool : Pool) : list Event * Pool * Mastra :=
  let '(result, pool') := ensureTables pool in
  let events :=
    match result with
    | Fulfilled _ => []
    | Rejected err => [console_error "Failed to initialize database tables:" err]
    end in
  (events, pool',
   {| agents := ["kpiAgent"; "insightAgent"; "sqlQueryAgent"];
      workflows := ["kpiWorkflow"; "insightWorkflow"; "simpleKpiWorkflow"];
      storage_url := "file:./mastra-memory.db" |}).

End Server.

(** The code the process ends with, when it ends itself. *)
Fixpoint exit_code (events : list Event) : option Z :=
  match events with
  | [] => None
  | process_exit code :: _ => Some code
  | _ :: rest => exit_code rest
  end.

End Startup.

(** ** Sequences of KPI writes *)

Module KpiLog.
Import Js Db.

(** One write to table [kpi], through either entry point. *)
Inductive Write : Type :=
| by_insertKPI (now : Z) (data : KpiData)
| by_saveKPITool (now : Z) (context : SaveKpiContext).

Definition apply (w : Write) (db : Database) : Database :=
  match w with
  | by_insertKPI now data => snd (insertKPI now data db)
  | by_saveKPITool now context => snd (saveKPITool now context db)
  end.

Definition apply_all (ws : list Write) (db : Database) : Database :=
  foldl (fun db w => apply w db) db ws.

(** At most one row per name. *)
Definition unique_names (rows : list Kpi.Row) : Prop :=
  NoDup (Kpi.name <$> rows).

(** The name a write is keyed on and the values it carries for the four
    other columns. *)
Definition write_name (w : Write) : string :=
  match w with
  | by_insertKPI _ data => data_name data
  | by_saveKPITool _ context => ctx_name context
  end.

Definition written (w : Write) (created : Z) : Kpi.Row :=
  match w with
  | by_insertKPI _ data =>
      {| Kpi.name := data_name data;
         Kpi.description := or_null (data_description data);
         Kpi.formula := data_formula data;
         Kpi.table_name := or_null (data_table_name data);
         Kpi.columns := data_columns data;
         Kpi.created_at := created |}
  | by_saveKPITool _ context =>
      {| Kpi.name := ctx_name context;
         Kpi.description := or_null (ctx_description context);
         Kpi.formula := ctx_formula context;
         Kpi.table_name := or_null (ctx_table context);
         Kpi.columns := ctx_columns context;
         Kpi.created_at := created |}
  end.

(** Whether the server takes the parameters of a write: none of its
    texts has a U+0000 in it. *)
Definition accepted (w : Write) : bool :=
  match refuses_kpi (write_name w)
          (Kpi.description (written w 0)) (Kpi.formula (written w 0))
          (Kpi.table_name (written w 0)) (Kpi.columns (written w 0)) with
  | Some _ => false
  | None => true
  end.

End KpiLog.

(** ** Bounded query text, in the specification's words *)

Module Spec.

Fixpoint drop_while {A} (p : A -> bool) (l : list A) : list A :=
  match l with
  | [] => []
  | x :: rest => if p x then drop_while p rest else l
  end.

(** "Trimming surrounding whitespace": the white space at the front is
    dropped, and the white space at the back. *)
Definition strip_surrounding_whitespace (s : string) : string :=
  string_of_list_ascii
    (rev (drop_while Js.is_white_space
            (rev (drop_while Js.is_white_space (list_ascii_of_string s))))).

(** "Removing a single trailing ';' if present": a text whose last
    character is [;] loses that one character, any other text is kept. *)
Definition strip_trailing_terminator (s : string) : string :=
  match rev (list_ascii_of_string s) with
  | c :: before =>
      if Ascii.eqb c ";" then string_of_list_ascii (rev before) else s
  | [] => s
  end.

(** "... and appending ' LIMIT n;'", for the limit as it is written. *)
Definition bounded_text (s limit : string) : string :=
  strip_trailing_terminator (strip_surrounding_whitespace s)
  +:+ " LIMIT " +:+ limit +:+ ";".

(** The limit [n] in decimal digits. *)
Definition bounded_query_text (s : string) (n : Z) : string :=
  bounded_text s (pretty n).

(** A text occurs in another. *)
Definition occurs_in (sub s : string) : Prop :=
  exists before after, s = before +:+ sub +:+ after.

(** The first index that is out of range, going through the entries of
    [selectedColumnsByTable] in order and through each entry's indexes in
    order, with its table and that table's columns. *)
Fixpoint first_invalid_column (columns : gmap string (list Db.Column))
    (entries : list (string * list Z)) : option (string * Z * list Db.Column) :=
  match entries with
  | [] => None
  | (table, indexes) :: rest =>
      match columns !! table with
      | None => None
      | Some cols =>
          match List.find (KpiWorkflow.out_of_range (length cols)) indexes with
          | Some i => Some (table, i, cols)
          | None => first_invalid_column columns rest
          end
      end
  end.

(** "An AI-generation intent usable for generation": generation is asked
    for and the intent is a non-empty text.  "A literal manual SQL
    string": a non-empty text. *)
Definition usable_intent (useAI : bool) (intent : option string) : bool :=
  useAI && truthy_opt intent.

Definition literal_sql (manual : option string) : bool :=
  truthy_opt manual.

End Spec.

(** ** The suspend/resume rule of a step *)

Module Control.
Import Js Db.

(** A step that can suspend: its four shapes, the state it runs in, its
    [execute], the payload it declares for an input, the inputs it is run
    on, and the resume data it goes on with. *)
Record Suspendable : Type := {
  id : string;
  Input : Type;
  Resume : Type;
  Payload : Type;
  Output : Type;
  State : Type;
  execute : Input -> option Resume -> State -> StepResult Payload Output * State;
  payload : Input -> Payload;
  expected : Input -> Prop;
  goes_on : Resume -> bool
}.

(** Without resume data the step suspends with its payload and leaves the
    state alone; with resume data it does not suspend when [goes_on]
    holds of them, and suspends as before when it does not. *)
Definition obeys (s : Suspendable) : Prop :=
  forall (i : Input s) (w : State s),
    expected s i ->
    execute s i None w = (Suspended (payload s i), w) /\
    forall r : Resume s,
      (goes_on s r = true -> is_suspended (fst (execute s i (Some r) w)) = false) /\
      (goes_on s r = false -> execute s i (Some r) w = (Suspended (payload s i), w)).

(** A step without state. *)
Definition stateless {I R S O} (f : I -> option R -> StepResult S O)
    : I -> option R -> unit -> StepResult S O * unit :=
  fun i r w => (f i r, w).

(** [columnsWithIndexes] for an input that has the columns of every
    selected table. *)
Definition available_columns (i : KpiWorkflow.ListColumnsOutput)
    : gmap string (list KpiWorkflow.IndexedColumn) :=
  match KpiWorkflow.columns_with_indexes
          (KpiWorkflow.lc_columns i) (KpiWorkflow.lc_selectedTables i) ∅ with
  | Fulfilled m => m
  | Rejected _ => ∅
  end.

Definition has_selected_columns (i : KpiWorkflow.ListColumnsOutput) : Prop :=
  forall t, t ∈ KpiWorkflow.lc_selectedTables i -> is_Some (KpiWorkflow.lc_columns i !! t).

Section Steps.
Variable generateSQLTool : GenerateContext -> Outcome string.
Variable ResultRow : Type.
Variable now : Z.

Definition select_tables : Suspendable :=
  {| id := "select-tables";
     execute := stateless KpiWorkflow.selectTablesStep;
     payload := KpiWorkflow.selectTables_suspend;
     expected := fun _ => True;
     goes_on := fun r => negb (Nat.eqb (length (KpiWorkflow.selectedTableIndexes r)) 0) |}.

Definition select_columns_details : Suspendable :=
  {| id := "select-columns-details";
     execute := stateless KpiWorkflow.selectColumnsAndDetailsStep;
     payload := fun i => {| KpiWorkflow.availableColumns := available_columns i;
                            KpiWorkflow.sc_message := KpiWorkflow.selectColumns_message |};
     expected := has_selected_columns;
     goes_on := fun r => truthy (KpiWorkflow.sc_kpiName r) |}.

Definition confirm_save : Suspendable :=
  {| id := "confirm-save";
     execute := KpiWorkflow.confirmAndSaveStep ResultRow now;
     payload := KpiWorkflow.confirm_suspend ResultRow;
     expected := fun _ => True;
     goes_on := KpiWorkflow.confirmed |}.

Definition select_table : Suspendable :=
  {| id := "select-table";
     execute := stateless SimpleKpiWorkflow.selectTableStep;
     payload := SimpleKpiWorkflow.selectTable_suspend;
     expected := fun _ => True;
     goes_on := truthy |}.

Definition define_kpi : Suspendable :=
  {| id := "define-kpi";
     execute := stateless (SimpleKpiWorkflow.defineKPIStep generateSQLTool);
     payload := SimpleKpiWorkflow.define_suspend;
     expected := fun _ => True;
     goes_on := fun r => truthy (SimpleKpiWorkflow.dr_kpiName r) |}.

Definition save_kpi : Suspendable :=
  {| id := "save-kpi";
     execute := SimpleKpiWorkflow.saveKPIStep ResultRow now;
     payload := SimpleKpiWorkflow.save_suspend ResultRow;
     expected := fun _ => True;
     goes_on := SimpleKpiWorkflow.sr_confirmed |}.

Definition select_kpi : Suspendable :=
  {| id := "select-kpi";
     execute := stateless InsightWorkflow.selectKPIStep;
     payload := InsightWorkflow.selectKPI_suspend;
     expected := fun _ => True;
     goes_on := fun r => truthy (InsightWorkflow.sk_kpiName r)
                         && truthy (InsightWorkflow.insightName r) |}.

Definition confirm_save_insight : Suspendable :=
  {| id := "confirm-save-insight";
     execute := InsightWorkflow.confirmAndSaveInsightStep now;
     payload := InsightWorkflow.confirmInsight_suspend;
     expected := fun _ => True;
     goes_on := InsightWorkflow.cir_confirmed |}.

(** The steps of the three workflows that declare a suspend schema. *)
Definition suspendable_steps : list Suspendable :=
  [select_tables; select_columns_details; confirm_save;
   select_table; define_kpi; save_kpi;
   select_kpi; confirm_save_insight].

End Steps.
End Control.

(** ** Sample data: the sales table of the specification's examples *)

Module Sample.
Import Js Db.

Definition sales_columns : list Column :=
  [ {| col_name := "id"; col_type := "integer" |};
    {| col_name := "amount"; col_type := "numeric" |} ].

(** The catalog of a database with [public.sales(id int, amount numeric)]
    and a table [sales] in another schema, rows in no particular order. *)
Definition catalog : list CatalogColumn :=
  [ {| table_schema := "public"; table_name := "sales"; column_name := "amount";
       data_type := "numeric"; ordinal_position := 2 |};
    {| table_schema := "archive"; table_name := "sales"; column_name := "year";
       data_type := "integer"; ordinal_position := 1 |};
    {| table_schema := "public"; table_name := "sales"; column_name := "id";
       data_type := "integer"; ordinal_position := 1 |} ].

Definition total_amount : Kpi.Row :=
  {| Kpi.name := "total_amount";
     Kpi.description := Some "Sum of all sales";
     Kpi.formula := "SELECT amount FROM public.sales";
     Kpi.table_name := Some "public.sales";
     Kpi.columns := Some ["public.sales.amount"];
     Kpi.created_at := 100 |}.

Definition db : Database :=
  {| kpi := [total_amount]; insight := []; insight_id_seq := 1;
     information_schema_columns := catalog |}.

(** A second definition of the same KPI, with an empty description. *)
Definition redefined : KpiData :=
  {| data_name := "total_amount";
     data_description := Some "";
     data_formula := "SELECT sum(amount) FROM public.sales";
     data_table_name := Some "public.sales";
     data_columns := Some ["public.sales.amount"] |}.

Definition order_count : SaveKpiContext :=
  {| ctx_name := "order_count";
     ctx_description := Some "Number of sales";
     ctx_formula := "SELECT count(*) FROM public.sales";
     ctx_table := None;
     ctx_columns := None |}.

(** An insight with both thresholds 0 and its optional texts empty. *)
Definition zero_thresholds : InsightData :=
  {| in_name := "q1-check";
     in_description := Some "";
     in_kpi_name := Some "";
     in_formula := "Sales are flat.";
     in_schedule := Some "";
     in_exec_time := Some "";
     in_alert_high := Some 0%float;
     in_alert_low := Some 0%float |}.

Definition listing : KpiWorkflow.ListColumnsOutput :=
  {| KpiWorkflow.lc_columns := {[ "public.sales" := sales_columns ]};
     KpiWorkflow.lc_selectedTables := ["public.sales"] |}.

Definition selection (indexes : list Z) : KpiWorkflow.SelectColumnsResume :=
  {| KpiWorkflow.selectedColumnsByTable := [("public.sales", indexes)];
     KpiWorkflow.sc_kpiName := "total_amount";
     KpiWorkflow.sc_kpiDescription := "Sum of all sales";
     KpiWorkflow.sc_useAIGeneration := false;
     KpiWorkflow.sc_sqlIntent := None;
     KpiWorkflow.sc_manualSQL := Some "SELECT amount FROM public.sales" |}.

(** A generator that answers every intent. *)
Definition generator (context : GenerateContext) : Outcome string :=
  Fulfilled ("SELECT count(*) FROM " +:+ join ", " (gen_tables context)).

Definition define_input : SimpleKpiWorkflow.DefineInput :=
  {| SimpleKpiWorkflow.di_tableName := "public.sales";
     SimpleKpiWorkflow.di_columns := sales_columns |}.

(** Literal SQL together with useAI = true and no intent. *)
Definition literal_with_useAI : SimpleKpiWorkflow.DefineResume :=
  {| SimpleKpiWorkflow.dr_kpiName := "total_amount";
     SimpleKpiWorkflow.dr_kpiDescription := "Sum of all sales";
     SimpleKpiWorkflow.useAI := true;
     SimpleKpiWorkflow.dr_sqlIntent := None;
     SimpleKpiWorkflow.dr_manualSQL := Some "SELECT amount FROM public.sales" |}.

Definition confirm_input : KpiWorkflow.ConfirmInput unit :=
  {| KpiWorkflow.ci_sqlQuery := "SELECT amount FROM public.sales";
     KpiWorkflow.ci_kpiName := "total_amount";
     KpiWorkflow.ci_kpiDescription := "Sum of all sales";
     KpiWorkflow.ci_previewResults := [];
     KpiWorkflow.ci_selectedColumns := ["public.sales.amount"];
     KpiWorkflow.ci_selectedTables := ["public.sales"] |}.

Definition save_input : SimpleKpiWorkflow.SaveInput unit :=
  {| SimpleKpiWorkflow.si_kpiName := "total_amount";
     SimpleKpiWorkflow.si_kpiDescription := "Sum of all sales";
     SimpleKpiWorkflow.si_sqlQuery := "SELECT amount FROM public.sales";
     SimpleKpiWorkflow.si_preview := [] |}.

Definition insight_input : InsightWorkflow.ConfirmInsightInput :=
  {| InsightWorkflow.cii_kpiName := "total_amount";
     InsightWorkflow.cii_insightText := "Sales are flat.";
     InsightWorkflow.cii_insightName := "q1-check" |}.

Definition kpis : list InsightWorkflow.KpiEntry :=
  [ {| InsightWorkflow.ke_name := "order_count";
       InsightWorkflow.ke_formula := "SELECT count(*) FROM public.sales" |};
    {| InsightWorkflow.ke_name := "total_amount";
       InsightWorkflow.ke_formula := "SELECT amount FROM public.sales" |} ].

Definition pick (kpiName insightName : string) : InsightWorkflow.SelectKpiResume :=
  {| InsightWorkflow.sk_kpiName := kpiName;
     InsightWorkflow.insightName := insightName;
     InsightWorkflow.insightDescription := "Quarterly check" |}.

(** A server that hands out clients and rejects the creation of table
    [insight]; its state is the list of the statements it applied. *)
Definition connects (s : list Startup.Statement) : Outcome unit := Fulfilled ().

Definition rejects_insight (statement : Startup.Statement) (s : list Startup.Statement)
    : Outcome unit * list Startup.Statement :=
  match statement with
  | Startup.CreateTableInsight => (Rejected (DatabaseError "42501"), s)
  | _ => (Fulfilled (), s ++ [statement])
  end.

Definition fresh_pool : Startup.Pool (list Startup.Statement) :=
  {| Startup.server := []; Startup.clients_out := 0 |}.

End Sample.

(** ** The other readers of [db_shared.ts]: [listTables] and [fetchKPIs] *)

Module DbRead.
Import Js Db.

(** A row of [information_schema.tables], with the fields the query reads. *)
Record CatalogTable : Type := {
  tbl_schema : string;
  tbl_name : string;
  tbl_type : string
}.

(** What [fetchKPIs] returns for one KPI. *)
Record KpiListing : Type := {
  k_name : string;
  k_formula : string;
  k_table_name : option string;
  k_columns : option (list string)
}.

(** [WHERE table_type='BASE TABLE' AND table_schema NOT IN
    ('pg_catalog','information_schema')]. *)
Definition is_user_base_table (t : CatalogTable) : bool :=
  String.eqb (tbl_type t) "BASE TABLE" &&
  negb (String.eqb (tbl_schema t) "pg_catalog" ||
        String.eqb (tbl_schema t) "information_schema").

(** [`${r.table_schema}.${r.table_name}`], which is also what
    [table_schema || '.' || table_name] gives in the tool's query. *)
Definition full_name (t : CatalogTable) : string :=
  tbl_schema t +:+ "." +:+ tbl_name t.

(** [r.columns ? (Array.isArray(r.columns) ? r.columns : JSON.parse(r.columns))
    : undefined]: the driver hands a JSONB array over as an array, and an
    array is truthy. *)
Definition listed (r : Kpi.Row) : KpiListing :=
  {| k_name := Kpi.name r;
     k_formula := Kpi.formula r;
     k_table_name := Kpi.table_name r;
     k_columns := Kpi.columns r |}.

Section Collation.
(** [ORDER BY] on a text follows the collation of the column: [precedes a
    b] says that [a] does not sort after [b]. *)
Variable precedes : string -> string -> bool.

(** [ORDER BY table_schema, table_name]. *)
Definition by_schema_then_name (a b : CatalogTable) : Prop :=
  if precedes (tbl_schema a) (tbl_schema b) then
    if precedes (tbl_schema b) (tbl_schema a)
    then precedes (tbl_name a) (tbl_name b) = true
    else True
  else False.

#[export] Instance by_schema_then_name_dec a b : Decision (by_schema_then_name a b).
Proof.
  unfold by_schema_then_name.
  destruct (precedes (tbl_schema a) (tbl_schema b));
    [destruct (precedes (tbl_schema b) (tbl_schema a))|]; apply _.
Defined.

(** [ORDER BY name]. *)
Definition by_name (a b : Kpi.Row) : Prop :=
  precedes (Kpi.name a) (Kpi.name b) = true.

#[export] Instance by_name_dec a b : Decision (by_name a b).
Proof. unfold by_name. apply _. Defined.

(** [listTables()] and [listTablesToolTool], over the rows of
    [information_schema.tables]. *)
Definition listTables (information_schema_tables : list CatalogTable)
    : Query (list string) :=
  fun db =>
    (Fulfilled (full_name <$>
                  merge_sort by_schema_then_name
                    (List.filter is_user_base_table information_schema_tables)), db).

Definition listTablesToolTool (information_schema_tables : list CatalogTable)
    : Query (list string) :=
  fun db =>
    (Fulfilled (full_name <$>
                  merge_sort by_schema_then_name
                    (List.filter is_user_base_table information_schema_tables)), db).

(** [fetchKPIs()] and [fetchKPIsTool]:
    [SELECT name, formula, table_name, columns FROM kpi ORDER BY name]. *)
Definition fetchKPIs : Query (list KpiListing) :=
  fun db => (Fulfilled (listed <$> merge_sort by_name (kpi db)), db).

Definition fetchKPIsTool : Query (list KpiListing) :=
  fun db => (Fulfilled (listed <$> merge_sort by_name (kpi db)), db).

End Collation.

(** The row of a name, if there is one. *)
Definition row_named (name : string) (rows : list Kpi.Row) : option Kpi.Row :=
  List.find (fun r => String.eqb (Kpi.name r) name) rows.

(** The time a write is stamped with. *)
Definition write_time (w : KpiLog.Write) : Z :=
  match w with
  | KpiLog.by_insertKPI now _ => now
  | KpiLog.by_saveKPITool now _ => now
  end.

(** The same write at another time. *)
Definition at_time (now : Z) (w : KpiLog.Write) : KpiLog.Write :=
  match w with
  | KpiLog.by_insertKPI _ data => KpiLog.by_insertKPI now data
  | KpiLog.by_saveKPITool _ context => KpiLog.by_saveKPITool now context
  end.

(** [created_at] of the row a write leaves: that of the row it found, or
    its own time. *)
Definition created (w : KpiLog.Write) (rows : list Kpi.Row) : Z :=
  match row_named (KpiLog.write_name w) rows with
  | Some old => Kpi.created_at old
  | None => write_time w
  end.

End DbRead.

(** ** Sequences of statements on both tables *)

Module Store.
Import Js Db.

(** A statement of the tools that write: a KPI write or an insight
    insert through one of its three entry points. *)
Inductive Statement : Type :=
| write_kpi (w : KpiLog.Write)
| insert_insight_shared (now : Z) (data : InsightData)
| save_insight (now : Z) (context : InsightData)
| save_insight_shared (now : Z) (context : InsightData).

Definition run (s : Statement) (db : Database) : Database :=
  match s with
  | write_kpi w => KpiLog.apply w db
  | insert_insight_shared now data => snd (insertInsight now data db)
  | save_insight now context => snd (saveInsightTool now context db)
  | save_insight_shared now context => snd (saveInsightTool_shared now context db)
  end.

Definition run_all (ss : list Statement) (db : Database) : Database :=
  foldl (fun db s => run s db) db ss.

(** The time and the data of an insert into [insight]. *)
Definition inserted_by (s : Statement) : option (Z * InsightData) :=
  match s with
  | write_kpi _ => None
  | insert_insight_shared now data => Some (now, data)
  | save_insight now context => Some (now, context)
  | save_insight_shared now context => Some (now, context)
  end.

(** The row that [insertInsight] stores for [data] at time [now], under
    the next id of [db]. *)
Definition stored_insight (now : Z) (data : InsightData) (db : Database) : Insight.Row :=
  {| Insight.id := insight_id_seq db;
     Insight.name := in_name data;
     Insight.description := or_null (in_description data);
     Insight.kpi_name := or_null (in_kpi_name data);
     Insight.formula := in_formula data;
     Insight.schedule := or_null (in_schedule data);
     Insight.exec_time := or_null (in_exec_time data);
     Insight.alert_high := or_null_number (in_alert_high data);
     Insight.alert_low := or_null_number (in_alert_low data);
     Insight.created_at := now |}.

(** Every insight that names a KPI names one of table [kpi]. *)
Definition references_hold (db : Database) : Prop :=
  forall r k, r ∈ insight db -> Insight.kpi_name r = Some k ->
              k ∈ Kpi.name <$> kpi db.

(** The ids of the insights are distinct and below the sequence. *)
Definition ids_fresh (db : Database) : Prop :=
  NoDup (Insight.id <$> insight db) /\
  forall r, r ∈ insight db -> Insight.id r < insight_id_seq db.

End Store.

(** ** The remaining steps and the three workflows *)

Module Pipeline.
Import Js Db DbRead.

(** [.then(step)]: the next step runs on the output of a completed one; a
    suspended or failed step ends the run there.  A run is followed with
    the resume data of each suspending step at hand when it is reached
    (to suspend changes nothing, so that running a step first without and
    then with its resume data comes to the same). *)
Definition and_then {S S' O O'} (r : StepResult S O * Database) (pause : S -> S')
    (next : O -> Database -> StepResult S' O' * Database)
    : StepResult S' O' * Database :=
  match r with
  | (Completed output, db) => next output db
  | (Suspended payload, db) => (Suspended (pause payload), db)
  | (Failed e, db) => (Failed e, db)
  end.

(** For a step without suspend schema. *)
Definition never {S'} (payload : Empty_set) : S' :=
  match payload with end.

(** A line feed. *)
Definition nl : string := String (ascii_of_nat 10) EmptyString.

(** [{memory: {thread, resource}}]. *)
Record MemoryOption : Type := {
  thread : string;
  resource : string
}.

Section Environment.
(** What the steps take from outside: the collation, the rows of
    [information_schema.tables], the SQL generator, the rows and the
    engine of [pool.query], the time of the save, and for the insight
    workflow [JSON.stringify(rows, null, 2)], [runtimeContext.get] when
    there is a runtime context, and
    [mastra.getAgent('insightAgent').generate], which gives the text of
    the response or is rejected. *)
Variable precedes : string -> string -> bool.
Variable information_schema_tables : list CatalogTable.
Variable generateSQLTool : GenerateContext -> Outcome string.
Variable ResultRow : Type.
Variable pool_query : string -> Query (list ResultRow).
Variable now : Z.
Variable stringify : list ResultRow -> string.
Variable runtimeContext : option (string -> option string).
Variable insightAgent_generate : string -> MemoryOption -> Outcome string.

(** **** list-tables and get-tables *)

Definition listTablesStep (db : Database) : StepResult Empty_set (list string) * Database :=
  match listTablesToolTool precedes information_schema_tables db with
  | (Fulfilled tables, db') => (Completed tables, db')
  | (Rejected e, db') => (Failed e, db')
  end.

Definition getTablesStep (db : Database) : StepResult Empty_set (list string) * Database :=
  match listTablesToolTool precedes information_schema_tables db with
  | (Fulfilled tables, db') => (Completed tables, db')
  | (Rejected e, db') => (Failed e, db')
  end.

(** **** preview-results *)

Definition previewResultsStep (inputData : KpiWorkflow.SqlOutput) (db : Database)
    : StepResult Empty_set (KpiWorkflow.ConfirmInput ResultRow) * Database :=
  match runQueryTool ResultRow pool_query (KpiWorkflow.so_sqlQuery inputData) 5 db with
  | (Fulfilled rows, db') =>
      (Completed {| KpiWorkflow.ci_sqlQuery := KpiWorkflow.so_sqlQuery inputData;
                    KpiWorkflow.ci_kpiName := KpiWorkflow.so_kpiName inputData;
                    KpiWorkflow.ci_kpiDescription := KpiWorkflow.so_kpiDescription inputData;
                    KpiWorkflow.ci_previewResults := rows;
                    KpiWorkflow.ci_selectedColumns := KpiWorkflow.so_selectedColumns inputData;
                    KpiWorkflow.ci_selectedTables := KpiWorkflow.so_selectedTables inputData |},
       db')
  | (Rejected e, db') => (Failed e, db')
  end.

(** **** get-columns *)

Definition getColumnsStep (tableName : string) (db : Database)
    : StepResult Empty_set SimpleKpiWorkflow.DefineInput * Database :=
  match listColumnsTool tableName db with
  | (Fulfilled columns, db') =>
      (Completed {| SimpleKpiWorkflow.di_tableName := tableName;
                    SimpleKpiWorkflow.di_columns := columns |}, db')
  | (Rejected e, db') => (Failed e, db')
  end.

(** **** preview-kpi *)

Definition previewKPIStep (inputData : SimpleKpiWorkflow.DefineOutput) (db : Database)
    : StepResult Empty_set (SimpleKpiWorkflow.SaveInput ResultRow) * Database :=
  match runQueryTool ResultRow pool_query (SimpleKpiWorkflow.do_sqlQuery inputData) 5 db with
  | (Fulfilled rows, db') =>
      (Completed {| SimpleKpiWorkflow.si_kpiName := SimpleKpiWorkflow.do_kpiName inputData;
                    SimpleKpiWorkflow.si_kpiDescription :=
                      SimpleKpiWorkflow.do_kpiDescription inputData;
                    SimpleKpiWorkflow.si_sqlQuery := SimpleKpiWorkflow.do_sqlQuery inputData;
                    SimpleKpiWorkflow.si_preview := rows |}, db')
  | (Rejected e, db') => (Failed e, db')
  end.

(** **** fetch-kpis *)

(** The step hands on what the tool returned; select-kpi reads [name] and
    [formula] of each entry. *)
Definition fetchKPIsStep (db : Database)
    : StepResult Empty_set (list InsightWorkflow.KpiEntry) * Database :=
  match fetchKPIsTool precedes db with
  | (Fulfilled kpis, db') =>
      (Completed ((fun k => {| InsightWorkflow.ke_name := k_name k;
                               InsightWorkflow.ke_formula := k_formula k |}) <$> kpis), db')
  | (Rejected e, db') => (Failed e, db')
  end.

(** **** execute-kpi-query *)

Record KpiData : Type := {
  kd_kpiName : string;
  kd_kpiData : list ResultRow;
  kd_insightName : string;
  kd_insightDescription : string
}.

Definition executeKPIQueryStep (inputData : InsightWorkflow.SelectKpiOutput) (db : Database)
    : StepResult Empty_set KpiData * Database :=
  match runQueryTool ResultRow pool_query (InsightWorkflow.out_kpiFormula inputData) 10 db with
  | (Fulfilled rows, db') =>
      (Completed {| kd_kpiName := InsightWorkflow.out_kpiName inputData;
                    kd_kpiData := rows;
                    kd_insightName := InsightWorkflow.out_insightName inputData;
                    kd_insightDescription :=
                      InsightWorkflow.out_insightDescription inputData |}, db')
  | (Rejected e, db') => (Failed e, db')
  end.

(** **** generate-insight *)

(** The template literal of the prompt, with [kpiData.slice(0, 5)]. *)
Definition prompt (inputData : KpiData) : string :=
  nl +:+ "Analyze the following KPI data and generate an insight:" +:+ nl +:+ nl
  +:+ "KPI: " +:+ kd_kpiName inputData +:+ nl
  +:+ "Description: " +:+ kd_insightDescription inputData +:+ nl +:+ nl
  +:+ "Data:" +:+ nl
  +:+ stringify (take 5 (kd_kpiData inputData)) +:+ nl +:+ nl
  +:+ "Provide a clear, data-driven insight that is actionable and based on the actual numbers."
  +:+ nl.

(** [runtimeContext.get?.(key) ?? fallback], or the fallback without a
    runtime context. *)
Definition from_context (key fallback : string) : string :=
  match runtimeContext with
  | Some get => default fallback (get key)
  | None => fallback
  end.

Definition memoryOpt : MemoryOption :=
  {| thread := from_context "thread" "default-thread";
     resource := from_context "resource" "default-resource" |}.

Definition generateInsightStep (inputData : KpiData)
    : StepResult Empty_set InsightWorkflow.ConfirmInsightInput :=
  match insightAgent_generate (prompt inputData) memoryOpt with
  | Fulfilled text =>
      Completed {| InsightWorkflow.cii_kpiName := kd_kpiName inputData;
                   InsightWorkflow.cii_insightText := text;
                   InsightWorkflow.cii_insightName := kd_insightName inputData |}
  | Rejected e => Failed e
  end.

(** **** The three workflows *)

(** Where a run of the index-based workflow waits. *)
Inductive KpiPause : Type :=
| at_select_tables (payload : KpiWorkflow.SelectTablesSuspend)
| at_select_columns_details (payload : KpiWorkflow.SelectColumnsSuspend)
| at_confirm_save (payload : KpiWorkflow.ConfirmSuspend ResultRow).

(** The resume data of its suspending steps, as far as they are there. *)
Record KpiResume : Type := {
  for_select_tables : option KpiWorkflow.SelectTablesResume;
  for_select_columns_details : option KpiWorkflow.SelectColumnsResume;
  for_confirm_save : option KpiWorkflow.ConfirmResume
}.

(** [kpiWorkflow]: list-tables, select-tables, list-columns,
    select-columns-details, generate-sql, preview-results, confirm-save. *)
Definition kpiWorkflow (resume : KpiResume) (db : Database)
    : StepResult KpiPause KpiWorkflow.ConfirmOutput * Database :=
  and_then (listTablesStep db) never (fun tables db =>
  and_then (KpiWorkflow.selectTablesStep tables (for_select_tables resume), db)
    at_select_tables (fun selectedTables db =>
  and_then (KpiWorkflow.listColumnsStep selectedTables db) never (fun columns db =>
  and_then (KpiWorkflow.selectColumnsAndDetailsStep columns
              (for_select_columns_details resume), db)
    at_select_columns_details (fun details db =>
  and_then (KpiWorkflow.generateSQLStep generateSQLTool details, db) never (fun sql db =>
  and_then (previewResultsStep sql db) never (fun preview db =>
  and_then (KpiWorkflow.confirmAndSaveStep ResultRow now preview
              (for_confirm_save resume) db)
    at_confirm_save (fun output db => (Completed output, db)))))))).

Inductive SimplePause : Type :=
| at_select_table (payload : SimpleKpiWorkflow.SelectTableSuspend)
| at_define_kpi (payload : SimpleKpiWorkflow.DefineSuspend)
| at_save_kpi (payload : SimpleKpiWorkflow.SaveSuspend ResultRow).

Record SimpleResume : Type := {
  for_select_table : option string;
  for_define_kpi : option SimpleKpiWorkflow.DefineResume;
  for_save_kpi : option SimpleKpiWorkflow.SaveResume
}.

(** [simpleKpiWorkflow]: get-tables, select-table, get-columns,
    define-kpi, preview-kpi, save-kpi. *)
Definition simpleKpiWorkflow (resume : SimpleResume) (db : Database)
    : StepResult SimplePause SimpleKpiWorkflow.SaveOutput * Database :=
  and_then (getTablesStep db) never (fun tables db =>
  and_then (SimpleKpiWorkflow.selectTableStep tables (for_select_table resume), db)
    at_select_table (fun tableName db =>
  and_then (getColumnsStep tableName db) never (fun columns db =>
  and_then (SimpleKpiWorkflow.defineKPIStep generateSQLTool columns
              (for_define_kpi resume), db)
    at_define_kpi (fun defined db =>
  and_then (previewKPIStep defined db) never (fun preview db =>
  and_then (SimpleKpiWorkflow.saveKPIStep ResultRow now preview (for_save_kpi resume) db)
    at_save_kpi (fun output db => (Completed output, db))))))).

Inductive InsightPause : Type :=
| at_select_kpi (payload : InsightWorkflow.SelectKpiSuspend)
| at_confirm_save_insight (payload : InsightWorkflow.ConfirmInsightSuspend).

Record InsightResume : Type := {
  for_select_kpi : option InsightWorkflow.SelectKpiResume;
  for_confirm_save_insight : option InsightWorkflow.ConfirmInsightResume
}.

(** [insightWorkflow]: fetch-kpis, select-kpi, execute-kpi-query,
    generate-insight, confirm-save-insight. *)
Definition insightWorkflow (resume : InsightResume) (db : Database)
    : StepResult InsightPause InsightWorkflow.ConfirmInsightOutput * Database :=
  and_then (fetchKPIsStep db) never (fun kpis db =>
  and_then (InsightWorkflow.selectKPIStep kpis (for_select_kpi resume), db)
    at_select_kpi (fun selected db =>
  and_then (executeKPIQueryStep selected db) never (fun data db =>
  and_then (generateInsightStep data, db) never (fun insight db =>
  and_then (InsightWorkflow.confirmAndSaveInsightStep now insight
              (for_confirm_save_insight resume) db)
    at_confirm_save_insight (fun output db => (Completed output, db)))))).

(** **** The statement that a run has the engine execute

    The text that reaches [pool.query] in preview-kpi, in preview-results
    and in execute-kpi-query, when the run gets as far as that step: the
    steps before it, run as above. *)
Definition simple_previewed (resume : SimpleResume) (db : Database) : option string :=
  match
    and_then (getTablesStep db) never (fun tables db =>
    and_then (SimpleKpiWorkflow.selectTableStep tables (for_select_table resume), db)
      at_select_table (fun tableName db =>
    and_then (getColumnsStep tableName db) never (fun columns db =>
    and_then (SimpleKpiWorkflow.defineKPIStep generateSQLTool columns
                (for_define_kpi resume), db)
      at_define_kpi (fun defined db => (Completed defined, db)))))
  with
  | (Completed defined, _) => Some (limitedSql (SimpleKpiWorkflow.do_sqlQuery defined) 5)
  | _ => None
  end.

Definition kpi_previewed (resume : KpiResume) (db : Database) : option string :=
  match
    and_then (listTablesStep db) never (fun tables db =>
    and_then (KpiWorkflow.selectTablesStep tables (for_select_tables resume), db)
      at_select_tables (fun selectedTables db =>
    and_then (KpiWorkflow.listColumnsStep selectedTables db) never (fun columns db =>
    and_then (KpiWorkflow.selectColumnsAndDetailsStep columns
                (for_select_columns_details resume), db)
      at_select_columns_details (fun details db =>
    and_then (KpiWorkflow.generateSQLStep generateSQLTool details, db) never
      (fun sql db => (Completed sql, db))))))
  with
  | (Completed sql, _) => Some (limitedSql (KpiWorkflow.so_sqlQuery sql) 5)
  | _ => None
  end.

Definition insight_queried (resume : InsightResume) (db : Database) : option string :=
  match
    and_then (fetchKPIsStep db) never (fun kpis db =>
    and_then (InsightWorkflow.selectKPIStep kpis (for_select_kpi resume), db)
      at_select_kpi (fun selected db => (Completed selected, db)))
  with
  | (Completed selected, _) =>
      Some (limitedSql (InsightWorkflow.out_kpiFormula selected) 10)
  | _ => None
  end.

End Environment.
End Pipeline.

(** ** Texts and selections, described *)

Module Described.
Import Js Db.

(** A text of white space only. *)
Definition all_white (s : string) : bool :=
  forallb is_white_space (list_ascii_of_string s).


(** The [table.column] names that a selection stands for: for each entry
    in order, for each of its indexes in order, the column at that index. *)
Definition named_columns (columns : gmap string (list Column))
    (entries : list (string * list Z)) : list string :=
  flat_map
    (fun entry : string * list Z =>
       flat_map
         (fun i =>
            match columns !! entry.1 with
            | Some cols =>
                match index cols i with
                | Some col => [entry.1 +:+ "." +:+ col_name col]
                | None => []
                end
            | None => []
            end) entry.2)
    entries.

(** Every table of the selection is among the listed ones and every index
    is within its table. *)
Definition selection_valid (columns : gmap string (list Column))
    (entries : list (string * list Z)) : Prop :=
  forall t idxs, (t, idxs) ∈ entries ->
    exists cols, columns !! t = Some cols /\
      forall i, i ∈ idxs -> 0 <= i < Z.of_nat (length cols).

End Described.

(** ** The demo script *)

Module Demo.
Import Js.

(** What the script does that can be seen: a [console.log] or
    [console.error] with its arguments, and a call of
    [mastra.getAgent(name).generate(messages)] with the one message's
    content. *)
Inductive Event : Type :=
| log (arguments : list string)
| error (line : string) (e : Exception)
| generate (agent content : string).

Section Agents.
(** The text of an agent's response to a message, or the rejection of
    [getAgent] or [generate]. *)
Variable respond : string -> string -> Outcome string.

(** The three demos have one shape. *)
Definition run_demo (title agent content : string) : list Event * Outcome unit :=
  match respond agent content with
  | Fulfilled text =>
      ([log [title]; generate agent content;
        log ["Agent response:"; text];
        log [Pipeline.nl +:+ Pipeline.nl +:+ "=== Demo Complete ==="]], Fulfilled ())
  | Rejected e => ([log [title]; generate agent content], Rejected e)
  end.

Definition runKPIAgentDemo : list Event * Outcome unit :=
  run_demo ("=== KPI Agent Demo ===" +:+ Pipeline.nl) "kpiAgent"
    "I want to create a KPI. First, show me the available tables.".

Definition runInsightAgentDemo : list Event * Outcome unit :=
  run_demo ("=== Insight Agent Demo ===" +:+ Pipeline.nl) "insightAgent"
    "Show me all available KPIs so I can create an insight.".

Definition runSQLQueryAgentDemo : list Event * Outcome unit :=
  run_demo ("=== SQL Query Agent Demo ===" +:+ Pipeline.nl) "sqlQueryAgent"
    "List all tables in the database.".

(** [process.argv[2] || 'kpi']. *)
Definition demoType (argument : option string) : string :=
  or_else argument "kpi".

(** The [try] of the script's body, with its [catch]. *)
Definition main (argument : option string) : list Event :=
  let attempt :=
    if String.eqb (demoType argument) "kpi" then runKPIAgentDemo
    else if String.eqb (demoType argument) "insight" then runInsightAgentDemo
    else if String.eqb (demoType argument) "sql" then runSQLQueryAgentDemo
    else ([log ["Usage: npm start [kpi|insight|sql]"];
           log ["Example: npm start kpi"]], Fulfilled ()) in
  match attempt with
  | (events, Fulfilled _) => events
  | (events, Rejected e) => events ++ [error "Error running demo:" e]
  end.

End Agents.

(** The agent calls among some events. *)
Definition calls (events : list Event) : list (string * string) :=
  flat_map (fun ev => match ev with generate agent content => [(agent, content)] | _ => [] end)
    events.

End Demo.

(** ** More sample data: a catalog of tables, a quiet engine, an agent *)

Module Trial.
Import Js Db DbRead Pipeline.

(** The order of the code points. *)
Definition alphabetical (a b : string) : bool := bool_decide (String.le a b).

Definition tables : list CatalogTable :=
  [ {| tbl_schema := "public"; tbl_name := "stores"; tbl_type := "BASE TABLE" |};
    {| tbl_schema := "pg_catalog"; tbl_name := "pg_class"; tbl_type := "BASE TABLE" |};
    {| tbl_schema := "public"; tbl_name := "sales"; tbl_type := "BASE TABLE" |};
    {| tbl_schema := "public"; tbl_name := "recent_sales"; tbl_type := "VIEW" |} ].

(** An engine that answers every statement with no rows and writes
    nothing. *)
Definition no_rows (text : string) : Query (list unit) :=
  fun db => (Fulfilled [], db).

(** An engine that executes a DELETE on table kpi and answers every
    other statement with no rows. *)
Definition deleting (text : string) : Query (list unit) :=
  fun db =>
    if startsWith text "DELETE FROM kpi" then (Fulfilled [], with_kpi db [])
    else (Fulfilled [], db).



Definition offline (agent content : string) : Outcome string :=
  Rejected (Error "no API key").

(** An insight on a KPI that is not there. *)
Definition on_ghost : InsightData :=
  {| in_name := "q1-check";
     in_description := None;
     in_kpi_name := Some "ghost";
     in_formula := "Sales are flat.";
     in_schedule := None;
     in_exec_time := None;
     in_alert_high := None;
     in_alert_low := None |}.

Definition on_order_count : InsightData :=
  {| in_name := "orders";
     in_description := Some "Orders per quarter";
     in_kpi_name := Some "order_count";
     in_formula := "Orders grow.";
     in_schedule := None;
     in_exec_time := None;
     in_alert_high := None;
     in_alert_low := None |}.

Definition statements : list Store.Statement :=
  [ Store.write_kpi (KpiLog.by_saveKPITool 5 Sample.order_count);
    Store.save_insight 6 on_order_count;
    Store.insert_insight_shared 7 on_ghost;
    Store.write_kpi (KpiLog.by_insertKPI 8 Sample.redefined) ].

Definition confirm : KpiWorkflow.ConfirmResume :=
  {| KpiWorkflow.confirmed := true; KpiWorkflow.editedSQL := Some "" |}.

Definition save : SimpleKpiWorkflow.SaveResume :=
  {| SimpleKpiWorkflow.sr_confirmed := true;
     SimpleKpiWorkflow.sr_editedSQL := Some "SELECT sum(amount) FROM public.sales" |}.

Definition confirm_insight : InsightWorkflow.ConfirmInsightResume :=
  {| InsightWorkflow.cir_confirmed := true; InsightWorkflow.editedInsight := None |}.

Definition manual : SimpleKpiWorkflow.DefineResume :=
  {| SimpleKpiWorkflow.dr_kpiName := "stores";
     SimpleKpiWorkflow.dr_kpiDescription := "Number of stores";
     SimpleKpiWorkflow.useAI := false;
     SimpleKpiWorkflow.dr_sqlIntent := None;
     SimpleKpiWorkflow.dr_manualSQL := Some "SELECT count(*) FROM public.stores;" |}.


Definition kpi_resume : KpiResume :=
  {| for_select_tables := Some {| KpiWorkflow.selectedTableIndexes := [0] |};
     for_select_columns_details := Some (Sample.selection [1]);
     for_confirm_save := Some confirm |}.


(** Everything but the confirmation. *)
Definition simple_unconfirmed : SimpleResume :=
  {| for_select_table := Some "public.stores";
     for_define_kpi := Some manual;
     for_save_kpi := None |}.

Definition kpi_unconfirmed : KpiResume :=
  {| for_select_tables := Some {| KpiWorkflow.selectedTableIndexes := [0] |};
     for_select_columns_details := Some (Sample.selection [1]);
     for_confirm_save := None |}.


(** A KPI whose name has a U+0000 in it. *)
Definition with_nul : Db.KpiData :=
  {| data_name := String Ascii.zero "a";
     data_description := None;
     data_formula := "SELECT 1";
     data_table_name := None;
     data_columns := None |}.

(** Nothing supplied yet. *)
Definition simple_start : SimpleResume :=
  {| for_select_table := None; for_define_kpi := None; for_save_kpi := None |}.

Definition kpi_start : KpiResume :=
  {| for_select_tables := None; for_select_columns_details := None;
     for_confirm_save := None |}.

Definition insight_start : InsightResume :=
  {| for_select_kpi := None; for_confirm_save_insight := None |}.

(** A selection that names a table which was not listed. *)
Definition with_unlisted : KpiWorkflow.SelectColumnsResume :=
  {| KpiWorkflow.selectedColumnsByTable := [("public.sales", [0]); ("public.ghost", [3])];
     KpiWorkflow.sc_kpiName := "total_amount";
     KpiWorkflow.sc_kpiDescription := "Sum of all sales";
     KpiWorkflow.sc_useAIGeneration := false;
     KpiWorkflow.sc_sqlIntent := None;
     KpiWorkflow.sc_manualSQL := Some "SELECT amount FROM public.sales" |}.

End Trial.

(** * Properties *)

(** ** Table [kpi] *)

Section KpiTable.
Import Js Db KpiLog.

Lemma names_on_conflict now p1 p2 p3 p4 p5 rows :
  Kpi.name <$> insert_kpi_on_conflict now p1 p2 p3 p4 p5 rows =
  if existsb (fun r => String.eqb (Kpi.name r) p1) rows
  then Kpi.name <$> rows
  else (Kpi.name <$> rows) ++ [p1].
Proof.
  unfold insert_kpi_on_conflict.
  destruct (existsb _ rows).
  - rewrite <- list_fmap_compose. apply list_fmap_ext.
    intros i r _. simpl. now destruct (String.eqb (Kpi.name r) p1).
  - now rewrite fmap_app.
Qed.

Lemma existsb_name_false p1 rows :
  existsb (fun r => String.eqb (Kpi.name r) p1) rows = false ->
  p1 ∉ Kpi.name <$> rows.
Proof.
  induction rows as [|r rows IH]; simpl; intros H.
  - apply not_elem_of_nil.
  - apply orb_false_iff in H as [Hr Hrows].
    apply not_elem_of_cons. split; [|now apply IH].
    intros ->. now rewrite String.eqb_refl in Hr.
Qed.

Lemma existsb_name_true p1 rows :
  p1 ∈ Kpi.name <$> rows ->
  existsb (fun r => String.eqb (Kpi.name r) p1) rows = true.
Proof.
  destruct (existsb _ rows) eqn:E; [done|].
  intros H. now apply existsb_name_false in E.
Qed.

Lemma unique_names_on_conflict now p1 p2 p3 p4 p5 rows :
  unique_names rows ->
  unique_names (insert_kpi_on_conflict now p1 p2 p3 p4 p5 rows).
Proof.
  unfold unique_names. rewrite names_on_conflict.
  destruct (existsb _ rows) eqn:E; [done|].
  intros H. apply NoDup_app. split; [done|]. split.
  - intros x Hx Hin. apply list_elem_of_singleton in Hin as ->.
    now apply existsb_name_false in E.
  - apply NoDup_singleton.
Qed.

(** A write that the server takes is the upsert; one that it refuses
    leaves the database as it was. *)
Lemma apply_cases w db :
  apply w db =
  if accepted w
  then with_kpi db
         (insert_kpi_on_conflict (DbRead.write_time w) (write_name w)
            (Kpi.description (written w 0)) (Kpi.formula (written w 0))
            (Kpi.table_name (written w 0)) (Kpi.columns (written w 0)) (kpi db))
  else db.
Proof.
  destruct w as [now d|now c];
    unfold apply, accepted, insertKPI, saveKPITool, upsert_kpi; simpl;
    now destruct (refuses_kpi _ _ _ _ _).
Qed.

Lemma apply_refused w db : accepted w = false -> apply w db = db.
Proof. intros H. now rewrite apply_cases, H. Qed.

Lemma apply_accepted w db :
  accepted w = true ->
  kpi (apply w db) =
  insert_kpi_on_conflict (DbRead.write_time w) (write_name w)
    (Kpi.description (written w 0)) (Kpi.formula (written w 0))
    (Kpi.table_name (written w 0)) (Kpi.columns (written w 0)) (kpi db).
Proof. intros H. now rewrite apply_cases, H. Qed.

Lemma has_nul_or_null_or_null x : has_nul_or_null (or_null x) = has_nul_or_null x.
Proof.
  destruct x as [s|]; [|done]. unfold or_null, truthy.
  destruct (String.eqb s "") eqn:E; [|done].
  apply String.eqb_eq in E as ->. done.
Qed.

(** The texts of an accepted write. *)
Lemma accepted_texts w :
  accepted w = true <->
  has_nul (write_name w) = false /\
  has_nul_or_null (Kpi.description (written w 0)) = false /\
  has_nul (Kpi.formula (written w 0)) = false /\
  has_nul_or_null (Kpi.table_name (written w 0)) = false /\
  Forall (fun c => has_nul c = false) (default [] (Kpi.columns (written w 0))).
Proof.
  unfold accepted, refuses_kpi.
  set (cols := default [] (Kpi.columns (written w 0))).
  assert (Hcols : existsb has_nul cols = false <-> Forall (fun c => has_nul c = false) cols).
  { induction cols as [|c cols IH]; simpl.
    - split; [constructor|done].
    - rewrite orb_false_iff, Forall_cons, IH. done. }
  destruct (has_nul (write_name w)), (has_nul_or_null (Kpi.description (written w 0))),
    (has_nul (Kpi.formula (written w 0))), (has_nul_or_null (Kpi.table_name (written w 0)));
    simpl; try (split; [done|intros (?&?&?&?&?); done]).
  destruct (existsb has_nul cols).
  - split; [done|]. intros (_&_&_&_&H). apply Hcols in H. done.
  - split; [|done]. intros _. repeat split. now apply Hcols.
Qed.

Lemma unique_names_apply w db :
  unique_names (kpi db) -> unique_names (kpi (apply w db)).
Proof.
  intros H. rewrite apply_cases. destruct (accepted w); [|done].
  now apply unique_names_on_conflict.
Qed.

Lemma unique_names_apply_all ws db :
  unique_names (kpi db) -> unique_names (kpi (apply_all ws db)).
Proof.
  revert db. induction ws as [|w ws IH]; intros db H; [done|].
  simpl. apply IH. now apply unique_names_apply.
Qed.

(** On a conflict the table keeps its length, and the row of that name is
    the old one with the four columns assigned. *)
Lemma on_conflict_lookup now p1 p2 p3 p4 p5 rows i old :
  rows !! i = Some old ->
  insert_kpi_on_conflict now p1 p2 p3 p4 p5 rows !! i =
  Some (if String.eqb (Kpi.name old) p1 then on_conflict_update p2 p3 p4 p5 old else old).
Proof.
  intros Hi. unfold insert_kpi_on_conflict.
  destruct (existsb _ rows) eqn:E.
  - now rewrite list_lookup_fmap, Hi.
  - rewrite lookup_app_l by (now apply lookup_lt_Some in Hi).
    rewrite Hi. f_equal.
    destruct (String.eqb (Kpi.name old) p1) eqn:En; [|done].
    apply String.eqb_eq in En. apply existsb_name_false in E.
    exfalso. apply E. rewrite <- En.
    apply list_elem_of_fmap. exists old. split; [done|].
    now apply list_elem_of_lookup_2 in Hi.
Qed.

Lemma on_conflict_length now p1 p2 p3 p4 p5 rows :
  p1 ∈ Kpi.name <$> rows ->
  length (insert_kpi_on_conflict now p1 p2 p3 p4 p5 rows) = length rows.
Proof.
  intros H. unfold insert_kpi_on_conflict.
  rewrite (existsb_name_true _ _ H). apply length_fmap.
Qed.

End KpiTable.

Section KpiUpsert.
Import Js Db KpiLog.

Lemma apply_lookup w db i old :
  kpi db !! i = Some old ->
  kpi (apply w db) !! i =
  Some (if accepted w && String.eqb (Kpi.name old) (write_name w)
        then written w (Kpi.created_at old) else old).
Proof.
  intros Hi. rewrite apply_cases. destruct (accepted w); [|done].
  cbn [kpi with_kpi andb].
  rewrite (on_conflict_lookup _ _ _ _ _ _ _ _ _ Hi).
  destruct (String.eqb (Kpi.name old) (write_name w)) eqn:E; [|done].
  apply String.eqb_eq in E. f_equal.
  destruct w; simpl in *; unfold on_conflict_update; now rewrite E.
Qed.

Lemma apply_length w db :
  write_name w ∈ Kpi.name <$> kpi db ->
  length (kpi (apply w db)) = length (kpi db).
Proof.
  intros H. rewrite apply_cases. destruct (accepted w); [|done].
  now apply on_conflict_length.
Qed.

Lemma apply_insight w db : insight (apply w db) = insight db.
Proof. rewrite apply_cases. now destruct (accepted w). Qed.

Lemma written_name w created : Kpi.name (written w created) = write_name w.
Proof. now destruct w. Qed.

Lemma written_created_at w created : Kpi.created_at (written w created) = created.
Proof. now destruct w. Qed.

(** C3.  Whatever KPI writes came before, accepted by the server or
    refused, table [kpi] has at most one row per name.  A write under a
    name that is already there keeps the number of rows, and no other row
    has that name; when the server takes its texts (none has a U+0000 in
    it), the row at that place then carries the written description,
    formula, table_name and columns; when the server refuses them, the
    database is as it was. *)
Theorem kpi_upsert_one_row_per_name (ws : list Write) (w : Write) (db : Database) :
  unique_names (kpi db) ->
  let db1 := apply_all ws db in
  let db2 := apply w db1 in
  unique_names (kpi db1) /\ unique_names (kpi db2) /\
  (write_name w ∈ Kpi.name <$> kpi db1 ->
   length (kpi db2) = length (kpi db1) /\
   exists i old,
     kpi db1 !! i = Some old /\ Kpi.name old = write_name w /\
     (accepted w = true -> kpi db2 !! i = Some (written w (Kpi.created_at old))) /\
     forall j r, kpi db2 !! j = Some r -> Kpi.name r = write_name w -> j = i) /\
  (accepted w = false -> db2 = db1).
Proof.
  intros Hdb db1 db2.
  assert (H1 : unique_names (kpi db1)) by now apply unique_names_apply_all.
  assert (H2 : unique_names (kpi db2)) by now apply unique_names_apply.
  split; [done|]. split; [done|].
  split; [|apply apply_refused].
  intros Hin. split; [now apply apply_length|].
  apply list_elem_of_fmap in Hin as (old & Hname & Hold).
  apply list_elem_of_lookup in Hold as [i Hi].
  exists i, old. split; [done|]. split; [done|].
  pose proof (apply_lookup w db1 i old Hi) as Hnew. fold db2 in Hnew.
  rewrite <- Hname, String.eqb_refl, andb_true_r in Hnew.
  split; [intros Ha; now rewrite Hnew, Ha|].
  intros j r Hj Hr.
  eapply (NoDup_lookup (Kpi.name <$> kpi db2)); [exact H2| |].
  - rewrite list_lookup_fmap, Hj. simpl. now rewrite Hr.
  - rewrite list_lookup_fmap, Hnew. simpl.
    destruct (accepted w); [now rewrite written_name|now rewrite Hname].
Qed.

(** C10.  A write under a name that is already there leaves the row at
    its place, with its name and its created_at; when the server takes
    the texts of the write, the four other columns are assigned, and when
    it refuses them, the row is as it was; the rows of other names and
    table [insight] are untouched. *)
Theorem kpi_upsert_keeps_created_at (w : Write) (db : Database) (i : nat) (old : Kpi.Row) :
  kpi db !! i = Some old ->
  Kpi.name old = write_name w ->
  exists new,
    kpi (apply w db) !! i = Some new /\
    Kpi.created_at new = Kpi.created_at old /\
    Kpi.name new = Kpi.name old /\
    (accepted w = true ->
     Kpi.description new = Kpi.description (written w 0) /\
     Kpi.formula new = Kpi.formula (written w 0) /\
     Kpi.table_name new = Kpi.table_name (written w 0) /\
     Kpi.columns new = Kpi.columns (written w 0)) /\
    (accepted w = false -> new = old) /\
    (forall j r, kpi db !! j = Some r -> Kpi.name r <> write_name w ->
                 kpi (apply w db) !! j = Some r) /\
    insight (apply w db) = insight db.
Proof.
  intros Hi Hname.
  assert (Hframe : forall j r, kpi db !! j = Some r -> Kpi.name r <> write_name w ->
                     kpi (apply w db) !! j = Some r).
  { intros j r Hj Hr. rewrite (apply_lookup _ _ _ _ Hj).
    destruct (String.eqb (Kpi.name r) (write_name w)) eqn:E.
    - now apply String.eqb_eq in E.
    - now rewrite andb_false_r. }
  eexists. split; [exact (apply_lookup w db i old Hi)|].
  rewrite Hname, String.eqb_refl, andb_true_r.
  destruct (accepted w).
  - split; [apply written_created_at|].
    split; [now rewrite written_name|].
    split; [intros _; now destruct w|]. split; [done|].
    split; [exact Hframe|apply apply_insight].
  - split; [done|]. split; [done|]. split; [done|]. split; [done|].
    split; [exact Hframe|apply apply_insight].
Qed.

End KpiUpsert.

(** ** Table [insight] *)

Section InsightInsert.
Import Js Db.

Lemma or_null_empty : or_null (Some "") = None.
Proof. reflexivity. Qed.

Lemma or_null_truthy s : s <> "" -> or_null (Some s) = Some s.
Proof.
  intros H. unfold or_null, truthy.
  destruct (String.eqb s "") eqn:E; [|done].
  now apply String.eqb_eq in E.
Qed.

Lemma or_null_number_falsy x : truthy_number x = false -> or_null_number (Some x) = None.
Proof. intros H. unfold or_null_number. now rewrite H. Qed.

Lemma or_null_number_truthy x : truthy_number x = true -> or_null_number (Some x) = Some x.
Proof. intros H. unfold or_null_number. now rewrite H. Qed.

(** The two [saveInsightTool]s and [insertInsight] send the same
    statement. *)
Lemma saveInsightTool_insertInsight now context db :
  saveInsightTool now context db = saveInsightTool_shared now context db /\
  snd (saveInsightTool now context db) = snd (insertInsight now context db).
Proof.
  unfold saveInsightTool, saveInsightTool_shared, insertInsight, or_undefined. simpl.
  split; [done|].
  now destruct (insert_insight _ _ _ _ _ _ _ _ _ db) as [[u|e] db'].
Qed.

(** The three outcomes of the insert. *)
Lemma insertInsight_cases now data db :
  insertInsight now data db =
  if takes_insight data then
    if references_kpi (or_null (in_kpi_name data)) (kpi db) then
      (Fulfilled (),
       {| kpi := kpi db; insight := insight db ++ [Store.stored_insight now data db];
          insight_id_seq := insight_id_seq db + 1;
          information_schema_columns := information_schema_columns db |})
    else
      (Rejected (DatabaseError "23503"),
       {| kpi := kpi db; insight := insight db;
          insight_id_seq := insight_id_seq db + 1;
          information_schema_columns := information_schema_columns db |})
  else (Rejected (DatabaseError "22021"), db).
Proof.
  unfold insertInsight, insert_insight, takes_insight.
  now destruct (refuses_insight _ _ _ _ _ _).
Qed.

(** C9.  When the statement is accepted (none of the texts has a U+0000
    in it, and the stored kpi_name is NULL or names a KPI),
    [insertInsight] and both [saveInsightTool]s add one row whose optional
    columns are the arguments with every falsy one turned into NULL: a
    threshold of 0 (or -0, or NaN) and an empty description, kpi_name,
    schedule or exec_time are stored as NULL, and the other values as they
    are. *)
Theorem insight_insert_nulls_falsy (now : Z) (data : InsightData) (db : Database) :
  takes_insight data = true ->
  references_kpi (or_null (in_kpi_name data)) (kpi db) = true ->
  exists row,
    insertInsight now data db =
      (Fulfilled (), {| kpi := kpi db; insight := insight db ++ [row];
                        insight_id_seq := insight_id_seq db + 1;
                        information_schema_columns := information_schema_columns db |}) /\
    snd (saveInsightTool now data db) = snd (insertInsight now data db) /\
    snd (saveInsightTool_shared now data db) = snd (insertInsight now data db) /\
    Insight.name row = in_name data /\ Insight.formula row = in_formula data /\
    Insight.description row = or_null (in_description data) /\
    Insight.kpi_name row = or_null (in_kpi_name data) /\
    Insight.schedule row = or_null (in_schedule data) /\
    Insight.exec_time row = or_null (in_exec_time data) /\
    Insight.alert_high row = or_null_number (in_alert_high data) /\
    Insight.alert_low row = or_null_number (in_alert_low data) /\
    (in_alert_high data = Some 0%float -> Insight.alert_high row = None) /\
    (in_alert_low data = Some 0%float -> Insight.alert_low row = None) /\
    (in_description data = Some "" -> Insight.description row = None) /\
    (in_kpi_name data = Some "" -> Insight.kpi_name row = None) /\
    (in_schedule data = Some "" -> Insight.schedule row = None) /\
    (in_exec_time data = Some "" -> Insight.exec_time row = None).
Proof.
  intros Htakes Hfk. eexists. split.
  { rewrite insertInsight_cases, Htakes, Hfk. reflexivity. }
  destruct (saveInsightTool_insertInsight now data db) as [Heq Hsnd].
  split; [exact Hsnd|]. split; [now rewrite <- Heq|].
  simpl. repeat split; try reflexivity; now intros ->.
Qed.

End InsightInsert.

(** ** Listing columns *)

Section ListColumns.
Import Js Db.

Lemma includes_dot_cons c s :
  includes (String c s) "." = Ascii.eqb "." c || includes s ".".
Proof.
  change (includes (String c s) ".")
    with ((Ascii.eqb "." c && startsWith s "") || includes s ".").
  now destruct s, (Ascii.eqb "." c).
Qed.

Lemma split_no_dot s : includes s "." = false -> split "." s = [s].
Proof.
  induction s as [|c s IH]; [done|].
  rewrite includes_dot_cons. intros H.
  apply orb_false_iff in H as [Hc Hs].
  simpl. rewrite Ascii.eqb_sym, Hc. now rewrite (IH Hs).
Qed.

Lemma split_dot_app s r :
  includes s "." = false -> split "." (s +:+ "." +:+ r) = s :: split "." r.
Proof.
  induction s as [|c s IH]; [done|].
  rewrite includes_dot_cons. intros H.
  apply orb_false_iff in H as [Hc Hs].
  simpl. rewrite Ascii.eqb_sym, Hc. now rewrite (IH Hs).
Qed.

Lemma includes_dot_app s r : includes (s +:+ "." +:+ r) "." = true.
Proof.
  induction s as [|c s IH].
  { change ("" +:+ "." +:+ r) with (String "."%char r).
    now rewrite includes_dot_cons. }
  change (String c s +:+ "." +:+ r) with (String c (s +:+ "." +:+ r)).
  rewrite includes_dot_cons, IH. apply orb_true_r.
Qed.

Lemma split_head_no_dot s : forall h t, split "." s = h :: t -> includes h "." = false.
Proof.
  induction s as [|c s IH]; intros h t; simpl.
  - now intros [= <- <-].
  - destruct (Ascii.eqb c ".") eqn:E.
    + now intros [= <- <-].
    + destruct (split "." s) as [|h' t'] eqn:Es.
      * now intros [= <- <-]; rewrite includes_dot_cons, Ascii.eqb_sym, E.
      * intros [= <- <-]. rewrite includes_dot_cons, Ascii.eqb_sym, E.
        now apply (IH h' t').
Qed.


Lemma schema_and_table_qualified s r :
  includes s "." = false ->
  schema_and_table (s +:+ "." +:+ r) = (Some s, head (split "." r)).
Proof.
  intros H. unfold schema_and_table.
  rewrite includes_dot_app, (split_dot_app _ _ H).
  unfold index. simpl. now destruct (split "." r).
Qed.




Lemma listColumns_eq table db :
  listColumns table db =
  (Fulfilled (select_columns (schema_and_table table).1 (schema_and_table table).2
                (information_schema_columns db)), db).
Proof. unfold listColumns. now destruct (schema_and_table table). Qed.






End ListColumns.

(** ** Bounded query execution *)

Section BoundedQuery.
Import Js Db.

Lemma trimStart_drop_while s :
  list_ascii_of_string (trimStart s) =
  Spec.drop_while is_white_space (list_ascii_of_string s).
Proof.
  induction s as [|c s IH]; [done|].
  simpl. now destruct (is_white_space c).
Qed.

Lemma drop_while_snoc {A} (p : A -> bool) l x :
  Spec.drop_while p (l ++ [x]) =
  match Spec.drop_while p l with
  | [] => if p x then [] else [x]
  | y :: rest => (y :: rest) ++ [x]
  end.
Proof.
  induction l as [|a l IH]; [done|].
  simpl. now destruct (p a).
Qed.

Lemma string_eqb_nil s :
  String.eqb s "" = match list_ascii_of_string s with [] => true | _ => false end.
Proof. now destruct s. Qed.

Lemma trimEnd_drop_while s :
  list_ascii_of_string (trimEnd s) =
  rev (Spec.drop_while is_white_space (rev (list_ascii_of_string s))).
Proof.
  induction s as [|c s IH]; [done|].
  cbn [trimEnd list_ascii_of_string rev].
  rewrite drop_while_snoc, string_eqb_nil, IH.
  destruct (Spec.drop_while is_white_space (rev (list_ascii_of_string s))) as [|y rest].
  - cbn [rev]. rewrite andb_true_r.
    destruct (is_white_space c); [done|].
    cbn [list_ascii_of_string]. now rewrite IH.
  - rewrite rev_app_distr. cbn [rev app].
    destruct (rev rest ++ [y]) eqn:E.
    + now destruct (rev rest).
    + rewrite andb_false_r. cbn [list_ascii_of_string].
      rewrite IH. cbn [rev]. now rewrite E.
Qed.

Lemma trim_spec s : trim s = Spec.strip_surrounding_whitespace s.
Proof.
  unfold trim, Spec.strip_surrounding_whitespace.
  rewrite <- trimStart_drop_while, <- trimEnd_drop_while.
  now rewrite string_of_list_ascii_of_string.
Qed.

Lemma replace_semicolon_rev s :
  list_ascii_of_string (replace_semicolon_at_end s) =
  match rev (list_ascii_of_string s) with
  | c :: before => if Ascii.eqb c ";" then rev before else list_ascii_of_string s
  | [] => list_ascii_of_string s
  end.
Proof.
  induction s as [|c s IH]; [done|].
  cbn [replace_semicolon_at_end list_ascii_of_string rev].
  rewrite string_eqb_nil.
  destruct (list_ascii_of_string s) as [|d l] eqn:El.
  - simpl. rewrite andb_true_r. destruct (Ascii.eqb c ";"); [done|].
    cbn [list_ascii_of_string]. now rewrite IH.
  - rewrite andb_false_r. cbn [list_ascii_of_string]. rewrite IH.
    destruct (rev (d :: l)) as [|x r] eqn:Er.
    + apply (f_equal (@length _)) in Er. rewrite length_rev in Er. done.
    + cbn [app]. destruct (Ascii.eqb x ";"); [|done].
      now rewrite rev_app_distr.
Qed.

Lemma replace_semicolon_spec s :
  replace_semicolon_at_end s = Spec.strip_trailing_terminator s.
Proof.
  unfold Spec.strip_trailing_terminator.
  rewrite <- (string_of_list_ascii_of_string (replace_semicolon_at_end s)).
  rewrite replace_semicolon_rev.
  destruct (rev (list_ascii_of_string s)) as [|c before];
    [|destruct (Ascii.eqb c ";")]; try done;
    apply string_of_list_ascii_of_string.
Qed.

Lemma number_toString_safe n : isSafeInteger n = true -> number_toString n = pretty n.
Proof.
  unfold isSafeInteger, number_toString. intros H. apply Z.leb_le in H.
  destruct (Z.abs n <=? 2 ^ 53) eqn:E; [done|].
  apply Z.leb_gt in E. lia.
Qed.

Lemma limitedSql_bounded_text sql m :
  limitedSql sql m = Spec.bounded_text sql (number_toString m).
Proof.
  unfold limitedSql, Spec.bounded_text.
  now rewrite replace_semicolon_spec, trim_spec.
Qed.

(** C4.  For every text and every row limit that is a safe integer, the
    helpers hand the server the text trimmed of its surrounding white
    space, less one trailing [;] if it has one, followed by [ LIMIT n;]
    with n in decimal digits (n is 5 when [runQuery] gets no limit, and
    when the tool's input has none), whatever the text says.  For every
    limit the clause has the limit as JavaScript writes the number. *)
Theorem run_query_submits_bounded_text (ResultRow : Type)
    (pool_query : string -> Query (list ResultRow)) (sql : string) (n : Z) (db : Database) :
  isSafeInteger n = true ->
  limitedSql sql n = Spec.bounded_query_text sql n /\
  runQuery ResultRow pool_query sql (Some n) db = pool_query (Spec.bounded_query_text sql n) db /\
  runQuery ResultRow pool_query sql None db = pool_query (Spec.bounded_query_text sql 5) db /\
  runQueryTool ResultRow pool_query sql n db = pool_query (Spec.bounded_query_text sql n) db /\
  runQueryTool_input None = 5 /\ runQueryTool_input (Some n) = n /\
  forall m,
    limitedSql sql m = Spec.bounded_text sql (number_toString m) /\
    runQuery ResultRow pool_query sql (Some m) db =
      pool_query (Spec.bounded_text sql (number_toString m)) db /\
    runQueryTool ResultRow pool_query sql m db =
      pool_query (Spec.bounded_text sql (number_toString m)) db.
Proof.
  intros Hn.
  assert (E : forall m, isSafeInteger m = true ->
                limitedSql sql m = Spec.bounded_query_text sql m).
  { intros m Hm. rewrite limitedSql_bounded_text, (number_toString_safe _ Hm). done. }
  unfold runQuery, runQueryTool. simpl. rewrite (E n Hn), (E 5 eq_refl).
  repeat split; try done; now rewrite limitedSql_bounded_text.
Qed.

End BoundedQuery.

(** ** Texts *)

Section Texts.
Import Js.

Lemma append_cons x (a b : string) : String x a +:+ b = String x (a +:+ b).
Proof. reflexivity. Qed.

Lemma append_assoc (a b c : string) : (a +:+ b) +:+ c = a +:+ b +:+ c.
Proof. induction a as [|x a IH]; [done|]. rewrite !append_cons. now f_equal. Qed.

Lemma append_empty_r (a : string) : a +:+ "" = a.
Proof. induction a as [|x a IH]; [done|]. rewrite append_cons. now f_equal. Qed.

Lemma occurs_in_refl s : Spec.occurs_in s s.
Proof. exists "", "". simpl. now rewrite append_empty_r. Qed.

Lemma occurs_in_append sub a b c :
  Spec.occurs_in sub b -> Spec.occurs_in sub (a +:+ b +:+ c).
Proof.
  intros (before & after & ->).
  exists (a +:+ before), (after +:+ c).
  now rewrite !append_assoc.
Qed.

Lemma occurs_in_prefix sub b c : Spec.occurs_in sub b -> Spec.occurs_in sub (b +:+ c).
Proof. intros H. now apply (occurs_in_append sub "" b c). Qed.

Lemma occurs_in_suffix sub a b : Spec.occurs_in sub b -> Spec.occurs_in sub (a +:+ b).
Proof.
  intros H. rewrite <- (append_empty_r b). now apply occurs_in_append.
Qed.

Lemma occurs_in_join sep x l : x ∈ l -> Spec.occurs_in x (join sep l).
Proof.
  induction l as [|y l IH]; intros H.
  - now apply elem_of_nil in H.
  - apply elem_of_cons in H as [-> | H].
    + destruct l; [apply occurs_in_refl|].
      cbn [join]. apply occurs_in_prefix, occurs_in_refl.
    + destruct l as [|z l]; [now apply elem_of_nil in H|].
      cbn [join]. do 2 apply occurs_in_suffix. now apply IH.
Qed.

Lemma startsWith_prefix s p :
  startsWith s p = true <-> exists after, s = p +:+ after.
Proof.
  revert s. induction p as [|a p IH]; intros s.
  - split; [|now destruct s]. intros _. now exists s.
  - destruct s as [|b s].
    + split; [done|]. now intros [after H].
    + simpl. rewrite andb_true_iff, IH. split.
      * intros [Hab [after ->]]. apply Ascii.eqb_eq in Hab as ->. now exists after.
      * intros [after [= -> ->]]. split; [apply Ascii.eqb_refl|]. now exists after.
Qed.

Lemma includes_occurs s sub : includes s sub = true <-> Spec.occurs_in sub s.
Proof.
  induction s as [|c s IH].
  - cbn [includes]. rewrite orb_false_r, startsWith_prefix. split.
    + intros [after H]. now exists "", after.
    + intros (before & after & H). destruct before as [|b before].
      * now exists after.
      * now rewrite append_cons in H.
  - cbn [includes]. rewrite orb_true_iff, IH, startsWith_prefix. split.
    + intros [[after H] | (before & after & ->)].
      * now exists "", after.
      * now exists (String c before), after.
    + intros (before & after & H). destruct before as [|b before].
      * left. now exists after.
      * right. rewrite append_cons in H. injection H as _ ->.
        now exists before, after.
Qed.

End Texts.

(** ** Index validation in the index-based KPI workflow *)

Section IndexValidation.
Import Js Db KpiWorkflow.

Lemma out_of_range_spec n i :
  out_of_range n i = true <-> i < 0 \/ Z.of_nat n <= i.
Proof. unfold out_of_range. rewrite orb_true_iff. lia. Qed.

Lemma index_in_range {A} (l : list A) i :
  out_of_range (length l) i = false -> is_Some (index l i).
Proof.
  intros H. unfold out_of_range in H. apply orb_false_iff in H as [H0 Hn].
  unfold index. rewrite H0. apply lookup_lt_is_Some. lia.
Qed.

Lemma filter_out_of_range n (l : list Z) i :
  i ∈ l -> out_of_range n i = true -> i ∈ List.filter (out_of_range n) l.
Proof.
  intros Hi Ho. apply list_elem_of_In, filter_In.
  split; [now apply list_elem_of_In|done].
Qed.

Lemma selectTablesStep_rejects tables r bad :
  bad ∈ selectedTableIndexes r ->
  out_of_range (length tables) bad = true ->
  selectTablesStep tables (Some r) =
  Failed (Error (invalid_table_indexes_message
                   (List.filter (out_of_range (length tables)) (selectedTableIndexes r))
                   tables)).
Proof.
  intros Hin Hbad. unfold selectTablesStep.
  pose proof (filter_out_of_range _ _ _ Hin Hbad) as Hf.
  destruct (selectedTableIndexes r) as [|i sel]; [now apply elem_of_nil in Hin|].
  cbn [length Nat.eqb].
  destruct (List.filter _ (i :: sel)); [now apply elem_of_nil in Hf|done].
Qed.

(** The indexes that pass the validation all hit a table, so the default
    of [table_at] is for none of them. *)
Lemma selectTablesStep_accepts tables r :
  selectedTableIndexes r <> [] ->
  (forall i, i ∈ selectedTableIndexes r -> out_of_range (length tables) i = false) ->
  selectTablesStep tables (Some r) = Completed (table_at tables <$> selectedTableIndexes r) /\
  Forall (fun i => index tables i = Some (table_at tables i)) (selectedTableIndexes r).
Proof.
  intros Hne Hall. split.
  - unfold selectTablesStep.
    destruct (selectedTableIndexes r) as [|i sel] eqn:E; [done|].
    cbn [length Nat.eqb].
    destruct (List.filter _ (i :: sel)) as [|x f] eqn:Ef; [done|].
    assert (Hx : In x (List.filter (out_of_range (length tables)) (i :: sel)))
      by (rewrite Ef; now left).
    apply filter_In in Hx as [Hx1 Hx2].
    apply list_elem_of_In in Hx1. rewrite (Hall _ Hx1) in Hx2. done.
  - apply Forall_forall. intros i Hi.
    destruct (index_in_range tables i (Hall i Hi)) as [t Ht].
    unfold table_at. now rewrite Ht.
Qed.

Lemma push_columns_find table cols indexes selected :
  match List.find (out_of_range (length cols)) indexes with
  | Some i =>
      push_columns table cols indexes selected =
      Rejected (Error (invalid_column_index_message i table cols))
  | None => exists more, push_columns table cols indexes selected = Fulfilled (selected ++ more)
  end.
Proof.
  revert selected. induction indexes as [|i indexes IH]; intros selected.
  - exists []. simpl. now rewrite app_nil_r.
  - cbn [List.find push_columns].
    destruct (out_of_range (length cols) i) eqn:Ei; [done|].
    destruct (index_in_range cols i Ei) as [col ->].
    specialize (IH (selected ++ [table +:+ "." +:+ col_name col])).
    destruct (List.find _ indexes); [done|].
    destruct IH as [more ->]. eexists. now rewrite <- app_assoc.
Qed.

Lemma convert_indexes_first_invalid columns entries selected :
  (forall t idxs, (t, idxs) ∈ entries -> is_Some (columns !! t)) ->
  match Spec.first_invalid_column columns entries with
  | Some (t, i, cols) =>
      convert_indexes columns entries selected =
        Rejected (Error (invalid_column_index_message i t cols)) /\
      columns !! t = Some cols /\ out_of_range (length cols) i = true
  | None => exists all, convert_indexes columns entries selected = Fulfilled all
  end.
Proof.
  revert selected. induction entries as [|[t idxs] entries IH]; intros selected Hknown.
  - now exists selected.
  - cbn [Spec.first_invalid_column convert_indexes].
    destruct (Hknown t idxs) as [cols Hcols]; [now left|].
    rewrite Hcols.
    pose proof (push_columns_find t cols idxs selected) as Hp.
    destruct (List.find _ idxs) as [i|] eqn:Ef.
    + rewrite Hp. apply find_some in Ef as [_ Ei]. done.
    + destruct Hp as [more ->]. apply IH.
      intros t' idxs' H'. apply (Hknown t' idxs'). now right.
Qed.

Lemma first_invalid_column_exists columns entries t idxs cols bad :
  (forall t idxs, (t, idxs) ∈ entries -> is_Some (columns !! t)) ->
  (t, idxs) ∈ entries -> columns !! t = Some cols ->
  bad ∈ idxs -> out_of_range (length cols) bad = true ->
  is_Some (Spec.first_invalid_column columns entries).
Proof.
  intros Hknown Hin Hcols Hbad Ho.
  induction entries as [|[t0 idxs0] entries IH]; [now apply elem_of_nil in Hin|].
  cbn [Spec.first_invalid_column].
  destruct (Hknown t0 idxs0) as [cols0 Hcols0]; [now left|].
  rewrite Hcols0.
  destruct (List.find _ idxs0) as [i|] eqn:Ef; [done|].
  apply elem_of_cons in Hin as [[= <- <-] | Hin].
  - rewrite Hcols in Hcols0. injection Hcols0 as <-.
    apply list_elem_of_In in Hbad.
    pose proof (find_none _ _ Ef bad Hbad) as Hn. simpl in Hn. congruence.
  - apply IH; [|done]. intros t' idxs' H'. apply (Hknown t' idxs'). now right.
Qed.

(** C1, as the code has it.  A table selection with an index outside
    [0, N) makes select-tables fail with a message that lists every such
    index of the selection.  With a non-empty kpiName and every named
    table among the listed ones, a column selection with an index outside
    [0, N) of its table makes select-columns-details fail with a message
    that names one index and its table: the first such index met, going
    through the tables and their indexes in order. *)
Theorem invalid_indexes_are_rejected (tables : list string) (r : SelectTablesResume)
    (inputData : ListColumnsOutput) (cr : SelectColumnsResume) :
  (forall bad, bad ∈ selectedTableIndexes r ->
     bad < 0 \/ Z.of_nat (length tables) <= bad ->
     exists msg,
       selectTablesStep tables (Some r) = Failed (Error msg) /\
       msg = invalid_table_indexes_message
               (List.filter (out_of_range (length tables)) (selectedTableIndexes r)) tables /\
       forall i, i ∈ selectedTableIndexes r ->
                 i < 0 \/ Z.of_nat (length tables) <= i ->
                 Spec.occurs_in (number_toString i) msg) /\
  (truthy (sc_kpiName cr) = true ->
   (forall t idxs, (t, idxs) ∈ selectedColumnsByTable cr ->
                   is_Some (lc_columns inputData !! t)) ->
   forall t idxs cols bad,
     (t, idxs) ∈ selectedColumnsByTable cr ->
     lc_columns inputData !! t = Some cols ->
     bad ∈ idxs ->
     bad < 0 \/ Z.of_nat (length cols) <= bad ->
     exists t1 i1 cols1,
       Spec.first_invalid_column (lc_columns inputData) (selectedColumnsByTable cr)
         = Some (t1, i1, cols1) /\
       lc_columns inputData !! t1 = Some cols1 /\
       (i1 < 0 \/ Z.of_nat (length cols1) <= i1) /\
       selectColumnsAndDetailsStep inputData (Some cr) =
         Failed (Error (invalid_column_index_message i1 t1 cols1))).
Proof.
  split.
  - intros bad Hin Hbad. apply out_of_range_spec in Hbad.
    eexists. split; [now apply (selectTablesStep_rejects tables r bad)|].
    split; [done|].
    intros i Hi Ho. apply out_of_range_spec in Ho.
    unfold invalid_table_indexes_message.
    apply occurs_in_suffix, occurs_in_prefix, occurs_in_join.
    apply list_elem_of_fmap. exists i. split; [done|].
    now apply filter_out_of_range.
  - intros Hname Hknown t idxs cols bad Hin Hcols Hbad Ho.
    apply out_of_range_spec in Ho.
    destruct (first_invalid_column_exists _ _ _ _ _ _ Hknown Hin Hcols Hbad Ho)
      as [[[t1 i1] cols1] Hfirst].
    pose proof (convert_indexes_first_invalid (lc_columns inputData)
                  (selectedColumnsByTable cr) [] Hknown) as Hc.
    rewrite Hfirst in Hc. destruct Hc as (Hc & Hcols1 & Ho1).
    exists t1, i1, cols1. split; [done|]. split; [done|].
    split; [now apply out_of_range_spec|].
    unfold selectColumnsAndDetailsStep. now rewrite Hname, Hc.
Qed.

End IndexValidation.

(** ** The suspend/resume rule *)

Section ControlRule.
Import Js Db Control.
Variable generateSQLTool : GenerateContext -> Outcome string.
Variable ResultRow : Type.
Variable now : Z.

Lemma columns_with_indexes_known columns selectedTables acc :
  (forall t, t ∈ selectedTables -> is_Some (columns !! t)) ->
  exists m, KpiWorkflow.columns_with_indexes columns selectedTables acc = Fulfilled m.
Proof.
  revert acc. induction selectedTables as [|t rest IH]; intros acc H.
  - now exists acc.
  - destruct (H t) as [cols Hcols]; [now left|].
    cbn [KpiWorkflow.columns_with_indexes]. rewrite Hcols.
    apply IH. intros t' Ht'. apply H. now right.
Qed.

(** list-columns hands select-columns-details the columns of every
    selected table. *)
Lemma list_columns_loop_known selectedTables acc db :
  exists columns,
    KpiWorkflow.list_columns_loop selectedTables acc db = (Fulfilled columns, db) /\
    forall t, t ∈ selectedTables \/ is_Some (acc !! t) -> is_Some (columns !! t).
Proof.
  revert acc. induction selectedTables as [|t rest IH]; intros acc.
  - exists acc. split; [done|]. intros t [H|H]; [now apply elem_of_nil in H|done].
  - cbn [KpiWorkflow.list_columns_loop].
    unfold listColumnsTool. destruct (schema_and_table t) as [schema tableName].
    destruct (IH (<[t := select_columns schema tableName (information_schema_columns db)]> acc))
      as (columns & Hloop & Hknown).
    exists columns. split; [done|].
    intros t' [H|H].
    + apply elem_of_cons in H as [-> | H].
      * apply Hknown. right. rewrite lookup_insert_eq. done.
      * apply Hknown. now left.
    + apply Hknown. right. rewrite lookup_insert. case_decide; [done|exact H].
Qed.

Lemma listColumnsStep_expected selectedTables db :
  exists out,
    KpiWorkflow.listColumnsStep selectedTables db = (Completed out, db) /\
    has_selected_columns out.
Proof.
  unfold KpiWorkflow.listColumnsStep.
  destruct (list_columns_loop_known selectedTables ∅ db) as (columns & -> & Hknown).
  eexists. split; [done|]. intros t Ht. apply Hknown. now left.
Qed.

Lemma select_tables_obeys : obeys select_tables.
Proof.
  intros tables w _. split; [done|]. intros r. simpl.
  unfold stateless, KpiWorkflow.selectTablesStep.
  destruct (Nat.eqb (length (KpiWorkflow.selectedTableIndexes r)) 0); split; try done.
  intros _. now destruct (Nat.ltb 0 _).
Qed.

Lemma select_columns_details_obeys : obeys select_columns_details.
Proof.
  intros i w Hi. simpl in Hi.
  destruct (columns_with_indexes_known _ _ ∅ Hi) as [m Hm].
  assert (Hs : forall r, truthy (KpiWorkflow.sc_kpiName r) = false ->
            KpiWorkflow.selectColumnsAndDetailsStep i (Some r) =
            KpiWorkflow.selectColumnsAndDetailsStep i None).
  { intros r Hr. unfold KpiWorkflow.selectColumnsAndDetailsStep. now rewrite Hr. }
  assert (Hn : KpiWorkflow.selectColumnsAndDetailsStep i None =
               Suspended (payload select_columns_details i)).
  { unfold KpiWorkflow.selectColumnsAndDetailsStep. simpl.
    unfold available_columns. now rewrite Hm. }
  split.
  - simpl. unfold stateless. now rewrite Hn.
  - intros r. simpl. unfold stateless. split; intros Hr.
    + unfold KpiWorkflow.selectColumnsAndDetailsStep. rewrite Hr. simpl.
      now destruct (KpiWorkflow.convert_indexes _ _ _).
    + now rewrite (Hs r Hr), Hn.
Qed.

Lemma confirm_save_obeys : obeys (confirm_save ResultRow now).
Proof.
  intros i w _. split; [done|]. intros r. simpl.
  unfold KpiWorkflow.confirmAndSaveStep. split; intros ->; [|done].
  simpl. now destruct (saveKPITool _ _ _) as [[result|e] db'].
Qed.

Lemma select_table_obeys : obeys select_table.
Proof.
  intros i w _. split; [done|]. intros r. simpl.
  unfold stateless, SimpleKpiWorkflow.selectTableStep. split; intros ->; done.
Qed.

Lemma define_kpi_obeys : obeys (define_kpi generateSQLTool).
Proof.
  intros i w _. split; [done|]. intros r. simpl.
  unfold stateless, SimpleKpiWorkflow.defineKPIStep. split; intros ->; [|done].
  simpl. destruct (_ && _); [now destruct (generateSQLTool _)|].
  now destruct (_ && _).
Qed.

Lemma save_kpi_obeys : obeys (save_kpi ResultRow now).
Proof.
  intros i w _. split; [done|]. intros r. simpl.
  unfold SimpleKpiWorkflow.saveKPIStep. split; intros ->; [|done].
  simpl. now destruct (saveKPITool _ _ _) as [[result|e] db'].
Qed.

Lemma select_kpi_obeys : obeys select_kpi.
Proof.
  intros i w _. split; [done|]. intros r. simpl.
  unfold stateless, InsightWorkflow.selectKPIStep.
  rewrite <- negb_andb. split; intros ->; [|done].
  simpl. now destruct (List.find _ i).
Qed.

Lemma confirm_save_insight_obeys : obeys (confirm_save_insight now).
Proof.
  intros i w _. split; [done|]. intros r. simpl.
  unfold InsightWorkflow.confirmAndSaveInsightStep. split; intros ->; [|done].
  simpl. now destruct (saveInsightTool _ _ _) as [[result|e] db'].
Qed.

(** C2, as the code has it.  Each of the eight steps that declare a
    suspend schema, run without resume data, suspends with exactly its
    declared payload (select-columns-details: on the columns of every
    selected table, which is what list-columns delivers).  Run with resume
    data, it does not suspend when the data carry what the step waits for
    (a non-empty index list, a non-empty name, confirmed = true), and it
    suspends again with the same payload when they do not. *)
Theorem steps_suspend_until_resume_data_go_on :
  Forall obeys (suspendable_steps generateSQLTool ResultRow now).
Proof.
  unfold suspendable_steps.
  apply List.Forall_cons; [apply select_tables_obeys|].
  apply List.Forall_cons; [apply select_columns_details_obeys|].
  apply List.Forall_cons; [apply confirm_save_obeys|].
  apply List.Forall_cons; [apply select_table_obeys|].
  apply List.Forall_cons; [apply define_kpi_obeys|].
  apply List.Forall_cons; [apply save_kpi_obeys|].
  apply List.Forall_cons; [apply select_kpi_obeys|].
  apply List.Forall_cons; [apply confirm_save_insight_obeys|].
  apply List.Forall_nil.
Qed.

End ControlRule.

(** ** Resolving the SQL of a KPI *)

Section SqlResolution.
Import Js Db.
Variable generateSQLTool : GenerateContext -> Outcome string.

Lemma truthy_opt_some x : truthy_opt x = true -> exists s, x = Some s /\ s <> "".
Proof.
  destruct x as [s|]; [|done]. intros H. exists s. split; [done|].
  intros ->. done.
Qed.

(** C6, as the code has it.  generate-sql of the index-based workflow
    throws its error exactly when there is neither a usable intent nor a
    literal SQL text, takes the generator's query (or its rejection) for a
    usable intent, and the literal SQL otherwise.  define-kpi of the
    name-based workflow, resumed with a non-empty kpiName, does the same
    for a usable intent, takes the literal SQL only when useAI is false,
    and throws its error in every other case, so also for a literal SQL
    that comes with useAI = true and no intent. *)
Theorem sql_resolution_needs_intent_or_sql (d : KpiWorkflow.KpiDetails)
    (i : SimpleKpiWorkflow.DefineInput) (r : SimpleKpiWorkflow.DefineResume) :
  let usable := Spec.usable_intent (KpiWorkflow.useAIGeneration d) (KpiWorkflow.sqlIntent d) in
  let literal := Spec.literal_sql (KpiWorkflow.manualSQL d) in
  let usable' := Spec.usable_intent (SimpleKpiWorkflow.useAI r) (SimpleKpiWorkflow.dr_sqlIntent r) in
  let literal' := Spec.literal_sql (SimpleKpiWorkflow.dr_manualSQL r) in
  (usable = false -> literal = false ->
   KpiWorkflow.generateSQLStep generateSQLTool d =
   Failed (Error KpiWorkflow.generateSQL_error)) /\
  (usable = false -> literal = true ->
   exists sql, KpiWorkflow.manualSQL d = Some sql /\ sql <> "" /\
     KpiWorkflow.generateSQLStep generateSQLTool d =
     Completed (KpiWorkflow.sql_output d sql)) /\
  (usable = true ->
   exists intent, KpiWorkflow.sqlIntent d = Some intent /\ intent <> "" /\
     KpiWorkflow.generateSQLStep generateSQLTool d =
     match generateSQLTool {| gen_intent := intent;
                              gen_tables := KpiWorkflow.selectedTables d;
                              gen_columns := KpiWorkflow.selectedColumns d;
                              gen_limit := 10 |} with
     | Fulfilled sql => Completed (KpiWorkflow.sql_output d sql)
     | Rejected e => Failed e
     end) /\
  (truthy (SimpleKpiWorkflow.dr_kpiName r) = true ->
   (usable' = false -> negb (SimpleKpiWorkflow.useAI r) && literal' = false ->
    SimpleKpiWorkflow.defineKPIStep generateSQLTool i (Some r) =
    Failed (Error SimpleKpiWorkflow.defineKPI_error)) /\
   (SimpleKpiWorkflow.useAI r = false -> literal' = true ->
    exists sql, SimpleKpiWorkflow.dr_manualSQL r = Some sql /\ sql <> "" /\
      SimpleKpiWorkflow.defineKPIStep generateSQLTool i (Some r) =
      Completed (SimpleKpiWorkflow.define_output r sql)) /\
   (usable' = true ->
    exists intent, SimpleKpiWorkflow.dr_sqlIntent r = Some intent /\ intent <> "" /\
      SimpleKpiWorkflow.defineKPIStep generateSQLTool i (Some r) =
      match generateSQLTool
              {| gen_intent := intent;
                 gen_tables := [SimpleKpiWorkflow.di_tableName i];
                 gen_columns :=
                   (fun c => SimpleKpiWorkflow.di_tableName i +:+ "." +:+ col_name c)
                     <$> SimpleKpiWorkflow.di_columns i;
                 gen_limit := 100 |} with
      | Fulfilled sql => Completed (SimpleKpiWorkflow.define_output r sql)
      | Rejected e => Failed e
      end)).
Proof.
  unfold Spec.usable_intent, Spec.literal_sql. cbv zeta.
  repeat split.
  - intros Hu Hl. unfold KpiWorkflow.generateSQLStep. now rewrite Hu, Hl.
  - intros Hu Hl. destruct (truthy_opt_some _ Hl) as (sql & Hsql & Hne).
    exists sql. repeat split; try done.
    unfold KpiWorkflow.generateSQLStep. now rewrite Hu, Hl, Hsql.
  - intros Hu. apply andb_true_iff in Hu as [Hai Hi].
    destruct (truthy_opt_some _ Hi) as (intent & Hintent & Hne).
    exists intent. repeat split; try done.
    unfold KpiWorkflow.generateSQLStep. now rewrite Hai, Hi, Hintent.
  - intros Hu Hl. unfold SimpleKpiWorkflow.defineKPIStep.
    now rewrite H, Hu, Hl.
  - intros Hai Hl. destruct (truthy_opt_some _ Hl) as (sql & Hsql & Hne).
    exists sql. repeat split; try done.
    unfold SimpleKpiWorkflow.defineKPIStep. now rewrite H, Hai, Hl, Hsql.
  - intros Hu. apply andb_true_iff in Hu as [Hai Hi].
    destruct (truthy_opt_some _ Hi) as (intent & Hintent & Hne).
    exists intent. repeat split; try done.
    unfold SimpleKpiWorkflow.defineKPIStep. now rewrite H, Hai, Hi, Hintent.
Qed.

End SqlResolution.

(** ** Selecting the KPI of an insight *)

Section SelectKpi.
Import Js InsightWorkflow.

Lemma find_by_name_none kpis name :
  (forall k, k ∈ kpis -> ke_name k <> name) ->
  List.find (fun k => String.eqb (ke_name k) name) kpis = None.
Proof.
  induction kpis as [|k kpis IH]; intros H; [done|].
  simpl. destruct (String.eqb (ke_name k) name) eqn:E.
  - apply String.eqb_eq in E. exfalso. apply (H k); [now left|done].
  - apply IH. intros k' Hk'. apply H. now right.
Qed.

Lemma find_by_name_some kpis name k :
  k ∈ kpis -> ke_name k = name ->
  exists k', List.find (fun k => String.eqb (ke_name k) name) kpis = Some k' /\
             k' ∈ kpis /\ ke_name k' = name /\
             (NoDup (ke_name <$> kpis) -> k' = k).
Proof.
  induction kpis as [|k0 kpis IH]; intros Hin Hname; [now apply elem_of_nil in Hin|].
  simpl. destruct (String.eqb (ke_name k0) name) eqn:E.
  - apply String.eqb_eq in E. exists k0. repeat split; [now left|done|].
    intros Hnd. apply elem_of_cons in Hin as [-> | Hin]; [done|].
    apply NoDup_cons in Hnd as [Hnot _].
    exfalso. apply Hnot. rewrite E, <- Hname.
    apply list_elem_of_fmap. now exists k.
  - apply elem_of_cons in Hin as [-> | Hin].
    + rewrite Hname, String.eqb_refl in E. done.
    + destruct (IH Hin Hname) as (k' & Hf & Hk' & Hn & Hu).
      exists k'. repeat split; [done|now right|done|].
      intros Hnd. apply NoDup_cons in Hnd as [_ Hnd].
      now apply Hu.
Qed.

(** C7, as the code has it.  Resumed with a non-empty kpiName and a
    non-empty insightName, select-kpi throws an error that names the KPI
    when no KPI of the list has that name, and otherwise returns the
    formula of the first KPI of that name (the only one, when the names
    of the list are distinct) with the kpiName, insight name and
    description of the resume data. *)
Theorem select_kpi_by_name (kpis : list KpiEntry) (r : SelectKpiResume) :
  truthy (sk_kpiName r) = true ->
  truthy (insightName r) = true ->
  ((forall k, k ∈ kpis -> ke_name k <> sk_kpiName r) ->
   selectKPIStep kpis (Some r) = Failed (Error ("KPI '" +:+ sk_kpiName r +:+ "' not found"))) /\
  (forall k, k ∈ kpis -> ke_name k = sk_kpiName r ->
   exists selectedKPI,
     selectedKPI ∈ kpis /\ ke_name selectedKPI = sk_kpiName r /\
     (NoDup (ke_name <$> kpis) -> selectedKPI = k) /\
     selectKPIStep kpis (Some r) =
     Completed {| out_kpiName := sk_kpiName r;
                  out_kpiFormula := ke_formula selectedKPI;
                  out_insightName := insightName r;
                  out_insightDescription := insightDescription r |}).
Proof.
  intros Hk Hi. split.
  - intros Hnone. unfold selectKPIStep. rewrite Hk, Hi. simpl.
    now rewrite (find_by_name_none _ _ Hnone).
  - intros k Hin Hname.
    destruct (find_by_name_some _ _ _ Hin Hname) as (k' & Hf & Hk' & Hn & Hu).
    exists k'. repeat split; try done.
    unfold selectKPIStep. rewrite Hk, Hi. simpl. now rewrite Hf.
Qed.

End SelectKpi.

(** ** Start-up *)

Section StartupFailure.
Import Js Startup.
Variable Server : Type.
Variable connect : Server -> Outcome unit.
Variable query : Statement -> Server -> Outcome unit * Server.

(** Every client that [ensureTables] checks out is released, also when a
    statement is rejected. *)
Lemma ensureTables_releases pool :
  clients_out Server (snd (ensureTables Server connect query pool)) = clients_out Server pool.
Proof.
  unfold ensureTables. destruct (connect _); [|done].
  now destruct (run_statements _ _ _ _).
Qed.

(** A rejected statement ends the block; the statements before it have
    been applied. *)
Lemma run_statements_rejected before statement after s s1 s2 e :
  run_statements Server query before s = (Fulfilled (), s1) ->
  query statement s1 = (Rejected e, s2) ->
  run_statements Server query (before ++ statement :: after) s = (Rejected e, s2).
Proof.
  revert s. induction before as [|b before IH]; intros s Hb Hq.
  - injection Hb as <-. simpl. now rewrite Hq.
  - simpl in *. destruct (query b s) as [[u|e'] s']; [|done].
    now apply IH.
Qed.

(** C8.  When [ensureTables] is rejected, [initDatabase] prints its first
    line, reports the failure on the error stream and exits with code 1,
    while loading [mastra.ts] reports the same failure on the error stream,
    does not exit and still exports the instance; when [ensureTables]
    succeeds, [initDatabase] prints its four lines and exits with code 0. *)
Theorem table_creation_failure_exits_or_logs (pool : Pool Server) :
  (forall e pool',
     ensureTables Server connect query pool = (Rejected e, pool') ->
     initDatabase Server connect query pool =
       ([console_log "Initializing database tables...";
         console_error "✗ Failed to initialize database:" e;
         process_exit 1], pool') /\
     exit_code (fst (initDatabase Server connect query pool)) = Some 1 /\
     fst (fst (mastra Server connect query pool)) =
       [console_error "Failed to initialize database tables:" e] /\
     exit_code (fst (fst (mastra Server connect query pool))) = None /\
     agents (snd (mastra Server connect query pool)) =
       ["kpiAgent"; "insightAgent"; "sqlQueryAgent"] /\
     workflows (snd (mastra Server connect query pool)) =
       ["kpiWorkflow"; "insightWorkflow"; "simpleKpiWorkflow"]) /\
  (forall pool',
     ensureTables Server connect query pool = (Fulfilled (), pool') ->
     initDatabase Server connect query pool =
       ([console_log "Initializing database tables...";
         console_log "✓ Database tables created successfully!";
         console_log "  - kpi table";
         console_log "  - insight table";
         process_exit 0], pool') /\
     exit_code (fst (initDatabase Server connect query pool)) = Some 0 /\
     fst (fst (mastra Server connect query pool)) = []).
Proof.
  split.
  - intros e pool' H. unfold initDatabase, mastra. rewrite H. done.
  - intros pool' H. unfold initDatabase, mastra. rewrite H. done.
Qed.

End StartupFailure.

(** * The properties on the sample data *)

Section OnSampleData.
Import Js Db.

(** [KpiLog.unique_names] holds of the sample table, and a save of a new
    KPI followed by a second definition of an old one, which the server
    takes, keeps it and leaves the second definition at the row's place. *)
Lemma kpi_upsert_one_row_per_name_witness :
  KpiLog.unique_names (kpi Sample.db) /\
  KpiLog.accepted (KpiLog.by_insertKPI 7 Sample.redefined) = true /\
  let db1 := KpiLog.apply_all [KpiLog.by_saveKPITool 5 Sample.order_count] Sample.db in
  let db2 := KpiLog.apply (KpiLog.by_insertKPI 7 Sample.redefined) db1 in
  KpiLog.unique_names (kpi db2) /\
  length (kpi db2) = 2%nat /\
  exists i old,
    kpi db1 !! i = Some old /\
    kpi db2 !! i =
    Some (KpiLog.written (KpiLog.by_insertKPI 7 Sample.redefined) (Kpi.created_at old)).
Proof.
  assert (H : KpiLog.unique_names (kpi Sample.db)) by apply NoDup_singleton.
  split; [exact H|]. split; [reflexivity|].
  pose proof (kpi_upsert_one_row_per_name
                [KpiLog.by_saveKPITool 5 Sample.order_count]
                (KpiLog.by_insertKPI 7 Sample.redefined) Sample.db H) as T.
  cbv zeta in T. destruct T as (_ & T2 & T3 & _).
  cbv zeta. split; [exact T2|].
  destruct T3 as [T3 (i & old & Hi & _ & Hw & _)].
  { apply list_elem_of_fmap. exists Sample.total_amount. split; [reflexivity|]. left. }
  split; [rewrite T3; reflexivity|].
  exists i, old. split; [exact Hi|exact (Hw eq_refl)].
Defined.

(** The second definition of total_amount keeps the row's created_at of
    100 and stores the new formula and a NULL description. *)
Lemma kpi_upsert_keeps_created_at_witness :
  exists new,
    kpi (KpiLog.apply (KpiLog.by_insertKPI 7 Sample.redefined) Sample.db) !! 0%nat = Some new /\
    Kpi.created_at new = 100 /\
    Kpi.name new = "total_amount" /\
    Kpi.formula new = "SELECT sum(amount) FROM public.sales" /\
    Kpi.description new = None.
Proof.
  destruct (kpi_upsert_keeps_created_at
              (KpiLog.by_insertKPI 7 Sample.redefined) Sample.db 0 Sample.total_amount
              eq_refl eq_refl)
    as (new & H1 & H2 & H3 & Haccepted & _).
  destruct (Haccepted eq_refl) as (H4 & H5 & _).
  exists new. split; [exact H1|]. split; [exact H2|]. split; [exact H3|].
  split; [exact H5|exact H4].
Defined.

(** Thresholds of 0 and empty texts end up as NULLs in the stored row. *)
Lemma insight_insert_nulls_falsy_witness :
  takes_insight Sample.zero_thresholds = true /\
  references_kpi (or_null (in_kpi_name Sample.zero_thresholds)) (kpi Sample.db) = true /\
  exists row,
    insight (snd (insertInsight 9 Sample.zero_thresholds Sample.db)) = [row] /\
    Insight.alert_high row = None /\ Insight.alert_low row = None /\
    Insight.description row = None /\ Insight.kpi_name row = None /\
    Insight.schedule row = None /\ Insight.exec_time row = None.
Proof.
  split; [reflexivity|]. split; [reflexivity|].
  destruct (insight_insert_nulls_falsy 9 Sample.zero_thresholds Sample.db eq_refl eq_refl)
    as (row & H1 & _ & _ & _ & _ & _ & _ & _ & _ & _ & _ & Hh & Hl & Hd & Hk & Hs & He).
  exists row. rewrite H1.
  split; [reflexivity|].
  split; [exact (Hh eq_refl)|]. split; [exact (Hl eq_refl)|].
  split; [exact (Hd eq_refl)|]. split; [exact (Hk eq_refl)|].
  split; [exact (Hs eq_refl)|exact (He eq_refl)].
Defined.

(** Picking total_amount for the insight q1-check returns its formula. *)
Lemma select_kpi_by_name_witness :
  truthy "total_amount" = true /\ truthy "q1-check" = true /\
  exists selectedKPI,
    InsightWorkflow.ke_formula selectedKPI = "SELECT amount FROM public.sales" /\
    InsightWorkflow.selectKPIStep Sample.kpis (Some (Sample.pick "total_amount" "q1-check")) =
    Completed {| InsightWorkflow.out_kpiName := "total_amount";
                 InsightWorkflow.out_kpiFormula := InsightWorkflow.ke_formula selectedKPI;
                 InsightWorkflow.out_insightName := "q1-check";
                 InsightWorkflow.out_insightDescription := "Quarterly check" |}.
Proof.
  split; [reflexivity|]. split; [reflexivity|].
  destruct (select_kpi_by_name Sample.kpis (Sample.pick "total_amount" "q1-check")
              eq_refl eq_refl) as [_ H].
  destruct (H {| InsightWorkflow.ke_name := "total_amount";
                 InsightWorkflow.ke_formula := "SELECT amount FROM public.sales" |})
    as (selectedKPI & _ & _ & Hu & Hstep).
  - right; left.
  - reflexivity.
  - exists selectedKPI. split; [|exact Hstep].
    rewrite Hu; [reflexivity|].
    change (NoDup ["order_count"; "total_amount"]).
    apply NoDup_cons. split; [|apply NoDup_singleton].
    intros Hin. apply list_elem_of_singleton in Hin. discriminate Hin.
Defined.

(** Selecting the indexes 0, 5 and -1 of two tables is rejected with a
    message in which 5 and -1 occur; selecting the columns 1, 5 and 7 of
    the sales table is rejected with a message that names 5. *)
Lemma invalid_indexes_are_rejected_witness :
  (exists msg,
     KpiWorkflow.selectTablesStep ["public.sales"; "public.stores"]
       (Some {| KpiWorkflow.selectedTableIndexes := [0; 5; -1] |}) = Failed (Error msg) /\
     msg = "Invalid table indexes: 5, -1. Must be between 0 and 1" /\
     Spec.occurs_in "5" msg /\ Spec.occurs_in "-1" msg) /\
  KpiWorkflow.selectColumnsAndDetailsStep Sample.listing (Some (Sample.selection [1; 5; 7])) =
  Failed (Error (KpiWorkflow.invalid_column_index_message 5 "public.sales" Sample.sales_columns)).
Proof.
  destruct (invalid_indexes_are_rejected ["public.sales"; "public.stores"]
              {| KpiWorkflow.selectedTableIndexes := [0; 5; -1] |}
              Sample.listing (Sample.selection [1; 5; 7])) as [H Hc].
  split.
  - destruct (H 5) as (msg & Hstep & Hmsg & Hall).
    + right; left.
    + right. simpl. lia.
    + exists msg. split; [exact Hstep|]. split; [rewrite Hmsg; reflexivity|].
      split.
      * apply (Hall 5); [right; left|right; simpl; lia].
      * apply (Hall (-1)); [right; right; left|left; lia].
  - destruct (Hc eq_refl) with (t := "public.sales") (idxs := [1; 5; 7])
                               (cols := Sample.sales_columns) (bad := 7)
      as (t1 & i1 & cols1 & Hfirst & _ & _ & Hstep).
    + intros t idxs Hin. apply list_elem_of_singleton in Hin.
      injection Hin as -> _. exists Sample.sales_columns. reflexivity.
    + left.
    + reflexivity.
    + right; right; left.
    + right. simpl. lia.
    + vm_compute in Hfirst. injection Hfirst as <- <- <-. exact Hstep.
Defined.

(** The server that rejects the creation of table insight: the script
    exits with 1, the composition root only reports. *)
Lemma table_creation_failure_exits_or_logs_witness :
  Startup.exit_code
    (fst (Startup.initDatabase _ Sample.connects Sample.rejects_insight Sample.fresh_pool))
  = Some 1 /\
  fst (fst (Startup.mastra _ Sample.connects Sample.rejects_insight Sample.fresh_pool)) =
  [Startup.console_error "Failed to initialize database tables:" (DatabaseError "42501")] /\
  Startup.exit_code
    (fst (fst (Startup.mastra _ Sample.connects Sample.rejects_insight Sample.fresh_pool)))
  = None.
Proof.
  destruct (table_creation_failure_exits_or_logs _ Sample.connects Sample.rejects_insight
              Sample.fresh_pool) as [H _].
  destruct (H (DatabaseError "42501")
              {| Startup.server := [Startup.CreateTableKpi]; Startup.clients_out := 0 |}
              eq_refl)
    as (_ & H1 & H2 & H3 & _).
  split; [exact H1|]. split; [exact H2|exact H3].
Defined.

(** The claim about select-columns-details, tried on the sales table: the
    indexes 5 and 7 are both outside [0, 2), and the error names 5 and its
    table, and not 7. *)
Lemma column_error_names_first_invalid_only :
  (5 < 0 \/ Z.of_nat (length Sample.sales_columns) <= 5) /\
  (7 < 0 \/ Z.of_nat (length Sample.sales_columns) <= 7) /\
  KpiWorkflow.selectColumnsAndDetailsStep Sample.listing (Some (Sample.selection [5; 7])) =
  Failed (Error "Invalid column index 5 for table 'public.sales'. Must be between 0 and 1") /\
  includes "Invalid column index 5 for table 'public.sales'. Must be between 0 and 1"
           (number_toString 7) = false.
Proof.
  split; [right; simpl; lia|]. split; [right; simpl; lia|].
  split; vm_compute; reflexivity.
Defined.

(** Resume data that match the resume schema and make the step suspend
    again: confirmed = false for the three confirming steps, the empty
    index list for select-tables. *)
Lemma schema_valid_resume_data_suspend_again :
  KpiWorkflow.confirmAndSaveStep unit 7 Sample.confirm_input
    (Some {| KpiWorkflow.confirmed := false; KpiWorkflow.editedSQL := None |}) Sample.db
  = (Suspended (KpiWorkflow.confirm_suspend unit Sample.confirm_input), Sample.db) /\
  SimpleKpiWorkflow.saveKPIStep unit 7 Sample.save_input
    (Some {| SimpleKpiWorkflow.sr_confirmed := false;
             SimpleKpiWorkflow.sr_editedSQL := Some "SELECT 1" |}) Sample.db
  = (Suspended (SimpleKpiWorkflow.save_suspend unit Sample.save_input), Sample.db) /\
  InsightWorkflow.confirmAndSaveInsightStep 7 Sample.insight_input
    (Some {| InsightWorkflow.cir_confirmed := false;
             InsightWorkflow.editedInsight := None |}) Sample.db
  = (Suspended (InsightWorkflow.confirmInsight_suspend Sample.insight_input), Sample.db) /\
  KpiWorkflow.selectTablesStep ["public.sales"]
    (Some {| KpiWorkflow.selectedTableIndexes := [] |})
  = Suspended (KpiWorkflow.selectTables_suspend ["public.sales"]).
Proof. repeat split. Defined.

(** Literal SQL is supplied, with useAI = true and no intent: the
    name-based workflow throws, the index-based one takes the SQL. *)
Lemma literal_sql_with_useAI_is_rejected :
  Spec.literal_sql (SimpleKpiWorkflow.dr_manualSQL Sample.literal_with_useAI) = true /\
  SimpleKpiWorkflow.defineKPIStep Sample.generator Sample.define_input
    (Some Sample.literal_with_useAI)
  = Failed (Error "Provide either sqlIntent (with useAI=true) or manualSQL (with useAI=false)").
Proof. split; reflexivity. Defined.

(** A kpiName that no KPI of the list has, with an empty insightName: the
    step suspends and throws nothing. *)
Lemma unknown_kpi_with_empty_insight_name_suspends :
  (forallb (fun k => negb (String.eqb (InsightWorkflow.ke_name k) "ghost")) Sample.kpis = true) /\
  InsightWorkflow.selectKPIStep Sample.kpis (Some (Sample.pick "ghost" ""))
  = Suspended (InsightWorkflow.selectKPI_suspend Sample.kpis).
Proof. split; reflexivity. Defined.

(** A statement with padding and a terminator, bounded to 10 rows. *)
Lemma run_query_submits_bounded_text_witness :
  isSafeInteger 10 = true /\
  limitedSql "  SELECT amount FROM public.sales;  " 10 =
    Spec.bounded_query_text "  SELECT amount FROM public.sales;  " 10 /\
  Spec.bounded_query_text "  SELECT amount FROM public.sales;  " 10 =
    "SELECT amount FROM public.sales LIMIT 10;".
Proof.
  split; [reflexivity|].
  destruct (run_query_submits_bounded_text unit Trial.no_rows
              "  SELECT amount FROM public.sales;  " 10 Sample.db eq_refl) as (H & _).
  split; [exact H|reflexivity].
Defined.


(** The bounded text of some statements. *)
Example limitedSql_examples :
  limitedSql "  SELECT amount FROM public.sales;  " 5
    = "SELECT amount FROM public.sales LIMIT 5;" /\
  limitedSql "SELECT 1;;" 10 = "SELECT 1; LIMIT 10;" /\
  limitedSql "SELECT 1 ;" 5 = "SELECT 1  LIMIT 5;" /\
  limitedSql "DELETE FROM kpi" 5 = "DELETE FROM kpi LIMIT 5;" /\
  limitedSql "SELECT 1 LIMIT 2" 5 = "SELECT 1 LIMIT 2 LIMIT 5;".
Proof. repeat split. Qed.

(** Limits that are no safe integers, as JavaScript writes them. *)
Example limitedSql_of_large_limits :
  limitedSql "SELECT 1" (10 ^ 21) = "SELECT 1 LIMIT 1e+21;" /\
  limitedSql "SELECT 1" (2 ^ 70) = "SELECT 1 LIMIT 1.1805916207174113e+21;" /\
  limitedSql "SELECT 1" (2 ^ 53 + 1) = "SELECT 1 LIMIT 9007199254740992;" /\
  limitedSql "SELECT 1" (2 ^ 64) = "SELECT 1 LIMIT 18446744073709552000;" /\
  limitedSql "SELECT 1" (- 10 ^ 21) = "SELECT 1 LIMIT -1e+21;".
Proof. repeat split; vm_compute; reflexivity. Qed.

(** A write with a U+0000 in the name is refused and changes nothing; so
    is an insight with one in its text, whose id is not used up. *)
Example texts_with_nul_are_refused :
  insertKPI 7 Trial.with_nul Sample.db = (Rejected (DatabaseError "22021"), Sample.db) /\
  saveKPITool 7 {| ctx_name := "k"; ctx_description := None; ctx_formula := "SELECT 1";
                   ctx_table := None;
                   ctx_columns := Some ["a"; String Ascii.zero "b"] |} Sample.db
    = (Rejected (DatabaseError "22P05"), Sample.db) /\
  insertInsight 7 {| in_name := "q1"; in_description := None; in_kpi_name := Some "ghost";
                     in_formula := String Ascii.zero ""; in_schedule := None;
                     in_exec_time := None; in_alert_high := None; in_alert_low := None |}
    Sample.db = (Rejected (DatabaseError "22021"), Sample.db).
Proof. repeat split. Qed.

(** Names of members of [Object.prototype] in a column selection: without
    an index the entry is passed over, with one the step throws on the
    index or on the element that is not there. *)
Example inherited_names_in_a_selection :
  let select entries :=
    KpiWorkflow.selectColumnsAndDetailsStep Sample.listing
      (Some {| KpiWorkflow.selectedColumnsByTable := entries;
               KpiWorkflow.sc_kpiName := "total_amount";
               KpiWorkflow.sc_kpiDescription := "Sum of all sales";
               KpiWorkflow.sc_useAIGeneration := false;
               KpiWorkflow.sc_sqlIntent := None;
               KpiWorkflow.sc_manualSQL := Some "SELECT amount FROM public.sales" |}) in
  (exists details,
     select [("toString", []); ("public.sales", [1])] = Completed details /\
     KpiWorkflow.selectedColumns details = ["public.sales.amount"]) /\
  select [("toString", [0])] =
    Failed (Error "Invalid column index 0 for table 'toString'. Must be between 0 and -1") /\
  select [("constructor", [0])] =
    Failed (TypeError "Cannot read properties of undefined (reading 'column_name')") /\
  select [("__proto__", [-1])] =
    Failed (Error "Invalid column index -1 for table '__proto__'. Must be between 0 and NaN") /\
  select [("sales", [0])] = Failed (Error "Table 'sales' not found in selected tables").
Proof. repeat split. eexists. split; reflexivity. Qed.

(** The columns of the sample catalog. *)
Example listColumns_examples :
  fst (listColumns "sales" Sample.db) = Fulfilled Sample.sales_columns /\
  fst (listColumns "public.sales" Sample.db) = Fulfilled Sample.sales_columns /\
  fst (listColumns "public.sales.id" Sample.db) = Fulfilled Sample.sales_columns /\
  fst (listColumns "archive.sales" Sample.db)
    = Fulfilled [ {| col_name := "year"; col_type := "integer" |} ] /\
  fst (listColumns "public.stores" Sample.db) = Fulfilled [] /\
  fst (listColumns "sales." Sample.db) = Fulfilled [].
Proof. repeat split. Qed.

(** Confirming the sample KPI of the index-based workflow leaves one row
    of that name, with the confirmed SQL. *)
Example confirm_saves_one_row :
  let '(result, db') :=
    KpiWorkflow.confirmAndSaveStep unit 7 Sample.confirm_input
      (Some {| KpiWorkflow.confirmed := true; KpiWorkflow.editedSQL := None |})
      Sample.db in
  result = Completed {| KpiWorkflow.co_kpiName := "total_amount";
                        KpiWorkflow.co_success := true |} /\
  (Kpi.name <$> kpi db') = ["total_amount"] /\
  (Kpi.formula <$> kpi db') = ["SELECT amount FROM public.sales"] /\
  (Kpi.created_at <$> kpi db') = [100].
Proof. repeat split. Qed.

End OnSampleData.

(** * Further properties of the code *)

(** ** Writing and reading table [kpi] *)

Section KpiReadBack.
Import Js Db KpiLog DbRead.

Lemma find_app_first {A} (p : A -> bool) (l1 l2 : list A) :
  List.find p (l1 ++ l2) =
  match List.find p l1 with Some x => Some x | None => List.find p l2 end.
Proof.
  induction l1 as [|x l1 IH]; [done|].
  simpl. now destruct (p x).
Qed.

Lemma row_named_existsb name rows :
  existsb (fun r => String.eqb (Kpi.name r) name) rows =
  match row_named name rows with Some _ => true | None => false end.
Proof.
  unfold row_named. induction rows as [|r rows IH]; [done|].
  simpl. now destruct (String.eqb (Kpi.name r) name).
Qed.

Lemma row_named_name name rows r :
  row_named name rows = Some r -> Kpi.name r = name /\ r ∈ rows.
Proof.
  intros H. apply find_some in H as [Hin Hn].
  split; [now apply String.eqb_eq|now apply list_elem_of_In].
Qed.

Lemma row_named_fmap (f : Kpi.Row -> Kpi.Row) name rows :
  (forall r, Kpi.name (f r) = Kpi.name r) ->
  row_named name (f <$> rows) = f <$> row_named name rows.
Proof.
  intros Hf. unfold row_named. induction rows as [|r rows IH]; [done|].
  simpl. rewrite Hf. now destruct (String.eqb (Kpi.name r) name).
Qed.

Lemma row_named_on_conflict now p1 p2 p3 p4 p5 rows n :
  row_named n (insert_kpi_on_conflict now p1 p2 p3 p4 p5 rows) =
  if String.eqb n p1 then
    Some match row_named p1 rows with
         | Some old => on_conflict_update p2 p3 p4 p5 old
         | None => {| Kpi.name := p1; Kpi.description := p2; Kpi.formula := p3;
                      Kpi.table_name := p4; Kpi.columns := p5;
                      Kpi.created_at := now |}
         end
  else row_named n rows.
Proof.
  unfold insert_kpi_on_conflict. rewrite row_named_existsb.
  destruct (row_named p1 rows) as [old|] eqn:Eold.
  - rewrite row_named_fmap by (intros r; now destruct (String.eqb (Kpi.name r) p1)).
    destruct (String.eqb n p1) eqn:En.
    + apply String.eqb_eq in En as ->. rewrite Eold. simpl.
      apply row_named_name in Eold as [-> _]. now rewrite String.eqb_refl.
    + destruct (row_named n rows) as [r|] eqn:Er; [|done].
      simpl. apply row_named_name in Er as [<- _].
      now rewrite En.
  - unfold row_named at 1. rewrite find_app_first. fold (row_named n rows).
    destruct (String.eqb n p1) eqn:En.
    + apply String.eqb_eq in En as ->. rewrite Eold. simpl.
      now rewrite String.eqb_refl.
    + destruct (row_named n rows); [done|]. simpl.
      now rewrite String.eqb_sym, En.
Qed.

Lemma written_on_conflict w old :
  Kpi.name old = write_name w ->
  on_conflict_update
    (Kpi.description (written w 0)) (Kpi.formula (written w 0))
    (Kpi.table_name (written w 0)) (Kpi.columns (written w 0)) old =
  written w (Kpi.created_at old).
Proof. intros H. destruct w; unfold on_conflict_update; simpl in *; now rewrite H. Qed.

Lemma apply_frame w db :
  insight (apply w db) = insight db /\
  insight_id_seq (apply w db) = insight_id_seq db /\
  information_schema_columns (apply w db) = information_schema_columns db.
Proof. rewrite apply_cases. now destruct (accepted w). Qed.

Lemma row_named_apply (w : Write) (db : Database) (n : string) :
  row_named n (kpi (apply w db)) =
  if accepted w && String.eqb n (write_name w)
  then Some (written w (created w (kpi db)))
  else row_named n (kpi db).
Proof.
  rewrite apply_cases. destruct (accepted w); [|done].
  cbn [kpi with_kpi andb]. rewrite row_named_on_conflict.
  destruct (String.eqb n (write_name w)); [|done].
  f_equal. unfold created.
  destruct (row_named (write_name w) (kpi db)) as [old|] eqn:E.
  - apply written_on_conflict. now apply row_named_name in E as [? _].
  - now destruct w.
Qed.

(** X1.  Reading back by name after a KPI write that the server takes
    (none of its texts has a U+0000 in it): the row under the written name
    carries the written description, formula, table_name and columns,
    with the created_at of the row that was there or else the time of the
    write; the row under any other name is the one that was there.  After
    a write that the server refuses, the row under every name is the one
    that was there. *)
Theorem kpi_write_then_row_named (w : Write) (db : Database) (n : string) :
  row_named n (kpi (apply w db)) =
  if accepted w && String.eqb n (write_name w)
  then Some (written w (created w (kpi db)))
  else row_named n (kpi db).
Proof. apply row_named_apply. Qed.

Lemma on_conflict_twice now now' p1 p2 p3 p4 p5 rows :
  insert_kpi_on_conflict now' p1 p2 p3 p4 p5
    (insert_kpi_on_conflict now p1 p2 p3 p4 p5 rows) =
  insert_kpi_on_conflict now p1 p2 p3 p4 p5 rows.
Proof.
  assert (Hin : existsb (fun r => String.eqb (Kpi.name r) p1)
                  (insert_kpi_on_conflict now p1 p2 p3 p4 p5 rows) = true).
  { rewrite row_named_existsb, row_named_on_conflict. now rewrite String.eqb_refl. }
  unfold insert_kpi_on_conflict at 1. rewrite Hin.
  unfold insert_kpi_on_conflict.
  destruct (existsb _ rows) eqn:Ex.
  - rewrite <- list_fmap_compose. apply list_fmap_ext. intros i r _. simpl.
    destruct (String.eqb (Kpi.name r) p1) eqn:E; simpl; now rewrite E.
  - rewrite fmap_app. simpl. rewrite String.eqb_refl. f_equal.
    clear Hin. induction rows as [|r rows IH]; [done|].
    simpl in Ex. apply orb_false_iff in Ex as [Hr Hrows].
    rewrite fmap_cons, Hr. f_equal. now apply IH.
Qed.

Lemma accepted_at_time now' w : accepted (at_time now' w) = accepted w.
Proof. now destruct w. Qed.

(** X2.  A KPI write is idempotent: writing the same definition again, at
    whatever time, leaves the database as the first write left it. *)
Theorem kpi_write_twice (w : Write) (now' : Z) (db : Database) :
  apply (at_time now' w) (apply w db) = apply w db.
Proof.
  rewrite (apply_cases (at_time now' w)), accepted_at_time, (apply_cases w).
  destruct (accepted w); [|done].
  unfold with_kpi. cbn [kpi insight insight_id_seq information_schema_columns].
  f_equal. destruct w as [now data|now context]; simpl; apply on_conflict_twice.
Qed.

Lemma created_other w w' rows :
  write_name w <> write_name w' ->
  created w (insert_kpi_on_conflict (write_time w') (write_name w')
               (Kpi.description (written w' 0)) (Kpi.formula (written w' 0))
               (Kpi.table_name (written w' 0)) (Kpi.columns (written w' 0)) rows)
  = created w rows.
Proof.
  intros Hne. unfold created. rewrite row_named_on_conflict.
  destruct (String.eqb (write_name w) (write_name w')) eqn:E; [|done].
  now apply String.eqb_eq in E.
Qed.

Lemma created_apply_other w w' db :
  write_name w <> write_name w' ->
  created w (kpi (apply w' db)) = created w (kpi db).
Proof.
  intros Hne. rewrite (apply_cases w'). destruct (accepted w'); [|done].
  now apply created_other.
Qed.

(** X3.  KPI writes under different names commute as far as reading by
    name goes: whichever comes first, every name has the same row. *)
Theorem kpi_writes_commute (w1 w2 : Write) (db : Database) (n : string) :
  write_name w1 <> write_name w2 ->
  row_named n (kpi (apply w1 (apply w2 db))) =
  row_named n (kpi (apply w2 (apply w1 db))).
Proof.
  intros Hne.
  rewrite !row_named_apply.
  rewrite (created_apply_other w1 w2) by done.
  rewrite (created_apply_other w2 w1) by (intros H; now apply Hne).
  destruct (String.eqb n (write_name w1)) eqn:E1;
    destruct (String.eqb n (write_name w2)) eqn:E2;
    destruct (accepted w1), (accepted w2); try done.
  all: apply String.eqb_eq in E1, E2; congruence.
Qed.

End KpiReadBack.

(** ** Fetching the KPIs *)

Section FetchKpis.
Import Js Db KpiLog DbRead.
Variable precedes : string -> string -> bool.

Lemma NoDup_fmap_eq {A B} (f : A -> B) (l : list A) x y :
  NoDup (f <$> l) -> x ∈ l -> y ∈ l -> f x = f y -> x = y.
Proof.
  induction l as [|a l IH]; intros Hnd Hx Hy Hf; [now apply elem_of_nil in Hx|].
  rewrite fmap_cons in Hnd. apply NoDup_cons in Hnd as [Ha Hnd].
  apply elem_of_cons in Hx as [-> | Hx]; apply elem_of_cons in Hy as [-> | Hy].
  - done.
  - exfalso. apply Ha. rewrite Hf. apply list_elem_of_fmap. now exists y.
  - exfalso. apply Ha. rewrite <- Hf. apply list_elem_of_fmap. now exists x.
  - now apply IH.
Qed.

Lemma fetched_names db :
  exists rows,
    fetchKPIs precedes db = (Fulfilled (listed <$> rows), db) /\
    rows ≡ₚ kpi db /\
    k_name <$> (listed <$> rows) = Kpi.name <$> rows.
Proof.
  exists (merge_sort (by_name precedes) (kpi db)).
  split; [done|]. split; [apply merge_sort_Permutation|].
  now rewrite <- list_fmap_compose.
Qed.

(** X4.  After a KPI write that the server takes (none of its texts has
    a U+0000 in it) to a table with one row per name, [fetchKPIs] lists
    the written name exactly once, with the written formula, table_name
    and columns, and lists no name twice. *)
Theorem fetchKPIs_after_write (w : Write) (db : Database) :
  unique_names (kpi db) ->
  accepted w = true ->
  exists l,
    fetchKPIs precedes (apply w db) = (Fulfilled l, apply w db) /\
    fetchKPIsTool precedes (apply w db) = (Fulfilled l, apply w db) /\
    NoDup (k_name <$> l) /\
    listed (written w (created w (kpi db))) ∈ l /\
    forall e, e ∈ l -> k_name e = write_name w ->
      k_formula e = Kpi.formula (written w 0) /\
      k_table_name e = Kpi.table_name (written w 0) /\
      k_columns e = Kpi.columns (written w 0).
Proof.
  intros Hu Haccepted.
  destruct (fetched_names (apply w db)) as (rows & Hf & Hp & Hn).
  assert (Hu' : unique_names (kpi (apply w db))) by now apply unique_names_apply.
  assert (Hnd : NoDup (Kpi.name <$> rows)).
  { unfold unique_names in Hu'. now rewrite Hp. }
  assert (Hw : written w (created w (kpi db)) ∈ rows).
  { rewrite Hp.
    pose proof (row_named_apply w db (write_name w)) as H.
    rewrite Haccepted, String.eqb_refl in H. now apply row_named_name in H as [_ H]. }
  exists (listed <$> rows). split; [done|]. split; [done|].
  split; [now rewrite Hn|].
  split; [apply list_elem_of_fmap; now exists (written w (created w (kpi db)))|].
  intros e He Hname.
  apply list_elem_of_fmap in He as (r & -> & Hr).
  assert (r = written w (created w (kpi db))) as ->.
  { apply (NoDup_fmap_eq Kpi.name rows); try done.
    simpl in Hname. now rewrite written_name. }
  now destruct w.
Qed.

(** X5.  Under a collation that compares any two names, [fetchKPIs] and
    [fetchKPIsTool] return one entry per row of table kpi, in the order of
    the names, and change nothing. *)
Theorem fetchKPIs_in_name_order (db : Database) :
  (forall a b, precedes a b = true \/ precedes b a = true) ->
  exists rows,
    fetchKPIs precedes db = (Fulfilled (listed <$> rows), db) /\
    fetchKPIsTool precedes db = (Fulfilled (listed <$> rows), db) /\
    rows ≡ₚ kpi db /\
    Sorted (by_name precedes) rows.
Proof.
  intros Htotal.
  exists (merge_sort (by_name precedes) (kpi db)).
  split; [done|]. split; [done|]. split; [apply merge_sort_Permutation|].
  apply Sorted_merge_sort. intros a b. apply Htotal.
Qed.

End FetchKpis.

(** ** Both tables under sequences of statements *)

Section StoreInvariants.
Import Js Db KpiLog Store.

Lemma references_kpi_some k rows :
  references_kpi (Some k) rows = true -> k ∈ Kpi.name <$> rows.
Proof.
  simpl. induction rows as [|r rows IH]; [done|].
  simpl. intros H. apply orb_true_iff in H as [H|H].
  - apply String.eqb_eq in H as <-. left.
  - right. now apply IH.
Qed.

Lemma names_kept w db k :
  k ∈ Kpi.name <$> kpi db -> k ∈ Kpi.name <$> kpi (apply w db).
Proof.
  intros H. rewrite apply_cases. destruct (accepted w); [|done].
  cbn [kpi with_kpi]. rewrite names_on_conflict. destruct (existsb _ _); [done|].
  apply elem_of_app. now left.
Qed.

Lemma run_insert s now data db :
  inserted_by s = Some (now, data) ->
  kpi (run s db) = kpi db /\
  insight_id_seq (run s db) =
    (if takes_insight data then insight_id_seq db + 1 else insight_id_seq db) /\
  information_schema_columns (run s db) = information_schema_columns db /\
  insight (run s db) =
    if takes_insight data && references_kpi (or_null (in_kpi_name data)) (kpi db)
    then insight db ++ [stored_insight now data db]
    else insight db.
Proof.
  intros Hs.
  assert (H : run s db = snd (insertInsight now data db)).
  { destruct s; try done; injection Hs as <- <-; simpl; try done.
    - apply saveInsightTool_insertInsight.
    - destruct (saveInsightTool_insertInsight now0 context db) as [<- H]. exact H. }
  rewrite H, insertInsight_cases.
  destruct (takes_insight data); [|done].
  now destruct (references_kpi _ _).
Qed.

Lemma run_write w db :
  insight (run (write_kpi w) db) = insight db /\
  insight_id_seq (run (write_kpi w) db) = insight_id_seq db.
Proof. destruct (apply_frame w db) as (H1 & H2 & _). done. Qed.

Lemma inserted_by_cases s :
  (exists w, s = write_kpi w) \/ (exists now data, inserted_by s = Some (now, data)).
Proof. destruct s; [left|right|right|right]; eauto. Qed.

Lemma references_hold_run s db : references_hold db -> references_hold (run s db).
Proof.
  intros H. destruct (inserted_by_cases s) as [[w ->] | (now & data & Hs)].
  - intros r k Hr Hk. destruct (run_write w db) as [Hi _].
    rewrite Hi in Hr. apply names_kept. now apply (H r k).
  - destruct (run_insert s now data db Hs) as (Hk & _ & _ & Hi).
    intros r k Hr Hrk. rewrite Hk. rewrite Hi in Hr.
    destruct (takes_insight data); [|now apply (H r k)]. cbn [andb] in Hr.
    destruct (references_kpi _ _) eqn:Eref; [|now apply (H r k)].
    apply elem_of_app in Hr as [Hr|Hr]; [now apply (H r k)|].
    apply list_elem_of_singleton in Hr as ->. simpl in Hrk.
    rewrite Hrk in Eref. now apply references_kpi_some.
Qed.

(** X6.  Referential integrity is an invariant of the statements that
    write: if every insight that names a KPI names a row of table kpi,
    this is still so after any sequence of KPI writes and insight inserts. *)
Theorem references_hold_after_statements (ss : list Statement) (db : Database) :
  references_hold db -> references_hold (run_all ss db).
Proof.
  revert db. induction ss as [|s ss IH]; intros db H; [done|].
  simpl. apply IH. now apply references_hold_run.
Qed.

Lemma ids_fresh_run s db : ids_fresh db -> ids_fresh (run s db).
Proof.
  intros [Hnd Hlt]. destruct (inserted_by_cases s) as [[w ->] | (now & data & Hs)].
  - destruct (run_write w db) as [Hi Hq]. unfold ids_fresh. now rewrite Hi, Hq.
  - destruct (run_insert s now data db Hs) as (_ & Hq & _ & Hi).
    unfold ids_fresh. rewrite Hi, Hq.
    destruct (takes_insight data); [|done]. cbn [andb].
    destruct (references_kpi _ _).
    + split.
      * rewrite fmap_app. apply NoDup_app. split; [done|]. split; [|apply NoDup_singleton].
        intros x Hx Hx'. apply list_elem_of_singleton in Hx'. simpl in Hx'. subst x.
        apply list_elem_of_fmap in Hx as (r & Hr & Hin).
        specialize (Hlt r Hin). lia.
      * intros r Hr. apply elem_of_app in Hr as [Hr|Hr].
        -- specialize (Hlt r Hr). lia.
        -- apply list_elem_of_singleton in Hr as ->. simpl. lia.
    + split; [done|]. intros r Hr. specialize (Hlt r Hr). lia.
Qed.

(** X7.  The ids of the insights stay distinct and below the sequence
    through any sequence of KPI writes and insight inserts, rejected
    inserts included. *)
Theorem ids_fresh_after_statements (ss : list Statement) (db : Database) :
  ids_fresh db -> ids_fresh (run_all ss db).
Proof.
  revert db. induction ss as [|s ss IH]; intros db H; [done|].
  simpl. apply IH. now apply ids_fresh_run.
Qed.

Lemma nothing_removed_run s db :
  (exists added, insight (run s db) = insight db ++ added) /\
  (forall k, k ∈ Kpi.name <$> kpi db -> k ∈ Kpi.name <$> kpi (run s db)) /\
  information_schema_columns (run s db) = information_schema_columns db.
Proof.
  destruct (inserted_by_cases s) as [[w ->] | (now & data & Hs)].
  - destruct (apply_frame w db) as (Hi & _ & Hc).
    split; [exists []; simpl; now rewrite Hi, app_nil_r|].
    split; [intros k; apply names_kept|exact Hc].
  - destruct (run_insert s now data db Hs) as (Hk & _ & Hc & Hi).
    split; [|split; [now rewrite Hk|exact Hc]].
    rewrite Hi. destruct (_ && _); [eauto|].
    exists []. now rewrite app_nil_r.
Qed.

(** X8.  Nothing stored is removed or rewritten by the statements that
    write, except through the KPI upsert: after any sequence of them the
    insights that were there are still there, unchanged and in their
    places, before the added ones; every KPI name that was there is still
    there; and the catalog is as it was. *)
Theorem statements_remove_nothing (ss : list Statement) (db : Database) :
  (exists added, insight (run_all ss db) = insight db ++ added) /\
  (forall k, k ∈ Kpi.name <$> kpi db -> k ∈ Kpi.name <$> kpi (run_all ss db)) /\
  information_schema_columns (run_all ss db) = information_schema_columns db.
Proof.
  revert db. induction ss as [|s ss IH]; intros db.
  - split; [exists []; simpl; now rewrite app_nil_r|done].
  - simpl. destruct (IH (run s db)) as ([added Ha] & Hn & Hc).
    destruct (nothing_removed_run s db) as ([added0 Ha0] & Hn0 & Hc0).
    split; [|split].
    + exists (added0 ++ added). now rewrite Ha, Ha0, app_assoc.
    + intros k Hk. now apply Hn, Hn0.
    + now rewrite Hc, Hc0.
Qed.

(** X9.  An insight whose texts the server takes (none has a U+0000 in
    it) and whose kpi_name is a non-empty text that names no row of table
    kpi is rejected with SQLSTATE 23503 by [insertInsight] and by both
    [saveInsightTool]s (which then report no success); no row is stored,
    and the id that the row would have had is used up.  An insight with a
    text that the server refuses is rejected with SQLSTATE 22021 by all
    three, and the database, its sequence included, is as it was. *)
Theorem insight_of_unknown_kpi_is_rejected (now : Z) (data : InsightData)
    (db : Database) (k : string) :
  in_kpi_name data = Some k -> k <> "" ->
  k ∉ Kpi.name <$> kpi db ->
  let db' := {| kpi := kpi db; insight := insight db;
                insight_id_seq := insight_id_seq db + 1;
                information_schema_columns := information_schema_columns db |} in
  (takes_insight data = true ->
   insertInsight now data db = (Rejected (DatabaseError "23503"), db') /\
   saveInsightTool now data db = (Rejected (DatabaseError "23503"), db') /\
   saveInsightTool_shared now data db = (Rejected (DatabaseError "23503"), db')) /\
  (takes_insight data = false ->
   insertInsight now data db = (Rejected (DatabaseError "22021"), db) /\
   saveInsightTool now data db = (Rejected (DatabaseError "22021"), db) /\
   saveInsightTool_shared now data db = (Rejected (DatabaseError "22021"), db)).
Proof.
  intros Hk Hne Habsent db'.
  assert (Hnull : or_null (in_kpi_name data) = Some k)
    by (rewrite Hk; now apply or_null_truthy).
  assert (Href : references_kpi (or_null (in_kpi_name data)) (kpi db) = false).
  { rewrite Hnull. destruct (references_kpi (Some k) (kpi db)) eqn:E; [|done].
    now apply references_kpi_some in E. }
  assert (Hsame : saveInsightTool now data db =
                  match insertInsight now data db with
                  | (Fulfilled _, d) =>
                      (Fulfilled {| success := true;
                                    message := saved_message "Insight" (in_name data) |}, d)
                  | (Rejected e, d) => (Rejected e, d)
                  end) by reflexivity.
  destruct (saveInsightTool_insertInsight now data db) as [Hshared _].
  rewrite <- Hshared, Hsame, insertInsight_cases, Href.
  split; intros ->; done.
Qed.

End StoreInvariants.

(** ** The text of a bounded query *)

Section BoundedText.
Import Js Db Described.

Lemma list_ascii_of_string_append a b :
  list_ascii_of_string (a +:+ b) = list_ascii_of_string a ++ list_ascii_of_string b.
Proof.
  induction a as [|c a IH]; [done|].
  rewrite append_cons. simpl. now rewrite IH.
Qed.

Lemma drop_while_app {A} (p : A -> bool) (l m : list A) :
  Spec.drop_while p (l ++ m) =
  match Spec.drop_while p l with
  | [] => Spec.drop_while p m
  | x :: rest => (x :: rest) ++ m
  end.
Proof.
  induction l as [|a l IH]; simpl.
  - now destruct (Spec.drop_while p m).
  - now destruct (p a).
Qed.

Lemma drop_while_all {A} (p : A -> bool) (l : list A) :
  forallb p l = true -> Spec.drop_while p l = [].
Proof.
  induction l as [|a l IH]; [done|].
  simpl. intros H. apply andb_true_iff in H as [Ha Hl]. now rewrite Ha, IH.
Qed.

Lemma forallb_rev {A} (p : A -> bool) (l : list A) :
  forallb p l = true -> forallb p (rev l) = true.
Proof.
  rewrite !forallb_forall. intros H x Hx. apply H. now apply in_rev.
Qed.

Lemma trimmed_list s :
  list_ascii_of_string (trim s) =
  rev (Spec.drop_while is_white_space
         (rev (Spec.drop_while is_white_space (list_ascii_of_string s)))).
Proof.
  rewrite trim_spec. unfold Spec.strip_surrounding_whitespace.
  apply list_ascii_of_string_of_list_ascii.
Qed.

Lemma string_of_list_inj s t :
  list_ascii_of_string s = list_ascii_of_string t -> s = t.
Proof.
  intros H. rewrite <- (string_of_list_ascii_of_string s), H.
  apply string_of_list_ascii_of_string.
Qed.

Lemma trim_padding pad s pad' :
  all_white pad = true -> all_white pad' = true ->
  trim (pad +:+ s +:+ pad') = trim s.
Proof.
  unfold all_white. intros Hp Hp'.
  apply string_of_list_inj. rewrite !trimmed_list, !list_ascii_of_string_append.
  rewrite (drop_while_app _ (list_ascii_of_string pad)), (drop_while_all _ _ Hp).
  rewrite drop_while_app.
  destruct (Spec.drop_while is_white_space (list_ascii_of_string s)) as [|y rest].
  - now rewrite (drop_while_all _ _ Hp').
  - rewrite rev_app_distr, drop_while_app.
    now rewrite (drop_while_all _ _ (forallb_rev _ _ Hp')).
Qed.

Lemma trim_terminated s :
  trimStart s = s -> trim (s +:+ ";") = s +:+ ";".
Proof.
  intros Hs. apply string_of_list_inj.
  rewrite trimmed_list, list_ascii_of_string_append.
  rewrite drop_while_app, <- trimStart_drop_while, Hs.
  destruct (list_ascii_of_string s) as [|y rest] eqn:E.
  - reflexivity.
  - rewrite rev_app_distr. set (l := y :: rest).
    change (rev (list_ascii_of_string ";") ++ rev l) with (";"%char :: rev l).
    change (Spec.drop_while is_white_space (";"%char :: rev l))
      with (";"%char :: rev l).
    cbn [rev]. now rewrite rev_involutive.
Qed.

Lemma replace_semicolon_terminated s : replace_semicolon_at_end (s +:+ ";") = s.
Proof.
  apply string_of_list_inj.
  rewrite replace_semicolon_rev, list_ascii_of_string_append, rev_app_distr.
  change (rev (list_ascii_of_string ";") ++ rev (list_ascii_of_string s))
    with (";"%char :: rev (list_ascii_of_string s)).
  cbn iota. change (Ascii.eqb ";" ";") with true. cbn iota.
  apply rev_involutive.
Qed.

(** X10.  White space around a statement does not reach the server: a
    text padded with white space on either side gives the same bounded
    text as the text itself.  And of a text that starts with no white
    space and is followed by one [;], exactly that text is kept in front
    of the limit clause. *)
Theorem limitedSql_ignores_padding (pad s pad' : string) (n : Z) :
  all_white pad = true -> all_white pad' = true ->
  limitedSql (pad +:+ s +:+ pad') n = limitedSql s n /\
  (trimStart s = s ->
   limitedSql (pad +:+ (s +:+ ";") +:+ pad') n =
   s +:+ " LIMIT " +:+ number_toString n +:+ ";").
Proof.
  intros Hp Hp'. unfold limitedSql.
  split; [now rewrite trim_padding|].
  intros Hs. rewrite trim_padding by done.
  now rewrite (trim_terminated _ Hs), replace_semicolon_terminated.
Qed.

End BoundedText.

(** ** Listing tables, and the columns of a listed table *)

Section ListTables.
Import Js Db DbRead.
Variable precedes : string -> string -> bool.

Lemma is_user_base_table_spec t :
  is_user_base_table t = true <->
  tbl_type t = "BASE TABLE" /\ tbl_schema t <> "pg_catalog" /\
  tbl_schema t <> "information_schema".
Proof.
  unfold is_user_base_table.
  rewrite andb_true_iff, negb_true_iff, orb_false_iff, String.eqb_eq, !String.eqb_neq.
  tauto.
Qed.

(** X11.  [listTables] and [listTablesToolTool] return, as
    [schema.table], exactly the base tables of the catalog that are
    outside pg_catalog and information_schema, one name per such row;
    every name has a dot; the database is left alone. *)
Theorem listTables_lists_user_base_tables (tables : list CatalogTable) (db : Database) :
  exists names,
    listTables precedes tables db = (Fulfilled names, db) /\
    listTablesToolTool precedes tables db = (Fulfilled names, db) /\
    names ≡ₚ full_name <$> List.filter is_user_base_table tables /\
    (forall name, name ∈ names <->
       exists t, t ∈ tables /\ tbl_type t = "BASE TABLE" /\
                 tbl_schema t <> "pg_catalog" /\
                 tbl_schema t <> "information_schema" /\
                 name = tbl_schema t +:+ "." +:+ tbl_name t) /\
    (forall name, name ∈ names -> includes name "." = true).
Proof.
  eexists. split; [reflexivity|]. split; [reflexivity|].
  assert (Hp : full_name <$> merge_sort (by_schema_then_name precedes)
                 (List.filter is_user_base_table tables)
               ≡ₚ full_name <$> List.filter is_user_base_table tables).
  { apply fmap_Permutation, merge_sort_Permutation. }
  assert (Hm : forall name,
             name ∈ full_name <$> merge_sort (by_schema_then_name precedes)
                      (List.filter is_user_base_table tables) <->
             exists t, t ∈ tables /\ is_user_base_table t = true /\ name = full_name t).
  { intros name. rewrite Hp, list_elem_of_fmap. split.
    - intros (t & -> & Ht). apply list_elem_of_In, filter_In in Ht as [Ht Hu].
      exists t. split; [now apply list_elem_of_In|done].
    - intros (t & Ht & Hu & ->). exists t. split; [done|].
      apply list_elem_of_In, filter_In. split; [now apply list_elem_of_In|done]. }
  split; [exact Hp|]. split.
  - intros name. rewrite Hm. split.
    + intros (t & Ht & Hu & ->). apply is_user_base_table_spec in Hu.
      exists t. tauto.
    + intros (t & Ht & H1 & H2 & H3 & ->). exists t. split; [done|].
      split; [|done]. apply is_user_base_table_spec. tauto.
  - intros name Hin. apply Hm in Hin as (t & _ & _ & ->).
    apply includes_dot_app.
Qed.

(** X12.  The columns of a listed table: for a schema name without a dot,
    [listColumns] of the name that [listTables] gives looks up that
    schema and, as the table, the table's name up to its first dot; so it
    looks up the table itself exactly when its name has no dot. *)
Theorem listColumns_of_listed_table (t : CatalogTable) (db : Database) :
  includes (tbl_schema t) "." = false ->
  listColumns (full_name t) db =
    (Fulfilled (select_columns (Some (tbl_schema t)) (head (split "." (tbl_name t)))
                  (information_schema_columns db)), db) /\
  (head (split "." (tbl_name t)) = Some (tbl_name t) <->
   includes (tbl_name t) "." = false).
Proof.
  intros Hs. split.
  - rewrite listColumns_eq. unfold full_name.
    now rewrite (schema_and_table_qualified _ _ Hs).
  - split.
    + intros H. destruct (split "." (tbl_name t)) as [|h rest] eqn:E; [done|].
      injection H as ->. now apply (split_head_no_dot _ _ _ E).
    + intros H. now rewrite (split_no_dot _ H).
Qed.

End ListTables.

(** ** Selecting tables and columns by index *)

Section Selections.
Import Js Db KpiWorkflow Described.

Lemma mapi_from_lookup {A B} (f : Z -> A -> B) (l : list A) from k :
  mapi_from from f l !! k = f (from + Z.of_nat k) <$> l !! k.
Proof.
  revert from k. induction l as [|x l IH]; intros from k; [done|].
  destruct k as [|k]; simpl.
  - now rewrite Z.add_0_r.
  - rewrite IH. do 2 f_equal. lia.
Qed.

Lemma in_range_spec n i :
  0 <= i < Z.of_nat n -> out_of_range n i = false.
Proof.
  intros H. destruct (out_of_range n i) eqn:E; [|done].
  apply out_of_range_spec in E. lia.
Qed.

Lemma index_lookup {A} (l : list A) i :
  0 <= i -> index l i = l !! Z.to_nat i.
Proof.
  intros H. unfold index.
  destruct (i <? 0) eqn:E; [|done]. apply Z.ltb_lt in E. lia.
Qed.

Lemma selectTablesStep_chosen (tables : list string) (r : SelectTablesResume) :
  selectedTableIndexes r <> [] ->
  (forall i, i ∈ selectedTableIndexes r -> 0 <= i < Z.of_nat (length tables)) ->
  exists out,
    selectTablesStep tables (Some r) = Completed out /\
    length out = length (selectedTableIndexes r) /\
    forall k i, selectedTableIndexes r !! k = Some i ->
      is_Some (out !! k) /\ out !! k = tables !! Z.to_nat i.
Proof.
  intros Hne Hall.
  destruct (selectTablesStep_accepts tables r Hne) as [Hstep Hdef].
  { intros i Hi. now apply in_range_spec, Hall. }
  exists (table_at tables <$> selectedTableIndexes r).
  split; [exact Hstep|]. split; [apply length_fmap|].
  intros k i Hk. rewrite list_lookup_fmap, Hk. simpl.
  rewrite Forall_forall in Hdef.
  assert (Hi : i ∈ selectedTableIndexes r) by (apply list_elem_of_lookup; eauto).
  specialize (Hdef i Hi). rewrite index_lookup in Hdef by (apply Hall, Hi).
  now rewrite Hdef.
Qed.

(** X13.  A non-empty table selection whose indexes are all within
    [0, N) is accepted: the step returns, position by position, the table
    at each selected index, repeated indexes included. *)
Theorem select_tables_returns_chosen (tables : list string) (r : SelectTablesResume) :
  selectedTableIndexes r <> [] ->
  (forall i, i ∈ selectedTableIndexes r -> 0 <= i < Z.of_nat (length tables)) ->
  exists out,
    selectTablesStep tables (Some r) = Completed out /\
    length out = length (selectedTableIndexes r) /\
    forall k i, selectedTableIndexes r !! k = Some i ->
      is_Some (out !! k) /\ out !! k = tables !! Z.to_nat i.
Proof. apply selectTablesStep_chosen. Qed.

(** X14.  The index that the suspend payload of select-tables shows for
    a table selects that table: resuming with the index of an entry of
    availableTables alone returns the name of that entry. *)
Theorem offered_table_index_selects_it (tables : list string) (e : IndexedTable) :
  e ∈ availableTables (selectTables_suspend tables) ->
  selectTablesStep tables (Some {| selectedTableIndexes := [it_index e] |}) =
  Completed [it_name e].
Proof.
  intros He. apply list_elem_of_lookup in He as [k Hk].
  simpl in Hk. unfold mapi in Hk. rewrite mapi_from_lookup in Hk.
  destruct (tables !! k) as [name|] eqn:Ek; [|done].
  injection Hk as <-. cbn [it_index it_name]. rewrite Z.add_0_l.
  pose proof (lookup_lt_Some _ _ _ Ek) as Hlt.
  destruct (selectTablesStep_chosen tables {| selectedTableIndexes := [Z.of_nat k] |})
    as (out & Hstep & Hlen & Hout); [done| |].
  { intros i Hi. apply list_elem_of_singleton in Hi as ->. lia. }
  rewrite Hstep. f_equal.
  destruct (Hout 0%nat (Z.of_nat k) eq_refl) as [_ H0].
  rewrite Nat2Z.id, Ek in H0.
  destruct out as [|x [|y out]]; simpl in *; try done.
  now injection H0 as ->.
Qed.

Lemma push_columns_valid columns t cols idxs selected :
  columns !! t = Some cols ->
  (forall i, i ∈ idxs -> 0 <= i < Z.of_nat (length cols)) ->
  push_columns t cols idxs selected =
  Fulfilled (selected ++ named_columns columns [(t, idxs)]) /\
  length (named_columns columns [(t, idxs)]) = length idxs.
Proof.
  intros Hcols. unfold named_columns. simpl. rewrite app_nil_r, Hcols.
  revert selected. induction idxs as [|i idxs IH]; intros selected Hall.
  - simpl. now rewrite app_nil_r.
  - assert (Hi : 0 <= i < Z.of_nat (length cols)) by (apply Hall; left).
    cbn [push_columns flat_map]. rewrite (in_range_spec _ _ Hi).
    destruct (index_in_range cols i (in_range_spec _ _ Hi)) as [col Hcol].
    rewrite Hcol.
    destruct (IH (selected ++ [t +:+ "." +:+ col_name col])) as [-> Hlen].
    { intros j Hj. apply Hall. now right. }
    split; [now rewrite <- app_assoc|].
    simpl. now rewrite Hlen.
Qed.

Lemma named_columns_cons columns t idxs entries :
  named_columns columns ((t, idxs) :: entries) =
  named_columns columns [(t, idxs)] ++ named_columns columns entries.
Proof. unfold named_columns. simpl. now rewrite app_nil_r. Qed.

Lemma convert_indexes_valid columns entries selected :
  selection_valid columns entries ->
  convert_indexes columns entries selected =
  Fulfilled (selected ++ named_columns columns entries) /\
  length (named_columns columns entries) =
  sum_list ((fun entry : string * list Z => length entry.2) <$> entries).
Proof.
  revert selected. induction entries as [|[t idxs] entries IH]; intros selected Hv.
  - simpl. now rewrite app_nil_r.
  - destruct (Hv t idxs) as (cols & Hcols & Hidx); [left|].
    cbn [convert_indexes]. rewrite Hcols.
    destruct (push_columns_valid columns t cols idxs selected Hcols Hidx) as [-> Hlen].
    destruct (IH (selected ++ named_columns columns [(t, idxs)])) as [-> Hlen'].
    { intros t' idxs' H'. apply Hv. now right. }
    rewrite (named_columns_cons columns t idxs entries).
    split; [now rewrite <- app_assoc|].
    rewrite length_app, Hlen, Hlen'. done.
Qed.

Lemma selectColumns_named (inputData : ListColumnsOutput)
    (r : SelectColumnsResume) :
  truthy (sc_kpiName r) = true ->
  selection_valid (lc_columns inputData) (selectedColumnsByTable r) ->
  selectColumnsAndDetailsStep inputData (Some r) =
  Completed {| selectedColumns :=
                 named_columns (lc_columns inputData) (selectedColumnsByTable r);
               selectedTables := lc_selectedTables inputData;
               kpiName := sc_kpiName r;
               kpiDescription := sc_kpiDescription r;
               useAIGeneration := sc_useAIGeneration r;
               sqlIntent := sc_sqlIntent r;
               manualSQL := sc_manualSQL r |} /\
  length (named_columns (lc_columns inputData) (selectedColumnsByTable r)) =
  sum_list ((fun entry : string * list Z => length entry.2) <$> selectedColumnsByTable r).
Proof.
  intros Hname Hv.
  destruct (convert_indexes_valid _ _ [] Hv) as [Hc Hlen].
  split; [|exact Hlen].
  unfold selectColumnsAndDetailsStep. now rewrite Hname, Hc.
Qed.

(** X15.  A column selection that names listed tables only and indexes
    within them is accepted, the empty selection included: resumed with a
    non-empty kpiName the step returns the [table.column] names of the
    selected columns, table by table and index by index in the order
    given, one name per index, and hands the other resume data on. *)
Theorem select_columns_returns_named (inputData : ListColumnsOutput)
    (r : SelectColumnsResume) :
  truthy (sc_kpiName r) = true ->
  selection_valid (lc_columns inputData) (selectedColumnsByTable r) ->
  selectColumnsAndDetailsStep inputData (Some r) =
  Completed {| selectedColumns :=
                 named_columns (lc_columns inputData) (selectedColumnsByTable r);
               selectedTables := lc_selectedTables inputData;
               kpiName := sc_kpiName r;
               kpiDescription := sc_kpiDescription r;
               useAIGeneration := sc_useAIGeneration r;
               sqlIntent := sc_sqlIntent r;
               manualSQL := sc_manualSQL r |} /\
  length (named_columns (lc_columns inputData) (selectedColumnsByTable r)) =
  sum_list ((fun entry : string * list Z => length entry.2) <$> selectedColumnsByTable r).
Proof. apply selectColumns_named. Qed.

Lemma convert_indexes_app columns before rest selected :
  convert_indexes columns (before ++ rest) selected =
  match convert_indexes columns before selected with
  | Fulfilled selected' => convert_indexes columns rest selected'
  | Rejected e => Rejected e
  end.
Proof.
  revert selected. induction before as [|[t idxs] before IH]; intros selected; [done|].
  simpl. destruct (columns !! t) as [cols|].
  - now destruct (push_columns t cols idxs selected).
  - destruct (Object_prototype t) as [member|]; [|done].
    now destruct (push_inherited t member idxs).
Qed.

(** No member of [Object.prototype] has a dot in its name, so that a
    name [schema.table], as list-tables gives it, is none of them. *)
Lemma Object_prototype_dot t : includes t "." = true -> Object_prototype t = None.
Proof.
  intros H.
  assert (Hl : forall l, existsb (String.eqb t) l = true ->
                 Forall (fun x => includes x "." = false) l -> False).
  { intros l Hex Hall. apply existsb_exists in Hex as (x & Hx & Heq).
    apply String.eqb_eq in Heq as <-. rewrite Forall_forall in Hall.
    apply list_elem_of_In in Hx. specialize (Hall _ Hx). congruence. }
  unfold Object_prototype.
  repeat match goal with
  | |- context [existsb (String.eqb t) ?l] =>
      destruct (existsb (String.eqb t) l) eqn:?;
        [exfalso; apply (Hl l); [assumption|repeat constructor]|]
  end.
  destruct (String.eqb t "__proto__") eqn:E4; [|done].
  apply String.eqb_eq in E4 as ->. discriminate H.
Qed.

(** X16.  A column selection that names a table which is not among the
    listed ones and whose name is not that of a member of
    [Object.prototype] (as no name with a dot is), after entries that are
    in order, fails with an error that names that table, whatever indexes
    it gives for it. *)
Theorem select_columns_rejects_unknown_table (inputData : ListColumnsOutput)
    (r : SelectColumnsResume) (before after : list (string * list Z))
    (t : string) (idxs : list Z) :
  truthy (sc_kpiName r) = true ->
  selectedColumnsByTable r = before ++ (t, idxs) :: after ->
  selection_valid (lc_columns inputData) before ->
  lc_columns inputData !! t = None ->
  Object_prototype t = None ->
  selectColumnsAndDetailsStep inputData (Some r) =
  Failed (Error ("Table '" +:+ t +:+ "' not found in selected tables")).
Proof.
  intros Hname Hsel Hv Ht Hp.
  unfold selectColumnsAndDetailsStep. rewrite Hname, Hsel. simpl.
  rewrite convert_indexes_app.
  destruct (convert_indexes_valid _ _ [] Hv) as [-> _].
  simpl. now rewrite Ht, Hp.
Qed.

End Selections.

(** ** The columns that are listed, shown and selected *)

Section ListedColumns.
Import Js Db KpiWorkflow Described.

Lemma list_columns_loop_lookup selectedTables acc db :
  exists columns,
    list_columns_loop selectedTables acc db = (Fulfilled columns, db) /\
    forall t, columns !! t =
      if decide (t ∈ selectedTables)
      then Some (select_columns (schema_and_table t).1 (schema_and_table t).2
                   (information_schema_columns db))
      else acc !! t.
Proof.
  revert acc. induction selectedTables as [|h rest IH]; intros acc.
  - exists acc. split; [done|]. intros t. rewrite decide_False; [done|apply not_elem_of_nil].
  - cbn [list_columns_loop]. unfold listColumnsTool.
    destruct (schema_and_table h) as [schema tableName] eqn:Eh.
    destruct (IH (<[h := select_columns schema tableName (information_schema_columns db)]> acc))
      as (columns & Hloop & Hlookup).
    exists columns. split; [done|]. intros t. rewrite Hlookup.
    destruct (decide (t ∈ rest)) as [Hin|Hnot].
    + rewrite decide_True; [done|now right].
    + destruct (decide (t = h)) as [->|Hne].
      * rewrite decide_True by left. rewrite lookup_insert_eq. now rewrite Eh.
      * rewrite decide_False.
        -- now rewrite lookup_insert_ne.
        -- intros H. apply elem_of_cons in H as [H|H]; done.
Qed.

Lemma listColumnsStep_selected selectedTables db out :
  listColumnsStep selectedTables db = (Completed out, db) ->
  lc_selectedTables out = selectedTables /\ Control.has_selected_columns out.
Proof.
  unfold listColumnsStep.
  destruct (list_columns_loop_lookup selectedTables ∅ db) as (columns & -> & Hl).
  intros [= <-]. split; [done|].
  intros t Ht. simpl in *. rewrite Hl, decide_True by done. done.
Qed.

(** X17.  list-columns returns the selected tables as they came and a
    record that has, for each selected table and for nothing else, the
    columns that [listColumnsTool] lists for it; the database is left
    alone. *)
Theorem listColumnsStep_records_selected_tables (selectedTables : list string)
    (db : Database) :
  exists out,
    listColumnsStep selectedTables db = (Completed out, db) /\
    lc_selectedTables out = selectedTables /\
    forall t,
      (t ∈ selectedTables ->
       exists cols, lc_columns out !! t = Some cols /\
                    listColumnsTool t db = (Fulfilled cols, db)) /\
      (t ∉ selectedTables -> lc_columns out !! t = None).
Proof.
  unfold listColumnsStep.
  destruct (list_columns_loop_lookup selectedTables ∅ db) as (columns & -> & Hl).
  eexists. split; [reflexivity|]. split; [reflexivity|].
  intros t. simpl. rewrite Hl. split; intros Ht.
  - rewrite decide_True by done. eexists. split; [reflexivity|].
    unfold listColumnsTool. now destruct (schema_and_table t).
  - rewrite decide_False by done. apply lookup_empty.
Qed.

Lemma columns_with_indexes_lookup columns selectedTables acc :
  (forall t, t ∈ selectedTables -> is_Some (columns !! t)) ->
  exists m,
    columns_with_indexes columns selectedTables acc = Fulfilled m /\
    forall t, m !! t =
      if decide (t ∈ selectedTables) then with_index <$> columns !! t else acc !! t.
Proof.
  revert acc. induction selectedTables as [|h rest IH]; intros acc Hknown.
  - exists acc. split; [done|]. intros t. rewrite decide_False; [done|apply not_elem_of_nil].
  - destruct (Hknown h) as [cols Hcols]; [left|].
    cbn [columns_with_indexes]. rewrite Hcols.
    destruct (IH (<[h := with_index cols]> acc)) as (m & Hm & Hlookup).
    { intros t Ht. apply Hknown. now right. }
    exists m. split; [done|]. intros t. rewrite Hlookup.
    destruct (decide (t ∈ rest)) as [Hin|Hnot].
    + rewrite decide_True; [done|now right].
    + destruct (decide (t = h)) as [->|Hne].
      * rewrite decide_True by left. now rewrite lookup_insert_eq, Hcols.
      * rewrite decide_False.
        -- now rewrite lookup_insert_ne.
        -- intros H. apply elem_of_cons in H as [H|H]; done.
Qed.

(** X18.  What select-columns-details shows and what it takes back fit
    together: on an input that has the columns of every selected table,
    the suspend payload shows for each selected table its columns
    numbered from 0 in the listed order, and resuming with the number
    shown for a column selects that column. *)
Theorem offered_column_index_selects_it (inputData : ListColumnsOutput)
    (t : string) (cols : list Column) (r : SelectColumnsResume) (e : IndexedColumn) :
  Control.has_selected_columns inputData ->
  t ∈ lc_selectedTables inputData ->
  lc_columns inputData !! t = Some cols ->
  truthy (sc_kpiName r) = true ->
  selectedColumnsByTable r = [(t, [ic_index e])] ->
  Control.available_columns inputData !! t = Some (with_index cols) /\
  (forall k, with_index cols !! k =
             (fun col => {| ic_index := Z.of_nat k;
                            ic_column_name := col_name col;
                            ic_data_type := col_type col |}) <$> cols !! k) /\
  (e ∈ with_index cols ->
   exists details,
     selectColumnsAndDetailsStep inputData (Some r) = Completed details /\
     selectedColumns details = [t +:+ "." +:+ ic_column_name e]).
Proof.
  intros Hknown Ht Hcols Hname Hsel.
  assert (Hidx : forall k, with_index cols !! k =
             (fun col => {| ic_index := Z.of_nat k;
                            ic_column_name := col_name col;
                            ic_data_type := col_type col |}) <$> cols !! k).
  { intros k. unfold with_index, mapi. now rewrite mapi_from_lookup, Z.add_0_l. }
  split; [|split; [exact Hidx|]].
  - unfold Control.available_columns.
    destruct (columns_with_indexes_lookup _ _ ∅ Hknown) as (m & -> & Hm).
    rewrite Hm, decide_True by done. now rewrite Hcols.
  - intros He. apply list_elem_of_lookup in He as [k Hk].
    rewrite Hidx in Hk. destruct (cols !! k) as [col|] eqn:Ek; [|done].
    injection Hk as <-. simpl in Hsel.
    pose proof (lookup_lt_Some _ _ _ Ek) as Hlt.
    destruct (selectColumns_named inputData r Hname) as [Hstep _].
    { rewrite Hsel. intros t' idxs' H'. apply list_elem_of_singleton in H'.
      injection H' as -> ->. exists cols. split; [done|].
      intros i Hi. apply list_elem_of_singleton in Hi as ->. lia. }
    eexists. split; [exact Hstep|]. simpl. rewrite Hsel.
    unfold named_columns. simpl. rewrite Hcols.
    rewrite index_lookup, Nat2Z.id, Ek by lia. reflexivity.
Qed.

End ListedColumns.

(** ** Saving at the end of a workflow *)

Section Saving.
Import Js Db KpiLog DbRead.
Variable ResultRow : Type.
Variable now : Z.

Lemma or_else_cases x y :
  (x = None \/ x = Some "" -> or_else x y = y) /\
  (forall s, x = Some s -> s <> "" -> or_else x y = s).
Proof.
  split.
  - now intros [-> | ->].
  - intros s -> Hs. unfold or_else, truthy.
    destruct (String.eqb s "") eqn:E; [|done]. now apply String.eqb_eq in E.
Qed.

Lemma refuses_kpi_none p1 p2 p3 p4 p5 :
  existsb has_nul ([p1; default "" p2; p3; default "" p4] ++ default [] p5) = false ->
  refuses_kpi p1 (or_null p2) p3 (or_null p4) p5 = None.
Proof.
  cbn [app existsb]. intros H.
  apply orb_false_iff in H as [H1 H]. apply orb_false_iff in H as [H2 H].
  apply orb_false_iff in H as [H3 H]. apply orb_false_iff in H as [H4 H5].
  unfold refuses_kpi. rewrite !has_nul_or_null_or_null, H1, H3, H5.
  destruct p2 as [d|], p4 as [t|]; simpl in *; rewrite ?H2, ?H4; done.
Qed.

(** A save whose texts the server takes. *)
Lemma saved_row context db :
  existsb has_nul
    ([ctx_name context; default "" (ctx_description context); ctx_formula context;
      default "" (ctx_table context)] ++ default [] (ctx_columns context)) = false ->
  exists db',
    saveKPITool now context db =
      (Fulfilled {| success := true; message := saved_message "KPI" (ctx_name context) |},
       db') /\
    row_named (ctx_name context) (kpi db') =
      Some {| Kpi.name := ctx_name context;
              Kpi.description := or_null (ctx_description context);
              Kpi.formula := ctx_formula context;
              Kpi.table_name := or_null (ctx_table context);
              Kpi.columns := ctx_columns context;
              Kpi.created_at :=
                match row_named (ctx_name context) (kpi db) with
                | Some old => Kpi.created_at old
                | None => now
                end |} /\
    (forall n, n <> ctx_name context -> row_named n (kpi db') = row_named n (kpi db)) /\
    insight db' = insight db /\
    (unique_names (kpi db) -> unique_names (kpi db')).
Proof.
  intros Hnul. apply refuses_kpi_none in Hnul.
  assert (Haccepted : accepted (by_saveKPITool now context) = true).
  { unfold accepted. simpl. now rewrite Hnul. }
  exists (apply (by_saveKPITool now context) db).
  split.
  { unfold apply, saveKPITool, upsert_kpi. now rewrite Hnul. }
  pose proof (row_named_apply (by_saveKPITool now context) db) as H.
  rewrite Haccepted in H. cbn [andb] in H.
  split; [|split; [|split]].
  - rewrite H. simpl. now rewrite String.eqb_refl.
  - intros n Hn. rewrite H. simpl.
    destruct (String.eqb n (ctx_name context)) eqn:E; [|done].
    now apply String.eqb_eq in E.
  - apply apply_insight.
  - apply (unique_names_apply (by_saveKPITool now context)).
Qed.

(** A save with a text that the server refuses. *)
Lemma save_refused context db e :
  refuses_kpi (ctx_name context) (or_null (ctx_description context)) (ctx_formula context)
    (or_null (ctx_table context)) (ctx_columns context) = Some e ->
  saveKPITool now context db = (Rejected e, db).
Proof. intros H. unfold saveKPITool, upsert_kpi. now rewrite H. Qed.

(** X19.  confirm-save of the index-based workflow, resumed with
    confirmed = true and with texts that the server takes (no U+0000 in
    the KPI's name, its description, the SQL that is saved, the joined
    table names and the column names), reports success and leaves under
    the KPI's name a row with the edited SQL if a non-empty one was given
    and the previewed SQL otherwise, the selected tables joined by a comma
    and a blank (NULL when none), and the selected columns; the row keeps
    the created_at it had, or gets the time of the save; rows of other
    names and table insight are untouched, and one row per name stays
    so. *)
Theorem confirm_save_stores_the_kpi (i : KpiWorkflow.ConfirmInput ResultRow)
    (r : KpiWorkflow.ConfirmResume) (db : Database) :
  KpiWorkflow.confirmed r = true ->
  existsb has_nul
    ([KpiWorkflow.ci_kpiName ResultRow i; KpiWorkflow.ci_kpiDescription ResultRow i;
      or_else (KpiWorkflow.editedSQL r) (KpiWorkflow.ci_sqlQuery ResultRow i);
      join ", " (KpiWorkflow.ci_selectedTables ResultRow i)]
     ++ KpiWorkflow.ci_selectedColumns ResultRow i) = false ->
  exists db' stored,
    KpiWorkflow.confirmAndSaveStep ResultRow now i (Some r) db =
      (Completed {| KpiWorkflow.co_kpiName := KpiWorkflow.ci_kpiName ResultRow i;
                    KpiWorkflow.co_success := true |}, db') /\
    row_named (KpiWorkflow.ci_kpiName ResultRow i) (kpi db') = Some stored /\
    Kpi.formula stored =
      or_else (KpiWorkflow.editedSQL r) (KpiWorkflow.ci_sqlQuery ResultRow i) /\
    (KpiWorkflow.editedSQL r = None \/ KpiWorkflow.editedSQL r = Some "" ->
     Kpi.formula stored = KpiWorkflow.ci_sqlQuery ResultRow i) /\
    (forall s, KpiWorkflow.editedSQL r = Some s -> s <> "" -> Kpi.formula stored = s) /\
    Kpi.description stored = or_null (Some (KpiWorkflow.ci_kpiDescription ResultRow i)) /\
    Kpi.table_name stored =
      or_null (Some (join ", " (KpiWorkflow.ci_selectedTables ResultRow i))) /\
    Kpi.columns stored = Some (KpiWorkflow.ci_selectedColumns ResultRow i) /\
    Kpi.created_at stored =
      match row_named (KpiWorkflow.ci_kpiName ResultRow i) (kpi db) with
      | Some old => Kpi.created_at old
      | None => now
      end /\
    (forall n, n <> KpiWorkflow.ci_kpiName ResultRow i ->
               row_named n (kpi db') = row_named n (kpi db)) /\
    insight db' = insight db /\
    (unique_names (kpi db) -> unique_names (kpi db')).
Proof.
  intros Hc Hnul. unfold KpiWorkflow.confirmAndSaveStep. rewrite Hc. cbn [negb].
  set (context := {| ctx_name := KpiWorkflow.ci_kpiName ResultRow i;
                     ctx_description := Some (KpiWorkflow.ci_kpiDescription ResultRow i);
                     ctx_formula := or_else (KpiWorkflow.editedSQL r)
                                      (KpiWorkflow.ci_sqlQuery ResultRow i);
                     ctx_table := Some (join ", " (KpiWorkflow.ci_selectedTables ResultRow i));
                     ctx_columns := Some (KpiWorkflow.ci_selectedColumns ResultRow i) |}).
  destruct (saved_row context db Hnul) as (db' & -> & Hrow & Hother & Hins & Hu).
  destruct (or_else_cases (KpiWorkflow.editedSQL r) (KpiWorkflow.ci_sqlQuery ResultRow i))
    as [He1 He2].
  exists db'. eexists. split; [reflexivity|].
  split; [exact Hrow|]. cbn [Kpi.formula Kpi.description Kpi.table_name Kpi.columns
                             Kpi.created_at context ctx_formula ctx_description
                             ctx_table ctx_columns ctx_name].
  repeat split; try done.
Qed.

(** X20.  save-kpi of the name-based workflow, resumed with confirmed =
    true and with texts that the server takes (no U+0000 in the KPI's
    name, its description and the SQL that is saved), reports success with
    the tool's message and leaves under the KPI's name a row with the
    edited SQL if a non-empty one was given and the previewed SQL
    otherwise, and with table_name and columns NULL, whatever the row of
    that name had there before; the row keeps the created_at it had, or
    gets the time of the save. *)
Theorem save_kpi_stores_the_kpi (i : SimpleKpiWorkflow.SaveInput ResultRow)
    (r : SimpleKpiWorkflow.SaveResume) (db : Database) :
  SimpleKpiWorkflow.sr_confirmed r = true ->
  existsb has_nul
    [SimpleKpiWorkflow.si_kpiName ResultRow i; SimpleKpiWorkflow.si_kpiDescription ResultRow i;
     or_else (SimpleKpiWorkflow.sr_editedSQL r) (SimpleKpiWorkflow.si_sqlQuery ResultRow i)]
  = false ->
  exists db' stored,
    SimpleKpiWorkflow.saveKPIStep ResultRow now i (Some r) db =
      (Completed {| SimpleKpiWorkflow.sv_kpiName := SimpleKpiWorkflow.si_kpiName ResultRow i;
                    SimpleKpiWorkflow.sv_success := true;
                    SimpleKpiWorkflow.sv_message :=
                      "KPI '" +:+ SimpleKpiWorkflow.si_kpiName ResultRow i
                      +:+ "' saved successfully" |}, db') /\
    row_named (SimpleKpiWorkflow.si_kpiName ResultRow i) (kpi db') = Some stored /\
    Kpi.formula stored =
      or_else (SimpleKpiWorkflow.sr_editedSQL r) (SimpleKpiWorkflow.si_sqlQuery ResultRow i) /\
    Kpi.description stored =
      or_null (Some (SimpleKpiWorkflow.si_kpiDescription ResultRow i)) /\
    Kpi.table_name stored = None /\
    Kpi.columns stored = None /\
    Kpi.created_at stored =
      match row_named (SimpleKpiWorkflow.si_kpiName ResultRow i) (kpi db) with
      | Some old => Kpi.created_at old
      | None => now
      end /\
    (forall n, n <> SimpleKpiWorkflow.si_kpiName ResultRow i ->
               row_named n (kpi db') = row_named n (kpi db)) /\
    insight db' = insight db /\
    (unique_names (kpi db) -> unique_names (kpi db')).
Proof.
  intros Hc Hnul. unfold SimpleKpiWorkflow.saveKPIStep. rewrite Hc. cbn [negb].
  set (context := {| ctx_name := SimpleKpiWorkflow.si_kpiName ResultRow i;
                     ctx_description := Some (SimpleKpiWorkflow.si_kpiDescription ResultRow i);
                     ctx_formula := or_else (SimpleKpiWorkflow.sr_editedSQL r)
                                      (SimpleKpiWorkflow.si_sqlQuery ResultRow i);
                     ctx_table := None;
                     ctx_columns := None |}).
  destruct (saved_row context db) as (db' & -> & Hrow & Hother & Hins & Hu).
  { cbn [context ctx_name ctx_description ctx_formula ctx_table ctx_columns default app].
    cbn [existsb] in *. change (has_nul "") with false. now rewrite !orb_false_r in *. }
  exists db'. eexists. split; [reflexivity|].
  split; [exact Hrow|]. repeat split; try done.
Qed.

Lemma takes_insight_texts name kpiName text :
  existsb has_nul [name; kpiName; text] = false ->
  takes_insight {| in_name := name; in_description := None;
                   in_kpi_name := Some kpiName; in_formula := text;
                   in_schedule := None; in_exec_time := None;
                   in_alert_high := None; in_alert_low := None |} = true.
Proof.
  cbn [existsb]. intros H.
  apply orb_false_iff in H as [H1 H]. apply orb_false_iff in H as [H2 H].
  apply orb_false_iff in H as [H3 _].
  unfold takes_insight, refuses_insight. cbn [in_name in_description in_kpi_name
    in_formula in_schedule in_exec_time].
  rewrite (has_nul_or_null_or_null (Some kpiName)). cbn [or_null has_nul_or_null].
  now rewrite H1, H2, H3.
Qed.

(** X21.  confirm-save-insight, resumed with confirmed = true and with
    texts that the server takes (no U+0000 in the insight's name, the
    KPI's name and the text that is saved): when the KPI is in table kpi,
    the step reports success and appends one insight with the next id,
    the insight's name, the KPI's name, the edited text if a non-empty one
    was given and the generated text otherwise, every other optional
    column NULL, and the time of the save; when the KPI is not (any more)
    in table kpi, the step fails with SQLSTATE 23503 and appends nothing.
    Table kpi is untouched either way. *)
Theorem confirm_save_insight_appends_or_fails (i : InsightWorkflow.ConfirmInsightInput)
    (r : InsightWorkflow.ConfirmInsightResume) (db : Database) :
  InsightWorkflow.cir_confirmed r = true ->
  InsightWorkflow.cii_kpiName i <> "" ->
  existsb has_nul
    [InsightWorkflow.cii_insightName i; InsightWorkflow.cii_kpiName i;
     or_else (InsightWorkflow.editedInsight r) (InsightWorkflow.cii_insightText i)] = false ->
  let result := InsightWorkflow.confirmAndSaveInsightStep now i (Some r) db in
  kpi (snd result) = kpi db /\
  (InsightWorkflow.cii_kpiName i ∈ Kpi.name <$> kpi db ->
   fst result = Completed {| InsightWorkflow.cio_insightName := InsightWorkflow.cii_insightName i;
                             InsightWorkflow.cio_success := true |} /\
   insight (snd result) =
     insight db ++
     [ {| Insight.id := insight_id_seq db;
          Insight.name := InsightWorkflow.cii_insightName i;
          Insight.description := None;
          Insight.kpi_name := Some (InsightWorkflow.cii_kpiName i);
          Insight.formula :=
            or_else (InsightWorkflow.editedInsight r) (InsightWorkflow.cii_insightText i);
          Insight.schedule := None;
          Insight.exec_time := None;
          Insight.alert_high := None;
          Insight.alert_low := None;
          Insight.created_at := now |} ]) /\
  (InsightWorkflow.cii_kpiName i ∉ Kpi.name <$> kpi db ->
   fst result = Failed (DatabaseError "23503") /\
   insight (snd result) = insight db).
Proof.
  intros Hc Hne Hnul result. unfold result, InsightWorkflow.confirmAndSaveInsightStep.
  rewrite Hc. cbn [negb].
  pose proof (takes_insight_texts _ _ _ Hnul) as Htakes.
  unfold takes_insight in Htakes. apply negb_true_iff in Htakes.
  unfold saveInsightTool, insert_insight. rewrite Htakes.
  cbn [in_kpi_name in_name in_description in_formula in_schedule in_exec_time
       in_alert_high in_alert_low].
  rewrite (or_null_truthy _ Hne).
  destruct (references_kpi (Some (InsightWorkflow.cii_kpiName i)) (kpi db)) eqn:Eref.
  - split; [done|]. split; [done|].
    intros Hnot. apply references_kpi_some in Eref. done.
  - split; [done|]. split; [|done].
    intros Hin. apply existsb_name_true in Hin. simpl in Eref. congruence.
Qed.

(** A rejected save has changed nothing of the two tables. *)
Lemma save_rejected_unchanged context db e db' :
  saveKPITool now context db = (Rejected e, db') -> db' = db.
Proof.
  unfold saveKPITool, upsert_kpi. destruct (refuses_kpi _ _ _ _ _); [|done].
  now intros [= _ <-].
Qed.


End Saving.

(** ** Runs of the name-based KPI workflow *)

Section SimpleRuns.
Import Js Db KpiLog DbRead Pipeline.
Variable precedes : string -> string -> bool.
Variable information_schema_tables : list CatalogTable.
Variable generateSQLTool : GenerateContext -> Outcome string.
Variable ResultRow : Type.
Variable pool_query : string -> Query (list ResultRow).
Variable now : Z.

Lemma truthy_nonempty s : s <> "" -> truthy s = true.
Proof.
  intros H. unfold truthy. destruct (String.eqb s "") eqn:E; [|done].
  now apply String.eqb_eq in E.
Qed.


(** The statement of [simple_previewed] is the one that the run has the
    engine execute, in the state the run started in; a run without such a
    statement has the engine execute nothing. *)
Lemma simple_previewed_is_executed resume db text e db1 :
  simple_previewed precedes information_schema_tables generateSQLTool ResultRow
    resume db = Some text ->
  pool_query text db = (Rejected e, db1) ->
  simpleKpiWorkflow precedes information_schema_tables generateSQLTool ResultRow
    pool_query now resume db = (Failed e, db1).
Proof.
  unfold simple_previewed, simpleKpiWorkflow, getTablesStep, listTablesToolTool.
  cbn [and_then].
  destruct (SimpleKpiWorkflow.selectTableStep _ _) as [p|tableName|e0]; cbn [and_then];
    [done| |done].
  unfold getColumnsStep, listColumnsTool.
  destruct (schema_and_table tableName) as [schema tbl]. cbn [and_then].
  destruct (SimpleKpiWorkflow.defineKPIStep _ _ _) as [p|defined|e0]; cbn [and_then];
    [done| |done].
  intros [= <-] Hq. unfold previewKPIStep, runQueryTool. now rewrite Hq.
Qed.

Lemma simple_not_previewed resume db (other : string -> Query (list ResultRow)) :
  simple_previewed precedes information_schema_tables generateSQLTool ResultRow
    resume db = None ->
  simpleKpiWorkflow precedes information_schema_tables generateSQLTool ResultRow
    pool_query now resume db =
  simpleKpiWorkflow precedes information_schema_tables generateSQLTool ResultRow
    other now resume db.
Proof.
  unfold simple_previewed, simpleKpiWorkflow, getTablesStep, listTablesToolTool.
  cbn [and_then].
  destruct (SimpleKpiWorkflow.selectTableStep _ _) as [p|tableName|e0]; cbn [and_then];
    [done| |done].
  unfold getColumnsStep, listColumnsTool.
  destruct (schema_and_table tableName) as [schema tbl]. cbn [and_then].
  now destruct (SimpleKpiWorkflow.defineKPIStep _ _ _) as [p|defined|e0].
Qed.

(** X23.  A run of the name-based workflow that does not complete has
    stored nothing: if it is suspended or has failed, be it on the
    generator, the preview or a save that the server refuses, tables kpi
    and insight are as they were, provided the statement that the run has
    previewed, if it has come to that, writes itself to neither. *)
Theorem simple_workflow_stores_nothing_unless_completed (resume : SimpleResume)
    (db : Database) :
  (forall text,
     simple_previewed precedes information_schema_tables generateSQLTool ResultRow
       resume db = Some text ->
     kpi (snd (pool_query text db)) = kpi db /\
     insight (snd (pool_query text db)) = insight db) ->
  (forall out,
     fst (simpleKpiWorkflow precedes information_schema_tables generateSQLTool ResultRow
            pool_query now resume db) <> Completed out) ->
  kpi (snd (simpleKpiWorkflow precedes information_schema_tables generateSQLTool
              ResultRow pool_query now resume db)) = kpi db /\
  insight (snd (simpleKpiWorkflow precedes information_schema_tables generateSQLTool
                  ResultRow pool_query now resume db)) = insight db.
Proof.
  unfold simple_previewed, simpleKpiWorkflow, getTablesStep, listTablesToolTool.
  cbn [and_then].
  destruct (SimpleKpiWorkflow.selectTableStep _ _) as [p|tableName|e]; cbn [and_then];
    [done| |done].
  unfold getColumnsStep, listColumnsTool.
  destruct (schema_and_table tableName) as [schema tbl]. cbn [and_then].
  destruct (SimpleKpiWorkflow.defineKPIStep _ _ _) as [p|defined|e]; cbn [and_then];
    [done| |done].
  intros Hquiet. specialize (Hquiet _ eq_refl).
  unfold previewKPIStep, runQueryTool.
  destruct (pool_query _ db) as [[rows|e] db1]; cbn [and_then]; [|done].
  unfold SimpleKpiWorkflow.saveKPIStep.
  destruct (for_save_kpi resume) as [sv|]; [|done].
  destruct (SimpleKpiWorkflow.sr_confirmed sv); cbn [negb and_then]; [|done].
  destruct (saveKPITool _ _ _) as [[result|e] db2] eqn:Esave; cbn [and_then].
  - intros H. exfalso. eapply H. reflexivity.
  - intros _. now rewrite (save_rejected_unchanged _ _ _ _ _ Esave).
Qed.

End SimpleRuns.

(** ** Runs of the index-based KPI workflow *)

Section KpiRuns.
Import Js Db KpiLog DbRead Pipeline Described.
Variable precedes : string -> string -> bool.
Variable information_schema_tables : list CatalogTable.
Variable generateSQLTool : GenerateContext -> Outcome string.
Variable ResultRow : Type.
Variable pool_query : string -> Query (list ResultRow).
Variable now : Z.

(** X24.  A run of the index-based workflow that is given table indexes
    within the listed tables, a KPI name with column indexes within the
    columns of listed tables, a manual SQL text and no usable intent, and
    the confirmation, whose preview query succeeds and whose texts the
    server takes (no U+0000 in the KPI's name, its description, the SQL
    that is saved and the names of the selected tables and columns),
    completes: it leaves under the KPI's name a row whose formula is the
    manual SQL (or the edited SQL, if a non-empty one came with the
    confirmation), whose table_name is the selected tables joined by a
    comma and a blank, and whose columns are the [table.column] names of
    the selected columns. *)
Theorem kpi_workflow_saves_the_selection (resume : KpiResume) (db db1 : Database)
    (tables : list string) (st : KpiWorkflow.SelectTablesResume)
    (lc : KpiWorkflow.ListColumnsOutput) (sc : KpiWorkflow.SelectColumnsResume)
    (sql : string) (rows : list ResultRow) (c : KpiWorkflow.ConfirmResume) :
  listTablesToolTool precedes information_schema_tables db = (Fulfilled tables, db) ->
  for_select_tables resume = Some st ->
  KpiWorkflow.selectedTableIndexes st <> [] ->
  (forall i, i ∈ KpiWorkflow.selectedTableIndexes st -> 0 <= i < Z.of_nat (length tables)) ->
  KpiWorkflow.listColumnsStep
    (KpiWorkflow.table_at tables <$> KpiWorkflow.selectedTableIndexes st) db
    = (Completed lc, db) ->
  for_select_columns_details resume = Some sc ->
  KpiWorkflow.sc_kpiName sc <> "" ->
  selection_valid (KpiWorkflow.lc_columns lc) (KpiWorkflow.selectedColumnsByTable sc) ->
  Spec.usable_intent (KpiWorkflow.sc_useAIGeneration sc) (KpiWorkflow.sc_sqlIntent sc) = false ->
  KpiWorkflow.sc_manualSQL sc = Some sql -> sql <> "" ->
  pool_query (limitedSql sql 5) db = (Fulfilled rows, db1) ->
  for_confirm_save resume = Some c ->
  KpiWorkflow.confirmed c = true ->
  existsb has_nul
    ([KpiWorkflow.sc_kpiName sc; KpiWorkflow.sc_kpiDescription sc;
      or_else (KpiWorkflow.editedSQL c) sql;
      join ", " (KpiWorkflow.table_at tables <$> KpiWorkflow.selectedTableIndexes st)]
     ++ named_columns (KpiWorkflow.lc_columns lc) (KpiWorkflow.selectedColumnsByTable sc))
  = false ->
  exists db2 stored,
    kpiWorkflow precedes information_schema_tables generateSQLTool ResultRow
      pool_query now resume db =
      (Completed {| KpiWorkflow.co_kpiName := KpiWorkflow.sc_kpiName sc;
                    KpiWorkflow.co_success := true |}, db2) /\
    row_named (KpiWorkflow.sc_kpiName sc) (kpi db2) = Some stored /\
    Kpi.formula stored = or_else (KpiWorkflow.editedSQL c) sql /\
    Kpi.description stored = or_null (Some (KpiWorkflow.sc_kpiDescription sc)) /\
    Kpi.table_name stored =
      or_null (Some (join ", " (KpiWorkflow.table_at tables
                                  <$> KpiWorkflow.selectedTableIndexes st))) /\
    Kpi.columns stored =
      Some (named_columns (KpiWorkflow.lc_columns lc)
              (KpiWorkflow.selectedColumnsByTable sc)) /\
    (forall n, n <> KpiWorkflow.sc_kpiName sc ->
               row_named n (kpi db2) = row_named n (kpi db1)) /\
    insight db2 = insight db1.
Proof.
  intros Hl Hst Hne Hrange Hlc Hsc Hk Hv Hu Hsql Hsqln Hq Hc Hconf Hnul.
  unfold kpiWorkflow, listTablesStep. rewrite Hl. cbn [and_then]. rewrite Hst.
  destruct (selectTablesStep_accepts tables st Hne) as [-> _].
  { intros i Hi. now apply in_range_spec, Hrange. }
  cbn [and_then]. rewrite Hlc. cbn [and_then]. rewrite Hsc.
  destruct (selectColumns_named lc sc (truthy_nonempty _ Hk) Hv) as [-> _].
  cbn [and_then]. unfold KpiWorkflow.generateSQLStep.
  cbn [KpiWorkflow.useAIGeneration KpiWorkflow.sqlIntent KpiWorkflow.manualSQL].
  unfold Spec.usable_intent in Hu. rewrite Hu, Hsql.
  cbn [truthy_opt]. rewrite (truthy_nonempty _ Hsqln). cbn [and_then default].
  change (id sql) with sql.
  unfold previewResultsStep, runQueryTool.
  cbn [KpiWorkflow.sql_output KpiWorkflow.so_sqlQuery]. rewrite Hq.
  cbn [and_then]. rewrite Hc.
  unfold KpiWorkflow.confirmAndSaveStep. rewrite Hconf. cbn [negb].
  cbn [KpiWorkflow.ci_kpiName KpiWorkflow.ci_kpiDescription KpiWorkflow.ci_sqlQuery
       KpiWorkflow.ci_selectedColumns KpiWorkflow.ci_selectedTables
       KpiWorkflow.so_kpiName KpiWorkflow.so_kpiDescription
       KpiWorkflow.so_selectedColumns KpiWorkflow.so_selectedTables
       KpiWorkflow.kpiName KpiWorkflow.kpiDescription
       KpiWorkflow.selectedColumns KpiWorkflow.selectedTables].
  rewrite (proj1 (listColumnsStep_selected _ _ _ Hlc)).
  set (context := {| ctx_name := KpiWorkflow.sc_kpiName sc;
                     ctx_description := Some (KpiWorkflow.sc_kpiDescription sc);
                     ctx_formula := or_else (KpiWorkflow.editedSQL c) sql;
                     ctx_table := Some (join ", " (KpiWorkflow.table_at tables
                                          <$> KpiWorkflow.selectedTableIndexes st));
                     ctx_columns := Some (named_columns (KpiWorkflow.lc_columns lc)
                                            (KpiWorkflow.selectedColumnsByTable sc)) |}).
  destruct (saved_row now context db1 Hnul) as (db2 & Hsave & Hrow & Hother & Hins & _).
  change (saveKPITool now _ db1) with (saveKPITool now context db1). rewrite Hsave.
  cbn [and_then]. exists db2. eexists. split; [reflexivity|].
  split; [exact Hrow|]. repeat split; try done.
Qed.

(** The statement of [kpi_previewed] is the one that the run has the
    engine execute, in the state the run started in; a run without such a
    statement has the engine execute nothing. *)
Lemma kpi_previewed_is_executed resume db text e db1 :
  kpi_previewed precedes information_schema_tables generateSQLTool ResultRow
    resume db = Some text ->
  pool_query text db = (Rejected e, db1) ->
  kpiWorkflow precedes information_schema_tables generateSQLTool ResultRow
    pool_query now resume db = (Failed e, db1).
Proof.
  unfold kpi_previewed, kpiWorkflow, listTablesStep, listTablesToolTool.
  cbn [and_then].
  destruct (KpiWorkflow.selectTablesStep _ _) as [p|chosen|e0]; cbn [and_then];
    [done| |done].
  destruct (listColumnsStep_expected chosen db) as (lc & -> & _). cbn [and_then].
  destruct (KpiWorkflow.selectColumnsAndDetailsStep _ _) as [p|details|e0];
    cbn [and_then]; [done| |done].
  destruct (KpiWorkflow.generateSQLStep _ _) as [p|sql|e0]; cbn [and_then];
    [done| |done].
  intros [= <-] Hq. unfold previewResultsStep, runQueryTool. now rewrite Hq.
Qed.

Lemma kpi_not_previewed resume db (other : string -> Query (list ResultRow)) :
  kpi_previewed precedes information_schema_tables generateSQLTool ResultRow
    resume db = None ->
  kpiWorkflow precedes information_schema_tables generateSQLTool ResultRow
    pool_query now resume db =
  kpiWorkflow precedes information_schema_tables generateSQLTool ResultRow
    other now resume db.
Proof.
  unfold kpi_previewed, kpiWorkflow, listTablesStep, listTablesToolTool.
  cbn [and_then].
  destruct (KpiWorkflow.selectTablesStep _ _) as [p|chosen|e0]; cbn [and_then];
    [done| |done].
  destruct (listColumnsStep_expected chosen db) as (lc & -> & _). cbn [and_then].
  destruct (KpiWorkflow.selectColumnsAndDetailsStep _ _) as [p|details|e0];
    cbn [and_then]; [done| |done].
  now destruct (KpiWorkflow.generateSQLStep _ _) as [p|sql|e0].
Qed.

(** X25.  A run of the index-based workflow that does not complete has
    stored nothing: if it is suspended or has failed, be it on an invalid
    index, an unknown table, missing SQL, the generator, the preview or a
    save that the server refuses, tables kpi and insight are as they
    were, provided the statement that the run has previewed, if it has
    come to that, writes itself to neither. *)
Theorem kpi_workflow_stores_nothing_unless_completed (resume : KpiResume) (db : Database) :
  (forall text,
     kpi_previewed precedes information_schema_tables generateSQLTool ResultRow
       resume db = Some text ->
     kpi (snd (pool_query text db)) = kpi db /\
     insight (snd (pool_query text db)) = insight db) ->
  (forall out,
     fst (kpiWorkflow precedes information_schema_tables generateSQLTool ResultRow
            pool_query now resume db) <> Completed out) ->
  kpi (snd (kpiWorkflow precedes information_schema_tables generateSQLTool
              ResultRow pool_query now resume db)) = kpi db /\
  insight (snd (kpiWorkflow precedes information_schema_tables generateSQLTool
                  ResultRow pool_query now resume db)) = insight db.
Proof.
  unfold kpi_previewed, kpiWorkflow, listTablesStep, listTablesToolTool.
  cbn [and_then].
  destruct (KpiWorkflow.selectTablesStep _ _) as [p|chosen|e]; cbn [and_then];
    [done| |done].
  destruct (listColumnsStep_expected chosen db) as (lc & -> & _). cbn [and_then].
  destruct (KpiWorkflow.selectColumnsAndDetailsStep _ _) as [p|details|e];
    cbn [and_then]; [done| |done].
  destruct (KpiWorkflow.generateSQLStep _ _) as [p|sql|e]; cbn [and_then];
    [done| |done].
  intros Hquiet. specialize (Hquiet _ eq_refl).
  unfold previewResultsStep, runQueryTool.
  destruct (pool_query _ db) as [[rows|e] db1]; cbn [and_then]; [|done].
  unfold KpiWorkflow.confirmAndSaveStep.
  destruct (for_confirm_save resume) as [c|]; [|done].
  destruct (KpiWorkflow.confirmed c); cbn [negb and_then]; [|done].
  destruct (saveKPITool _ _ _) as [[result|e] db2] eqn:Esave; cbn [and_then].
  - intros H. exfalso. eapply H. reflexivity.
  - intros _. now rewrite (save_rejected_unchanged _ _ _ _ _ Esave).
Qed.

End KpiRuns.

(** ** Runs of the insight workflow *)

Section InsightRuns.
Import Js Db KpiLog DbRead Pipeline.
Variable precedes : string -> string -> bool.
Variable ResultRow : Type.
Variable pool_query : string -> Query (list ResultRow).
Variable now : Z.
Variable stringify : list ResultRow -> string.
Variable runtimeContext : option (string -> option string).
Variable insightAgent_generate : string -> MemoryOption -> Outcome string.

Lemma fetched_entries db :
  exists rows,
    fetchKPIsStep precedes db =
      (Completed ((fun r => {| InsightWorkflow.ke_name := Kpi.name r;
                               InsightWorkflow.ke_formula := Kpi.formula r |}) <$> rows), db) /\
    rows ≡ₚ kpi db.
Proof.
  exists (merge_sort (by_name precedes) (kpi db)).
  split; [|apply merge_sort_Permutation].
  unfold fetchKPIsStep, fetchKPIsTool. now rewrite <- list_fmap_compose.
Qed.

(** X26.  select-kpi after fetch-kpis: on a table with one row per name,
    naming a KPI of the table (with a non-empty insight name) returns the
    formula stored under that name, and naming no KPI of the table fails
    with the error that names it. *)
Theorem fetched_kpi_is_selected_by_name (db : Database) (r : InsightWorkflow.SelectKpiResume) :
  unique_names (kpi db) ->
  InsightWorkflow.sk_kpiName r <> "" ->
  InsightWorkflow.insightName r <> "" ->
  exists kpis,
    fetchKPIsStep precedes db = (Completed kpis, db) /\
    (forall old, row_named (InsightWorkflow.sk_kpiName r) (kpi db) = Some old ->
       InsightWorkflow.selectKPIStep kpis (Some r) =
       Completed {| InsightWorkflow.out_kpiName := InsightWorkflow.sk_kpiName r;
                    InsightWorkflow.out_kpiFormula := Kpi.formula old;
                    InsightWorkflow.out_insightName := InsightWorkflow.insightName r;
                    InsightWorkflow.out_insightDescription :=
                      InsightWorkflow.insightDescription r |}) /\
    (row_named (InsightWorkflow.sk_kpiName r) (kpi db) = None ->
       InsightWorkflow.selectKPIStep kpis (Some r) =
       Failed (Error ("KPI '" +:+ InsightWorkflow.sk_kpiName r +:+ "' not found"))).
Proof.
  intros Hu Hk Hi.
  destruct (fetched_entries db) as (rows & Hf & Hp).
  eexists. split; [exact Hf|].
  set (entry := fun r0 : Kpi.Row => {| InsightWorkflow.ke_name := Kpi.name r0;
                                       InsightWorkflow.ke_formula := Kpi.formula r0 |}).
  assert (Hnames : InsightWorkflow.ke_name <$> (entry <$> rows) = Kpi.name <$> rows)
    by now rewrite <- list_fmap_compose.
  unfold InsightWorkflow.selectKPIStep.
  rewrite (truthy_nonempty _ Hk), (truthy_nonempty _ Hi). cbn [negb orb].
  split.
  - intros old Hold. apply row_named_name in Hold as [Hn Hin].
    destruct (find_by_name_some (entry <$> rows) (InsightWorkflow.sk_kpiName r) (entry old))
      as (k' & -> & _ & _ & Heq).
    + apply list_elem_of_fmap. exists old. split; [done|]. now rewrite Hp.
    + exact Hn.
    + rewrite Heq; [done|]. rewrite Hnames, Hp. exact Hu.
  - intros Hnone. rewrite find_by_name_none; [done|].
    intros k Hkin Hkn. apply list_elem_of_fmap in Hkin as (r0 & -> & Hr0).
    rewrite Hp in Hr0. simpl in Hkn.
    unfold row_named in Hnone.
    apply list_elem_of_In in Hr0.
    pose proof (find_none _ _ Hnone r0 Hr0) as Hf0. simpl in Hf0.
    rewrite Hkn, String.eqb_refl in Hf0. done.
Qed.


(** The statement of [insight_queried] is the one that the run has the
    engine execute, in the state the run started in; a run without such a
    statement has the engine execute nothing. *)
Lemma insight_queried_is_executed resume db text e db1 :
  insight_queried precedes resume db = Some text ->
  pool_query text db = (Rejected e, db1) ->
  insightWorkflow precedes ResultRow pool_query now stringify runtimeContext
    insightAgent_generate resume db = (Failed e, db1).
Proof.
  destruct (fetched_entries db) as (fetched & Hf & _).
  unfold insight_queried, insightWorkflow. rewrite Hf. cbn [and_then].
  destruct (InsightWorkflow.selectKPIStep _ _) as [p|selected|e0]; cbn [and_then];
    [done| |done].
  intros [= <-] Hq. unfold executeKPIQueryStep, runQueryTool. now rewrite Hq.
Qed.

Lemma insight_not_queried resume db (other : string -> Query (list ResultRow)) :
  insight_queried precedes resume db = None ->
  insightWorkflow precedes ResultRow pool_query now stringify runtimeContext
    insightAgent_generate resume db =
  insightWorkflow precedes ResultRow other now stringify runtimeContext
    insightAgent_generate resume db.
Proof.
  destruct (fetched_entries db) as (fetched & Hf & _).
  unfold insight_queried, insightWorkflow. rewrite Hf. cbn [and_then].
  now destruct (InsightWorkflow.selectKPIStep _ _) as [p|selected|e0].
Qed.


End InsightRuns.

(** ** Creating the tables *)

Section EnsureTables.
Import Js Startup.
Variable Server : Type.
Variable connect : Server -> Outcome unit.
Variable query : Statement -> Server -> Outcome unit * Server.

Lemma run_statements_app before after s :
  run_statements Server query (before ++ after) s =
  match run_statements Server query before s with
  | (Fulfilled _, s') => run_statements Server query after s'
  | (Rejected e, s') => (Rejected e, s')
  end.
Proof.
  revert s. induction before as [|b before IH]; intros s; [done|].
  simpl. destruct (query b s) as [[u|e] s']; [apply IH|done].
Qed.

(** X29.  [ensureTables] sends its four statements in order and stops at
    the first that is rejected: when no client can be had, nothing is
    sent and the pool is as it was; when a statement is rejected after
    the ones before it went through, the rejection is that statement's,
    what the earlier statements did stays done, and no later statement is
    sent; when all four go through, the call succeeds.  In each case
    every client that was checked out has been released. *)
Theorem ensureTables_stops_at_first_rejection (pool : Pool Server) :
  (forall e, connect (server Server pool) = Rejected e ->
     ensureTables Server connect query pool = (Rejected e, pool)) /\
  (forall u before statement after s1 s2 e,
     connect (server Server pool) = Fulfilled u ->
     [CreateTableKpi; CreateTableInsight; AddColumnTableName; AddColumnColumns]
       = before ++ statement :: after ->
     run_statements Server query before (server Server pool) = (Fulfilled (), s1) ->
     query statement s1 = (Rejected e, s2) ->
     ensureTables Server connect query pool =
       (Rejected e, {| server := s2; clients_out := clients_out Server pool |})) /\
  (forall u s1 s2 s3 s4,
     connect (server Server pool) = Fulfilled u ->
     query CreateTableKpi (server Server pool) = (Fulfilled (), s1) ->
     query CreateTableInsight s1 = (Fulfilled (), s2) ->
     query AddColumnTableName s2 = (Fulfilled (), s3) ->
     query AddColumnColumns s3 = (Fulfilled (), s4) ->
     ensureTables Server connect query pool =
       (Fulfilled (), {| server := s4; clients_out := clients_out Server pool |})).
Proof.
  split; [|split].
  - intros e He. unfold ensureTables. now rewrite He.
  - intros u before statement after s1 s2 e Hc Hsplit Hb Hq.
    unfold ensureTables. rewrite Hc, Hsplit, run_statements_app, Hb.
    simpl. now rewrite Hq.
  - intros u s1 s2 s3 s4 Hc H1 H2 H3 H4.
    unfold ensureTables. rewrite Hc. simpl. now rewrite H1, H2, H3, H4.
Qed.

End EnsureTables.

(** ** The demo script *)

Section DemoScript.
Import Js Demo.
Variable respond : string -> string -> Outcome string.

Lemma run_demo_calls title agent content :
  calls (fst (run_demo respond title agent content)) = [(agent, content)].
Proof. unfold run_demo. now destruct (respond agent content). Qed.

Lemma run_demo_events title agent content :
  match respond agent content with
  | Fulfilled text =>
      run_demo respond title agent content =
      ([log [title]; generate agent content; log ["Agent response:"; text];
        log [Pipeline.nl +:+ Pipeline.nl +:+ "=== Demo Complete ==="]], Fulfilled ())
  | Rejected e =>
      run_demo respond title agent content =
      ([log [title]; generate agent content], Rejected e)
  end.
Proof. unfold run_demo. now destruct (respond agent content). Qed.

Lemma demo_events title agent content :
  let events :=
    match run_demo respond title agent content with
    | (events, Fulfilled _) => events
    | (events, Rejected e) => events ++ [error "Error running demo:" e]
    end in
  calls events = [(agent, content)] /\
  match respond agent content with
  | Fulfilled text =>
      events = [log [title]; generate agent content; log ["Agent response:"; text];
                log [Pipeline.nl +:+ Pipeline.nl +:+ "=== Demo Complete ==="]]
  | Rejected e =>
      events = [log [title]; generate agent content; error "Error running demo:" e]
  end.
Proof. unfold run_demo. now destruct (respond agent content). Qed.

(** X30.  The demo script asks exactly one agent, chosen by its argument
    (the KPI agent for kpi, for no argument and for an empty one, the
    insight agent for insight, the SQL agent for sql), or prints its two
    usage lines and asks none for any other argument.  A rejection by the
    agent never leaves the script: it is reported as the last thing
    printed, on the error stream, and the closing line is not printed. *)
Theorem demo_asks_one_agent_and_reports_failure (argument : option string) :
  let events := main respond argument in
  let agent :=
    if String.eqb (demoType argument) "kpi" then Some "kpiAgent"
    else if String.eqb (demoType argument) "insight" then Some "insightAgent"
    else if String.eqb (demoType argument) "sql" then Some "sqlQueryAgent"
    else None in
  (argument = None \/ argument = Some "" -> demoType argument = "kpi") /\
  (forall s, argument = Some s -> s <> "" -> demoType argument = s) /\
  match agent with
  | None =>
      events = [log ["Usage: npm start [kpi|insight|sql]"]; log ["Example: npm start kpi"]]
  | Some name =>
      exists title content,
        calls events = [(name, content)] /\
        match respond name content with
        | Fulfilled text =>
            events = [log [title]; generate name content; log ["Agent response:"; text];
                      log [Pipeline.nl +:+ Pipeline.nl +:+ "=== Demo Complete ==="]]
        | Rejected e =>
            events = [log [title]; generate name content; error "Error running demo:" e]
        end
  end.
Proof.
  intros events agent.
  split; [now intros [-> | ->]|].
  split.
  { intros s -> Hs. unfold demoType. now apply or_else_cases. }
  unfold agent, events, main.
  destruct (String.eqb (demoType argument) "kpi");
    [|destruct (String.eqb (demoType argument) "insight");
      [|destruct (String.eqb (demoType argument) "sql")]].
  - eexists. eexists. apply demo_events.
  - eexists. eexists. apply demo_events.
  - eexists. eexists. apply demo_events.
  - reflexivity.
Qed.

End DemoScript.

(** * The further properties on the sample data *)

Section OnTrialData.
Import Js Db DbRead.

Lemma sample_db_unique : KpiLog.unique_names (kpi Sample.db).
Proof. apply NoDup_singleton. Qed.

Lemma ghost_absent : "ghost" ∉ Kpi.name <$> kpi Sample.db.
Proof. intros H. apply list_elem_of_singleton in H. discriminate H. Qed.

Lemma alphabetical_total a b :
  Trial.alphabetical a b = true \/ Trial.alphabetical b a = true.
Proof.
  unfold Trial.alphabetical. rewrite !bool_decide_eq_true.
  destruct (String.le_total a b); [now left|now right].
Qed.

(** Saving order_count and redefining total_amount, in either order. *)
Lemma kpi_writes_commute_witness :
  row_named "order_count"
    (kpi (KpiLog.apply (KpiLog.by_saveKPITool 5 Sample.order_count)
            (KpiLog.apply (KpiLog.by_insertKPI 7 Sample.redefined) Sample.db))) =
  row_named "order_count"
    (kpi (KpiLog.apply (KpiLog.by_insertKPI 7 Sample.redefined)
            (KpiLog.apply (KpiLog.by_saveKPITool 5 Sample.order_count) Sample.db))).
Proof.
  apply (kpi_writes_commute (KpiLog.by_saveKPITool 5 Sample.order_count)
           (KpiLog.by_insertKPI 7 Sample.redefined) Sample.db "order_count").
  simpl. discriminate.
Defined.

Lemma fetchKPIs_after_write_witness :
  exists l,
    fetchKPIs Trial.alphabetical
      (KpiLog.apply (KpiLog.by_saveKPITool 5 Sample.order_count) Sample.db) =
    (Fulfilled l, KpiLog.apply (KpiLog.by_saveKPITool 5 Sample.order_count) Sample.db) /\
    NoDup (k_name <$> l).
Proof.
  destruct (fetchKPIs_after_write Trial.alphabetical
              (KpiLog.by_saveKPITool 5 Sample.order_count) Sample.db sample_db_unique
              eq_refl)
    as (l & H1 & _ & H3 & _).
  exists l. split; [exact H1|exact H3].
Defined.

Lemma fetchKPIs_in_name_order_witness :
  exists rows,
    fetchKPIs Trial.alphabetical Sample.db = (Fulfilled (listed <$> rows), Sample.db) /\
    Sorted (by_name Trial.alphabetical) rows.
Proof.
  destruct (fetchKPIs_in_name_order Trial.alphabetical Sample.db alphabetical_total)
    as (rows & H1 & _ & _ & H4).
  exists rows. split; [exact H1|exact H4].
Defined.

Lemma sample_db_references : Store.references_hold Sample.db.
Proof. intros r k Hr. now apply elem_of_nil in Hr. Qed.

Lemma sample_db_ids : Store.ids_fresh Sample.db.
Proof.
  split; [apply NoDup_nil_2|]. intros r Hr. now apply elem_of_nil in Hr.
Qed.

Lemma references_hold_after_statements_witness :
  Store.references_hold Sample.db /\
  Store.references_hold (Store.run_all Trial.statements Sample.db).
Proof.
  split; [exact sample_db_references|].
  apply (references_hold_after_statements Trial.statements Sample.db sample_db_references).
Defined.

Lemma ids_fresh_after_statements_witness :
  Store.ids_fresh Sample.db /\
  Store.ids_fresh (Store.run_all Trial.statements Sample.db).
Proof.
  split; [exact sample_db_ids|].
  apply (ids_fresh_after_statements Trial.statements Sample.db sample_db_ids).
Defined.

Lemma insight_of_unknown_kpi_is_rejected_witness :
  fst (insertInsight 9 Trial.on_ghost Sample.db) = Js.Rejected (DatabaseError "23503") /\
  insight (snd (insertInsight 9 Trial.on_ghost Sample.db)) = [].
Proof.
  destruct (insight_of_unknown_kpi_is_rejected 9 Trial.on_ghost Sample.db "ghost"
              eq_refl ltac:(discriminate) ghost_absent) as (H & _).
  destruct (H eq_refl) as (H1 & _).
  rewrite H1. split; reflexivity.
Defined.

Lemma limitedSql_ignores_padding_witness :
  limitedSql ("  " +:+ "SELECT 1" +:+ Pipeline.nl) 5 = limitedSql "SELECT 1" 5 /\
  limitedSql ("  " +:+ ("SELECT 1" +:+ ";") +:+ Pipeline.nl) 5 = "SELECT 1 LIMIT 5;".
Proof.
  destruct (limitedSql_ignores_padding "  " "SELECT 1" Pipeline.nl 5 eq_refl eq_refl)
    as [H1 H2].
  split; [exact H1|]. rewrite (H2 eq_refl). reflexivity.
Defined.

Lemma listColumns_of_listed_table_witness :
  listColumns "public.sales" Sample.db = (Fulfilled Sample.sales_columns, Sample.db).
Proof.
  destruct (listColumns_of_listed_table
              {| tbl_schema := "public"; tbl_name := "sales"; tbl_type := "BASE TABLE" |}
              Sample.db eq_refl) as [H _].
  etransitivity; [exact H|reflexivity].
Defined.

Lemma select_tables_returns_chosen_witness :
  exists out,
    KpiWorkflow.selectTablesStep ["public.sales"; "public.stores"]
      (Some {| KpiWorkflow.selectedTableIndexes := [1; 0; 1] |}) = Completed out /\
    length out = 3%nat.
Proof.
  destruct (select_tables_returns_chosen ["public.sales"; "public.stores"]
              {| KpiWorkflow.selectedTableIndexes := [1; 0; 1] |})
    as (out & H1 & H2 & _).
  - discriminate.
  - intros i Hi. simpl in Hi.
    apply elem_of_cons in Hi as [-> | Hi]; [simpl; lia|].
    apply elem_of_cons in Hi as [-> | Hi]; [simpl; lia|].
    apply list_elem_of_singleton in Hi as ->. simpl. lia.
  - exists out. split; [exact H1|exact H2].
Defined.

Lemma offered_table_index_selects_it_witness :
  KpiWorkflow.selectTablesStep ["public.sales"; "public.stores"]
    (Some {| KpiWorkflow.selectedTableIndexes := [1] |}) = Completed ["public.stores"].
Proof.
  apply (offered_table_index_selects_it ["public.sales"; "public.stores"]
           {| KpiWorkflow.it_index := 1; KpiWorkflow.it_name := "public.stores" |}).
  right. left.
Defined.

Lemma sample_selection_valid (i : Z) :
  0 <= i < 2 ->
  Described.selection_valid (KpiWorkflow.lc_columns Sample.listing) [("public.sales", [i])].
Proof.
  intros Hi t idxs H. apply list_elem_of_singleton in H. injection H as -> ->.
  exists Sample.sales_columns. split; [reflexivity|].
  intros j Hj. apply list_elem_of_singleton in Hj as ->. simpl. lia.
Qed.

Lemma select_columns_returns_named_witness :
  exists details,
    KpiWorkflow.selectColumnsAndDetailsStep Sample.listing (Some (Sample.selection [1])) =
    Completed details /\
    KpiWorkflow.selectedColumns details = ["public.sales.amount"].
Proof.
  destruct (select_columns_returns_named Sample.listing (Sample.selection [1]) eq_refl)
    as [H _].
  - apply sample_selection_valid. lia.
  - eexists. split; [exact H|reflexivity].
Defined.

Lemma select_columns_rejects_unknown_table_witness :
  KpiWorkflow.selectColumnsAndDetailsStep Sample.listing (Some Trial.with_unlisted) =
  Failed (Error "Table 'public.ghost' not found in selected tables").
Proof.
  apply (select_columns_rejects_unknown_table Sample.listing Trial.with_unlisted
           [("public.sales", [0])] [] "public.ghost" [3] eq_refl eq_refl).
  - apply sample_selection_valid. lia.
  - reflexivity.
  - reflexivity.
Defined.

Lemma sample_listing_expected : Control.has_selected_columns Sample.listing.
Proof.
  intros t Ht. apply list_elem_of_singleton in Ht as ->.
  exists Sample.sales_columns. reflexivity.
Qed.

Lemma offered_column_index_selects_it_witness :
  exists details,
    KpiWorkflow.selectColumnsAndDetailsStep Sample.listing (Some (Sample.selection [1])) =
    Completed details /\
    KpiWorkflow.selectedColumns details = ["public.sales.amount"].
Proof.
  destruct (offered_column_index_selects_it Sample.listing "public.sales"
              Sample.sales_columns (Sample.selection [1])
              {| KpiWorkflow.ic_index := 1; KpiWorkflow.ic_column_name := "amount";
                 KpiWorkflow.ic_data_type := "numeric" |}
              sample_listing_expected ltac:(left) eq_refl eq_refl eq_refl)
    as (_ & _ & H).
  apply H. right. left.
Defined.

(** Confirming the sample KPI with an empty edited SQL stores the
    previewed SQL and keeps the created_at of 100. *)
Lemma confirm_save_stores_the_kpi_witness :
  exists db' stored,
    KpiWorkflow.confirmAndSaveStep unit 7 Sample.confirm_input (Some Trial.confirm) Sample.db =
      (Completed {| KpiWorkflow.co_kpiName := "total_amount";
                    KpiWorkflow.co_success := true |}, db') /\
    row_named "total_amount" (kpi db') = Some stored /\
    Kpi.formula stored = "SELECT amount FROM public.sales" /\
    Kpi.created_at stored = 100.
Proof.
  destruct (confirm_save_stores_the_kpi unit 7 Sample.confirm_input Trial.confirm
              Sample.db eq_refl eq_refl)
    as (db' & stored & H1 & H2 & _ & H4 & _ & _ & _ & _ & H9 & _).
  exists db', stored. split; [exact H1|]. split; [exact H2|].
  split; [apply H4; now right|exact H9].
Defined.

(** Saving it through the name-based workflow stores the edited SQL and
    loses table_name and columns. *)
Lemma save_kpi_stores_the_kpi_witness :
  exists db' stored,
    row_named "total_amount" (kpi db') = Some stored /\
    fst (SimpleKpiWorkflow.saveKPIStep unit 7 Sample.save_input (Some Trial.save) Sample.db) =
      Completed {| SimpleKpiWorkflow.sv_kpiName := "total_amount";
                   SimpleKpiWorkflow.sv_success := true;
                   SimpleKpiWorkflow.sv_message := "KPI 'total_amount' saved successfully" |} /\
    Kpi.formula stored = "SELECT sum(amount) FROM public.sales" /\
    Kpi.table_name stored = None /\ Kpi.columns stored = None.
Proof.
  destruct (save_kpi_stores_the_kpi unit 7 Sample.save_input Trial.save Sample.db
              eq_refl eq_refl)
    as (db' & stored & H1 & H2 & H3 & _ & H5 & H6 & _).
  exists db', stored. split; [exact H2|]. split; [now rewrite H1|].
  split; [exact H3|]. split; [exact H5|exact H6].
Defined.

Lemma confirm_save_insight_appends_or_fails_witness :
  length (insight (snd (InsightWorkflow.confirmAndSaveInsightStep 7 Sample.insight_input
                          (Some Trial.confirm_insight) Sample.db))) = 1%nat.
Proof.
  destruct (confirm_save_insight_appends_or_fails 7 Sample.insight_input
              Trial.confirm_insight Sample.db eq_refl ltac:(discriminate) eq_refl)
    as (_ & H & _).
  destruct H as [_ H]; [left|]. now rewrite H.
Defined.


(** A run that has previewed its statement and waits for the
    confirmation, on an engine that would execute a DELETE. *)
Lemma simple_workflow_stores_nothing_unless_completed_witness :
  kpi (snd (Trial.deleting "DELETE FROM kpi" Sample.db)) = [] /\
  kpi (snd (Pipeline.simpleKpiWorkflow Trial.alphabetical Trial.tables Sample.generator unit
              Trial.deleting 7 Trial.simple_unconfirmed Sample.db)) = kpi Sample.db.
Proof.
  split; [reflexivity|].
  apply (simple_workflow_stores_nothing_unless_completed Trial.alphabetical Trial.tables
           Sample.generator unit Trial.deleting 7 Trial.simple_unconfirmed Sample.db).
  - intros text H. vm_compute in H. injection H as <-. split; reflexivity.
  - intros out H. vm_compute in H. discriminate H.
Defined.

Lemma kpi_workflow_saves_the_selection_witness :
  exists db2 stored,
    fst (Pipeline.kpiWorkflow Trial.alphabetical Trial.tables Sample.generator unit
           Trial.no_rows 7 Trial.kpi_resume Sample.db) =
      Completed {| KpiWorkflow.co_kpiName := "total_amount";
                   KpiWorkflow.co_success := true |} /\
    row_named "total_amount" (kpi db2) = Some stored /\
    Kpi.formula stored = "SELECT amount FROM public.sales" /\
    Kpi.table_name stored = Some "public.sales" /\
    Kpi.columns stored = Some ["public.sales.amount"].
Proof.
  destruct (kpi_workflow_saves_the_selection Trial.alphabetical Trial.tables
              Sample.generator unit Trial.no_rows 7 Trial.kpi_resume Sample.db Sample.db
              ["public.sales"; "public.stores"]
              {| KpiWorkflow.selectedTableIndexes := [0] |}
              Sample.listing (Sample.selection [1])
              "SELECT amount FROM public.sales" [] Trial.confirm)
    as (db2 & stored & H1 & H2 & H3 & _ & H5 & H6 & _);
    try reflexivity; try discriminate.
  - intros i Hi. apply list_elem_of_singleton in Hi as ->. simpl. lia.
  - apply sample_selection_valid. lia.
  - exists db2, stored. split; [now rewrite H1|]. split; [exact H2|].
    split; [exact H3|]. split; [exact H5|exact H6].
Defined.

Lemma kpi_workflow_stores_nothing_unless_completed_witness :
  kpi (snd (Pipeline.kpiWorkflow Trial.alphabetical Trial.tables Sample.generator unit
              Trial.deleting 7 Trial.kpi_unconfirmed Sample.db)) = kpi Sample.db.
Proof.
  apply (kpi_workflow_stores_nothing_unless_completed Trial.alphabetical Trial.tables
           Sample.generator unit Trial.deleting 7 Trial.kpi_unconfirmed Sample.db).
  - intros text H. vm_compute in H. injection H as <-. split; reflexivity.
  - intros out H. vm_compute in H. discriminate H.
Defined.

Lemma fetched_kpi_is_selected_by_name_witness :
  exists kpis,
    Pipeline.fetchKPIsStep Trial.alphabetical Sample.db = (Completed kpis, Sample.db) /\
    InsightWorkflow.selectKPIStep kpis (Some (Sample.pick "total_amount" "q1-check")) =
    Completed {| InsightWorkflow.out_kpiName := "total_amount";
                 InsightWorkflow.out_kpiFormula := "SELECT amount FROM public.sales";
                 InsightWorkflow.out_insightName := "q1-check";
                 InsightWorkflow.out_insightDescription := "Quarterly check" |}.
Proof.
  destruct (fetched_kpi_is_selected_by_name Trial.alphabetical Sample.db
              (Sample.pick "total_amount" "q1-check") sample_db_unique
              ltac:(discriminate) ltac:(discriminate))
    as (kpis & H1 & H2 & _).
  exists kpis. split; [exact H1|]. apply (H2 Sample.total_amount). reflexivity.
Defined.



(** The server that rejects the second statement: the first one stays
    applied and the client is back in the pool. *)
Lemma ensureTables_stops_at_first_rejection_witness :
  Startup.ensureTables _ Sample.connects Sample.rejects_insight Sample.fresh_pool =
  (Js.Rejected (DatabaseError "42501"),
   {| Startup.server := [Startup.CreateTableKpi]; Startup.clients_out := 0 |}).
Proof.
  destruct (ensureTables_stops_at_first_rejection _ Sample.connects Sample.rejects_insight
              Sample.fresh_pool) as (_ & H & _).
  apply (H () [Startup.CreateTableKpi] Startup.CreateTableInsight
           [Startup.AddColumnTableName; Startup.AddColumnColumns]
           [Startup.CreateTableKpi] [Startup.CreateTableKpi] (DatabaseError "42501"));
    reflexivity.
Defined.

(** The demo with an agent that cannot be reached. *)
Example demo_with_unreachable_agent :
  Demo.main Trial.offline (Some "insight") =
  [Demo.log ["=== Insight Agent Demo ===" +:+ Pipeline.nl];
   Demo.generate "insightAgent" "Show me all available KPIs so I can create an insight.";
   Demo.error "Error running demo:" (Error "no API key")] /\
  Demo.main Trial.offline (Some "report") =
  [Demo.log ["Usage: npm start [kpi|insight|sql]"]; Demo.log ["Example: npm start kpi"]] /\
  Demo.calls (Demo.main Trial.offline None) =
  [("kpiAgent", "I want to create a KPI. First, show me the available tables.")].
Proof. repeat split. Qed.

End OnTrialData.
